(** * pyine: a shallow embedding of the library and its checked properties

    The development follows the layout of the package:
    - [Py]         the fragment of the Python runtime the package relies on
                   (values produced by [json.loads], exceptions, [str] methods,
                   insertion-ordered dictionaries);
    - [Pandas]     the contract of the few pandas entry points the package calls;
    - [exceptions] [pyine/exceptions.py];
    - [models]     [pyine/models.py];
    - [api]        [pyine/api.py].

    Text is ASCII: a [string] is the sequence of the characters of a Python
    [str], and ordering on characters is ordering on code points. *)

From Stdlib Require Import ZArith List String Ascii Bool Lia DecimalString.
Import ListNotations.
Open Scope string_scope.
Open Scope list_scope.
Open Scope Z_scope.

Set Warnings "-register-all".

Infix "+++" := String.append (right associativity, at level 60).

(* ================================================================== *)
(** * Values and exceptions *)

(** What [json.loads] returns.  A float is kept as its [repr] text, which
    determines it; an object keeps its members in insertion order (the keys
    of a Python [dict] are pairwise distinct). *)
Inductive json : Type :=
| JNull
| JBool (b : bool)
| JInt (n : Z)
| JFloat (repr : string)
| JStr (s : string)
| JArr (items : list json)
| JObj (members : list (string * json)).

(** [requests.Response] as the package sees it: the status code and the
    decoded body ([None] when the body is not JSON, so [json()] raises). *)
Record Response : Type := mkResponse {
  status_code : Z;
  body : option json
}.

(** The state of an [INEInvalidRequestError] instance after [__init__]. *)
Record INEInvalidRequestError : Type := mkINEError {
  response : Response;
  message : string;
  ine_errors : list json
}.

Inductive exn : Type :=
| KeyError
| IndexError
| TypeError
| AttributeError
| ValueError
| OutOfBoundsDatetime
| JSONDecodeError
| RequestException
| HTTPError (status : Z)
| INEInvalidRequest (e : INEInvalidRequestError)
| NotModelled.

Inductive result (A : Type) : Type :=
| Ok (a : A)
| Raise (e : exn).
Arguments Ok {A} a.
Arguments Raise {A} e.

Definition bind {A B : Type} (m : result A) (k : A -> result B) : result B :=
  match m with
  | Ok a => k a
  | Raise e => Raise e
  end.

Notation "x <- m ;; k" := (bind m (fun x => k))
  (at level 61, m at next level, right associativity).
Notation "' p <- m ;; k" := (bind m (fun x => match x with p => k end))
  (at level 61, p pattern, m at next level, right associativity).

(** [for x in xs: acc = body(acc, x)], stopping at the first exception. *)
Fixpoint foldM {A S : Type} (body : S -> A -> result S) (xs : list A) (acc : S)
  : result S :=
  match xs with
  | [] => Ok acc
  | x :: xs' => acc' <- body acc x ;; foldM body xs' acc'
  end.

Fixpoint mapM {A B : Type} (f : A -> result B) (xs : list A) : result (list B) :=
  match xs with
  | [] => Ok []
  | x :: xs' => y <- f x ;; ys <- mapM f xs' ;; Ok (y :: ys)
  end.

(* ================================================================== *)
(** * The Python runtime *)

Module Py.

(** ** [str] *)

Definition startswith (s p : string) : bool := String.prefix p s.

Fixpoint endswith (s p : string) : bool :=
  String.eqb s p ||
  match s with
  | EmptyString => false
  | String _ s' => endswith s' p
  end.

(** [p in s] for two strings. *)
Fixpoint contains (s p : string) : bool :=
  String.prefix p s ||
  match s with
  | EmptyString => false
  | String _ s' => contains s' p
  end.

(** [str.isspace] on one ASCII character: TAB..CR, FS..US and the space. *)
Definition is_space (c : ascii) : bool :=
  let n := Z.of_N (N_of_ascii c) in
  ((9 <=? n) && (n <=? 13)) || ((28 <=? n) && (n <=? 32)).

(** [s.split()]: maximal runs of non-blank characters, in order.  [cur] is
    the word being read. *)
Fixpoint split_from (cur : string) (s : string) : list string :=
  match s with
  | EmptyString => match cur with EmptyString => [] | _ => [cur] end
  | String c s' =>
      if is_space c then
        match cur with
        | EmptyString => split_from EmptyString s'
        | _ => cur :: split_from EmptyString s'
        end
      else split_from (cur +++ String c EmptyString) s'
  end.

Definition split (s : string) : list string := split_from EmptyString s.

(** [sep.join(parts)] *)
Fixpoint join (sep : string) (parts : list string) : string :=
  match parts with
  | [] => EmptyString
  | [p] => p
  | p :: ps => p +++ sep +++ join sep ps
  end.

Definition lower_char (c : ascii) : ascii :=
  let n := N_of_ascii c in
  if ((65 <=? n) && (n <=? 90))%N then ascii_of_N (n + 32) else c.

Fixpoint lower (s : string) : string :=
  match s with
  | EmptyString => EmptyString
  | String c s' => String (lower_char c) (lower s')
  end.

Definition str_of_Z (n : Z) : string := NilZero.string_of_int (Z.to_int n).

(** ** [list] *)

(** [xs[i]] for a non-negative literal index. *)
Definition list_index {A : Type} (xs : list A) (i : nat) : result A :=
  match nth_error xs i with
  | Some x => Ok x
  | None => Raise IndexError
  end.

(** [range(lo, hi)] *)
Definition range (lo hi : nat) : list nat := seq lo (hi - lo).

(** ** [dict], insertion-ordered *)

Definition dict (V : Type) : Type := list (string * V).

Fixpoint dict_get {V : Type} (d : dict V) (k : string) : option V :=
  match d with
  | [] => None
  | (k', v) :: d' => if String.eqb k' k then Some v else dict_get d' k
  end.

Definition dict_mem {V : Type} (d : dict V) (k : string) : bool :=
  match dict_get d k with Some _ => true | None => false end.

(** [d[k] = v]: an existing key keeps its place, a new key goes last. *)
Fixpoint dict_set {V : Type} (d : dict V) (k : string) (v : V) : dict V :=
  match d with
  | [] => [(k, v)]
  | (k', v') :: d' =>
      if String.eqb k' k then (k', v) :: d' else (k', v') :: dict_set d' k v
  end.

(** [{**a, **b}] *)
Definition dict_merge {V : Type} (a b : dict V) : dict V :=
  fold_left (fun acc kv => dict_set acc (fst kv) (snd kv)) b a.

Definition keys {V : Type} (d : dict V) : list string := map fst d.

(** [k in [s1, s2, ...]] for a string [k] and string literals. *)
Definition str_in (k : string) (l : list string) : bool :=
  existsb (String.eqb k) l.

(** ** Operations on decoded JSON *)

(** [v == s] for a string literal [s]: only an equal string is equal. *)
Definition eq_str (v : json) (s : string) : bool :=
  match v with
  | JStr t => String.eqb t s
  | _ => false
  end.

(** [s in v] for a string literal [s]. *)
Definition py_in (s : string) (v : json) : result bool :=
  match v with
  | JObj m => Ok (dict_mem m s)
  | JArr l => Ok (existsb (fun x => eq_str x s) l)
  | JStr t => Ok (contains t s)
  | _ => Raise TypeError
  end.

(** [v[k]] for a string key. *)
Definition getitem (v : json) (k : string) : result json :=
  match v with
  | JObj m => match dict_get m k with Some x => Ok x | None => Raise KeyError end
  | _ => Raise TypeError
  end.

(** [v[i]] for a non-negative integer literal. *)
Definition getindex (v : json) (i : nat) : result json :=
  match v with
  | JArr l => list_index l i
  | JStr t => match String.get i t with
              | Some c => Ok (JStr (String c EmptyString))
              | None => Raise IndexError
              end
  | JObj _ => Raise KeyError
  | _ => Raise TypeError
  end.

(** [v.items()] *)
Definition items (v : json) : result (dict json) :=
  match v with
  | JObj m => Ok m
  | _ => Raise AttributeError
  end.

(** [{**v}]: the unpacked value has to be a mapping. *)
Definition mapping (v : json) : result (dict json) :=
  match v with
  | JObj m => Ok m
  | _ => Raise TypeError
  end.

Definition chars (s : string) : list json :=
  map (fun c => JStr (String c EmptyString)) (list_ascii_of_string s).

(** [for x in v] *)
Definition iter (v : json) : result (list json) :=
  match v with
  | JArr l => Ok l
  | JObj m => Ok (map (fun kv => JStr (fst kv)) m)
  | JStr t => Ok (chars t)
  | _ => Raise TypeError
  end.

(** [len(v)] *)
Definition len (v : json) : result nat :=
  match v with
  | JArr l => Ok (List.length l)
  | JObj m => Ok (List.length m)
  | JStr t => Ok (String.length t)
  | _ => Raise TypeError
  end.

(** [repr] of a string: single quotes unless the text has a single quote and
    no double quote; backslash, the chosen quote and control characters are
    escaped. *)
Definition hex_digit (n : N) : ascii :=
  if (n <? 10)%N then ascii_of_N (48 + n) else ascii_of_N (87 + n).

Definition escape_char (quote : ascii) (c : ascii) : string :=
  let n := N_of_ascii c in
  if Ascii.eqb c "\"%char then "\\"
  else if Ascii.eqb c quote then String "\"%char (String c EmptyString)
  else if (n =? 10)%N then "\n"
  else if (n =? 13)%N then "\r"
  else if (n =? 9)%N then "\t"
  else if ((n <? 32) || (n =? 127))%N then
    "\x" +++ String (hex_digit (n / 16)) (String (hex_digit (n mod 16)) EmptyString)
  else String c EmptyString.

Fixpoint escape (quote : ascii) (s : string) : string :=
  match s with
  | EmptyString => EmptyString
  | String c s' => escape_char quote c +++ escape quote s'
  end.

Definition has_char (c : ascii) (s : string) : bool :=
  existsb (Ascii.eqb c) (list_ascii_of_string s).

Definition double_quote : ascii := ascii_of_N 34.

Definition repr_str (s : string) : string :=
  let quote : ascii :=
    if has_char "'"%char s && negb (has_char double_quote s)
    then double_quote else "'"%char in
  String quote (escape quote s) +++ String quote EmptyString.

Fixpoint repr (v : json) : string :=
  match v with
  | JNull => "None"
  | JBool true => "True"
  | JBool false => "False"
  | JInt n => str_of_Z n
  | JFloat r => r
  | JStr s => repr_str s
  | JArr l => "[" +++ join ", " (map repr l) +++ "]"
  | JObj m =>
      "{" +++ join ", " (map (fun kv => repr_str (fst kv) +++ ": " +++ repr (snd kv)) m)
          +++ "}"
  end.

(** [str(v)], which is what an f-string field renders. *)
Definition str (v : json) : string :=
  match v with
  | JStr s => s
  | _ => repr v
  end.

End Py.

(* ================================================================== *)
(** * The pandas entry points used by the package

    Each definition states the documented behaviour of one pandas call on
    the inputs the package passes to it.  Labels of rows and columns are
    text; a call whose outcome the model does not state raises
    [NotModelled]. *)

Module Pandas.

(** ** Timestamps and [to_datetime] with an explicit format *)

Record Timestamp : Type := mkTimestamp {
  year : Z;
  month : Z;
  day : Z
}.

Definition digit (c : ascii) : option Z :=
  let n := Z.of_N (N_of_ascii c) in
  if (48 <=? n) && (n <=? 57) then Some (n - 48) else None.

(** [%Y]: exactly four digits. *)
Definition read_Y (s : string) : option (Z * string) :=
  match s with
  | String a (String b (String c (String d rest))) =>
      match digit a, digit b, digit c, digit d with
      | Some x, Some y, Some z, Some w =>
          Some (1000 * x + 100 * y + 10 * z + w, rest)
      | _, _, _, _ => None
      end
  | _ => None
  end.

(** [%m]: the alternatives [1[0-2]], [0[1-9]], [[1-9]], tried in this order. *)
Definition read_m (s : string) : option (Z * string) :=
  match s with
  | String a rest =>
      match digit a with
      | Some x =>
          let single := if 1 <=? x then Some (x, rest) else None in
          match rest with
          | String b rest' =>
              match digit b with
              | Some y =>
                  if (x =? 1) && (y <=? 2) then Some (10 + y, rest')
                  else if (x =? 0) && (1 <=? y) then Some (y, rest')
                  else single
              | None => single
              end
          | EmptyString => single
          end
      | None => None
      end
  | EmptyString => None
  end.

Definition month_names : list string :=
  [ "january"; "february"; "march"; "april"; "may"; "june"; "july";
    "august"; "september"; "october"; "november"; "december" ].

(** [%B]: a full English month name, letter case ignored. *)
Fixpoint read_B_from (names : list string) (num : Z) (s : string)
  : option (Z * string) :=
  match names with
  | [] => None
  | name :: names' =>
      let n := String.length name in
      if String.eqb (Py.lower (String.substring 0 n s)) name
      then Some (num, String.substring n (String.length s - n) s)
      else read_B_from names' (num + 1) s
  end.

Definition read_B (s : string) : option (Z * string) :=
  read_B_from month_names 1 s.

(** A blank of the format stands for one or more blanks of the text. *)
Fixpoint skip_blanks (s : string) : string :=
  match s with
  | String c s' => if Py.is_space c then skip_blanks s' else s
  | EmptyString => s
  end.

Definition read_blanks (s : string) : option string :=
  match s with
  | String c s' => if Py.is_space c then Some (skip_blanks s') else None
  | EmptyString => None
  end.

Inductive format : Type :=
| fmt_Y     (* "%Y" *)
| fmt_Ym    (* "%Y-%m" *)
| fmt_BY.   (* "%B %Y" *)

Definition at_end {A : Type} (r : option (A * string)) : option A :=
  match r with
  | Some (a, EmptyString) => Some a
  | _ => None
  end.

(** The year and the month a text denotes under a format; the whole text
    has to match. *)
Definition parse (f : format) (s : string) : option (Z * Z) :=
  match f with
  | fmt_Y =>
      match at_end (read_Y s) with
      | Some y => Some (y, 1)
      | None => None
      end
  | fmt_Ym =>
      match read_Y s with
      | Some (y, String "-" rest) =>
          match at_end (read_m rest) with
          | Some m => Some (y, m)
          | None => None
          end
      | _ => None
      end
  | fmt_BY =>
      match read_B s with
      | Some (m, rest) =>
          match read_blanks rest with
          | Some rest' =>
              match at_end (read_Y rest') with
              | Some y => Some (y, m)
              | None => None
              end
          | None => None
          end
      | None => None
      end
  end.

(** Years that lie wholly inside the range of a nanosecond [Timestamp]. *)
Definition in_bounds (y : Z) : bool := (1678 <=? y) && (y <=? 2261).

(** [pd.to_datetime(s, format=f)] on one text. *)
Definition to_datetime (s : string) (f : format) : result Timestamp :=
  match parse f s with
  | Some (y, m) =>
      if in_bounds y then Ok (mkTimestamp y m 1) else Raise OutOfBoundsDatetime
  | None => Raise ValueError
  end.

Definition pad2 (n : Z) : string :=
  if n <? 10 then "0" +++ Py.str_of_Z n else Py.str_of_Z n.

(** [t.strftime('%Y-%m-%d')] *)
Definition strftime_Ymd (t : Timestamp) : string :=
  Py.str_of_Z (year t) +++ "-" +++ pad2 (month t) +++ "-" +++ pad2 (day t).

(** ** Column axes *)

Definition tuple : Type := list string.

Record MultiIndex : Type := mkMultiIndex {
  names : list json;
  tuples : list tuple
}.

Definition nlevels (mi : MultiIndex) : nat := List.length (names mi).

Definition hashable (v : json) : bool :=
  match v with
  | JArr _ | JObj _ => false
  | _ => true
  end.

(** A label of the axis: text, or an exception. *)
Definition as_label (v : json) : result string :=
  match v with
  | JStr s => Ok s
  | JArr _ | JObj _ => Raise TypeError
  | _ => Raise NotModelled
  end.

(** The ordered Cartesian product: the first list varies slowest. *)
Fixpoint product {A : Type} (ls : list (list A)) : list (list A) :=
  match ls with
  | [] => [[]]
  | l :: ls' => flat_map (fun x => map (cons x) (product ls')) l
  end.

(** [pd.MultiIndex.from_product(iterables)]; levels are unnamed at first. *)
Definition from_product (iterables : list (list json)) : result MultiIndex :=
  levels <- mapM (mapM as_label) iterables ;;
  match levels with
  | [] => Raise ValueError
  | _ => Ok (mkMultiIndex (map (fun _ => JNull) levels) (product levels))
  end.

(** [mi.names = new_names] *)
Definition set_names (mi : MultiIndex) (new_names : list json) : result MultiIndex :=
  if negb (Nat.eqb (List.length new_names) (nlevels mi)) then Raise ValueError
  else if negb (forallb hashable new_names) then Raise TypeError
  else Ok (mkMultiIndex new_names (tuples mi)).

(** ** Frames *)

(** A cell: [None] is the "no value" marker (NaN). *)
Definition cell : Type := option json.

Inductive Index : Type :=
| ObjectIndex (labels : list string)
| DatetimeIndex (stamps : list Timestamp).

(** A frame is stored by column: the key of each column and its cells, one
    per row. *)
Record DataFrame : Type := mkDataFrame {
  index : Index;
  index_name : option string;
  column_names : list json;
  columns : list (tuple * list cell)
}.

(** [pd.DataFrame(index=rows, columns=mi)]: every cell is NaN. *)
Definition new_frame (rows : list string) (mi : MultiIndex) : DataFrame :=
  mkDataFrame (ObjectIndex rows) None (names mi)
    (map (fun t => (t, repeat (@None json) (List.length rows))) (tuples mi)).

(** Lexicographic order on column keys. *)
Fixpoint tuple_leb (a b : tuple) : bool :=
  match a, b with
  | [], _ => true
  | _ :: _, [] => false
  | x :: a', y :: b' =>
      match String.compare x y with
      | Lt => true
      | Gt => false
      | Eq => tuple_leb a' b'
      end
  end.

Fixpoint insert_sorted {A : Type} (c : tuple * A) (l : list (tuple * A))
  : list (tuple * A) :=
  match l with
  | [] => [c]
  | d :: l' =>
      if tuple_leb (fst c) (fst d) then c :: l else d :: insert_sorted c l'
  end.

(** [df.sort_index(axis=1, inplace=True)] *)
Definition sort_columns (df : DataFrame) : DataFrame :=
  mkDataFrame (index df) (index_name df) (column_names df)
    (fold_right insert_sorted [] (columns df)).

Fixpoint position (row : string) (rows : list string) : option nat :=
  match rows with
  | [] => None
  | r :: rows' =>
      if String.eqb r row then Some O
      else match position row rows' with
           | Some i => Some (S i)
           | None => None
           end
  end.

Fixpoint set_nth {A : Type} (i : nat) (x : A) (l : list A) : list A :=
  match l, i with
  | [], _ => []
  | _ :: l', O => x :: l'
  | y :: l', S i' => y :: set_nth i' x l'
  end.

(** [key] selects the columns whose key starts with it. *)
Fixpoint selects (key t : tuple) : bool :=
  match key, t with
  | [], _ => true
  | _ :: _, [] => false
  | x :: key', y :: t' => String.eqb x y && selects key' t'
  end.

(** [df.loc[row, key] = v] for an existing row label and a scalar [v].
    Every column of the embedding has the dtype [object] of the columns that
    [pd.DataFrame(index=..., columns=...)] creates, in which an assignment
    stores the value as it is.  A key that selects columns overwrites their
    cell of the row.  A key of full depth that selects none is "setting with
    enlargement": a column for the key is appended, NaN except at the row.
    The appended column takes its dtype from the value: [object] for text,
    which is stored as it is; [float64] for a number, which is stored as a
    float, as is every number assigned to that column later.  The embedding
    has no typed columns, so enlargement is covered for text and is
    [NotModelled] for the other scalars.  Any other key is a [KeyError]. *)
Definition loc_set (df : DataFrame) (row : string) (key : tuple) (v : json)
  : result DataFrame :=
  match index df, v with
  | DatetimeIndex _, _ => Raise NotModelled
  | _, JArr _ => Raise NotModelled
  | _, JObj _ => Raise NotModelled
  | ObjectIndex rows, _ =>
      match position row rows with
      | None => Raise NotModelled
      | Some i =>
          let depth := List.length (column_names df) in
          if existsb (fun c => selects key (fst c)) (columns df)
          then Ok (mkDataFrame (index df) (index_name df) (column_names df)
                     (map (fun c => if selects key (fst c)
                                    then (fst c, set_nth i (Some v) (snd c))
                                    else c)
                          (columns df)))
          else if Nat.eqb (List.length key) depth
          then match v with
               | JStr _ =>
                   Ok (mkDataFrame (index df) (index_name df) (column_names df)
                         (columns df ++
                          [(key, set_nth i (Some v)
                                   (repeat None (List.length rows)))]))
               | _ => Raise NotModelled
               end
          else Raise KeyError
      end
  end.

(** ** [to_numeric] *)

Inductive errors_mode : Type :=
| errors_raise
| errors_coerce.

Section Numeric.

(** The numbers of a numeric column, and the conversion of one object to
    a number ([None] when the object does not read as a number). *)
Variable number : Type.
Variable to_number : json -> option number.

Definition to_numeric_cell (errors : errors_mode) (c : cell)
  : result (option number) :=
  match c with
  | None => Ok None
  | Some JNull => Ok None
  | Some v =>
      match to_number v with
      | Some x => Ok (Some x)
      | None =>
          match errors with
          | errors_coerce => Ok None
          | errors_raise => Raise ValueError
          end
      end
  end.

(** [pd.to_numeric(column, errors=...)] *)
Definition to_numeric (errors : errors_mode) (column : list cell)
  : result (list (option number)) :=
  mapM (to_numeric_cell errors) column.

End Numeric.

(** ** [melt] *)

(** One row of [df.reset_index().melt(id_vars=[first column])]: the row
    label, the key of the column and the cell. *)
Record melted (L : Type) (V : Type) : Type := mkMelted {
  id : L;
  variables : tuple;
  value : V
}.
Arguments mkMelted {L V} id variables value.
Arguments id {L V} m.
Arguments variables {L V} m.
Arguments value {L V} m.

Fixpoint zip {A B : Type} (l : list A) (l' : list B) : list (A * B) :=
  match l, l' with
  | x :: t, y :: t' => (x, y) :: zip t t'
  | _, _ => []
  end.

(** Columns are stacked one after the other, each over all rows. *)
Definition stack {L : Type} (rows : list L) (cols : list (tuple * list cell))
  : list (melted L cell) :=
  flat_map (fun c => map (fun rc => mkMelted (fst rc) (fst c) (snd rc))
                         (zip rows (snd c)))
           cols.

(** The level names when all of them are text. *)
Fixpoint texts (names : list json) : option (list string) :=
  match names with
  | [] => Some []
  | JStr s :: names' =>
      match texts names' with
      | Some l => Some (s :: l)
      | None => None
      end
  | _ :: _ => None
  end.

Fixpoint distinct (l : list string) : bool :=
  match l with
  | [] => true
  | s :: l' => negb (Py.str_in s l') && distinct l'
  end.

Fixpoint tuple_eqb (a b : tuple) : bool :=
  match a, b with
  | [], [] => true
  | x :: a', y :: b' => String.eqb x y && tuple_eqb a' b'
  | _, _ => false
  end.

(** No two columns have the same key. *)
Fixpoint unique (keys : list tuple) : bool :=
  match keys with
  | [] => true
  | t :: keys' => negb (existsb (tuple_eqb t) keys') && unique keys'
  end.

(** The first label of a key is [s]. *)
Definition starts_with (s : string) (t : tuple) : bool :=
  match t with
  | x :: _ => String.eqb x s
  | [] => false
  end.

(** What [df.reset_index().melt(id_vars=[first column], value_name="Value")]
    asks of the column axis.  [reset_index] puts the row labels in a first
    column, keyed by the name of the index (["index"] without one) followed
    by empty labels; [melt] pops that column, stacks the others and builds a
    frame with the popped column, one column per level, named after the
    level, and the column ["Value"].
    - On an axis where two columns have the same key, popping the first
      column gives a frame and not a column, and reading its dtype raises
      [AttributeError].
    - With a level named ["Value"], the column of that level and the
      column of the values are both to be named ["Value"], and building the
      frame raises [TypeError].
    The embedding covers the frames whose row labels are not named
    ["Value"], whose level names are distinct texts, none of them ["Period"]
    or the name of the row labels, and whose keys start neither with the
    name of the row labels nor with ["Value"]; what pandas
    does of the other axes (renamed levels, a refused insertion, a
    [value_name] found among the columns) is [NotModelled]. *)
Definition melt_check (index_name : option string) (names : list json)
           (keys : list tuple) : result unit :=
  let row_name := match index_name with Some n => n | None => "index" end in
  match texts names with
  | None => Raise NotModelled
  | Some ns =>
      if negb (distinct ns) || Py.str_in row_name ns || Py.str_in "Period" ns
         || String.eqb row_name "Value"
         || existsb (starts_with row_name) keys
         || existsb (starts_with "Value") keys
      then Raise NotModelled
      else if negb (unique keys) then Raise AttributeError
      else if Py.str_in "Value" ns then Raise TypeError
      else Ok tt
  end.

Definition melt {L : Type} (index_name : option string) (names : list json)
           (rows : list L) (cols : list (tuple * list cell))
  : result (list (melted L cell)) :=
  _ <- melt_check index_name names (map fst cols) ;;
  Ok (stack rows cols).

End Pandas.

(* ================================================================== *)
(** * The two methods of [requests.Response] the package calls *)

Module Requests.

(** [response.json()] *)
Definition json_ (r : Response) : result json :=
  match body r with
  | Some v => Ok v
  | None => Raise JSONDecodeError
  end.

(** [requests.Response.raise_for_status]: [HTTPError] on 4xx and 5xx. *)
Definition raise_for_status (r : Response) : result unit :=
  if (400 <=? status_code r) && (status_code r <? 600)
  then Raise (HTTPError (status_code r))
  else Ok tt.

End Requests.

(* ================================================================== *)
(** * pyine/exceptions.py *)

Module exceptions.

(** [INEInvalidRequestError.get_ine_errors], on the response the instance
    holds. *)
Definition get_ine_errors (resp : Response) : result (list json) :=
  response_data <- Requests.json_ resp ;;
  match response_data with
  | JArr (first :: _) =>
      has_sucesso <- Py.py_in "Sucesso" first ;;
      if has_sucesso then
        sucesso <- Py.getitem first "Sucesso" ;;
        has_falso <- Py.py_in "Falso" sucesso ;;
        if has_falso then
          falso <- Py.getitem sucesso "Falso" ;;
          match falso with
          | JArr (e :: es) => Ok (e :: es)
          | _ => Ok []
          end
        else Ok []
      else Ok []
  | _ => Ok []
  end.

Definition default_message : string := "INE returned an error.".

(** [INEInvalidRequestError(response)] *)
Definition init (resp : Response) : result INEInvalidRequestError :=
  errors <- get_ine_errors resp ;;
  Ok (mkINEError resp default_message errors).

(** [INEInvalidRequestError.__str__] *)
Definition str_ (self : INEInvalidRequestError) : result string :=
  first <- Py.list_index (ine_errors self) 0 ;;
  has_msg <- Py.py_in "Msg" first ;;
  if has_msg then
    msg <- Py.getitem first "Msg" ;;
    Ok (message self +++ " Error: " +++ Py.str msg)
  else Ok (message self).

End exceptions.

(* ================================================================== *)
(** * pyine/models.py *)

Module models.

(** [Response.is_ine_error]: the truth value of the returned object. *)
Definition is_ine_error (self : Response) : result bool :=
  response_data <- Requests.json_ self ;;
  match response_data with
  | JArr (first :: _) =>
      has_sucesso <- Py.py_in "Sucesso" first ;;
      if has_sucesso then
        sucesso <- Py.getitem first "Sucesso" ;;
        Py.py_in "Falso" sucesso
      else Ok false
  | _ => Ok false
  end.

(** [Response.raise_for_status] *)
Definition raise_for_status (self : Response) : result unit :=
  _ <- Requests.raise_for_status self ;;
  failed <- is_ine_error self ;;
  if failed then
    e <- exceptions.init self ;;
    Raise (INEInvalidRequest e)
  else Ok tt.

Record Indicator : Type := mkIndicator {
  data : Pandas.DataFrame;
  metadata : Py.dict json
}.

(** [Indicator.__getattr__] *)
Definition getattr (self : Indicator) (name : string) : result json :=
  match Py.dict_get (metadata self) name with
  | Some v => Ok v
  | None => Raise AttributeError
  end.

(** [Indicator.__repr__]: both attributes go through [__getattr__]. *)
Definition repr_ (self : Indicator) : result string :=
  description <- getattr self "description" ;;
  code <- getattr self "code" ;;
  Ok ("<Indicator: " +++ Py.str description +++ " (" +++ Py.str code +++ ")>").

(** A value of the exported mapping: a metadata value, or the list of flat
    records stored under ["data"]. *)
Inductive exported (number : Type) : Type :=
| Meta (v : json)
| Records (rs : list (Pandas.melted string (option number))).
Arguments Meta {number} v.
Arguments Records {number} rs.

Section ToDict.

Variable number : Type.
Variable to_number : json -> option number.

(** [Indicator.to_dict].  The melted frame has the row label first (named
    after the index), one field per level of the column axis and the field
    ["Value"]; [melt] raises on the axes it cannot unpivot.  The field
    ["Period"] exists when the index is named so, and [.dt] asks for a
    datetime column. *)
Definition to_dict (self : Indicator) : result (Py.dict (exported number)) :=
  let result_ := map (fun kv => (fst kv, Meta (snd kv))) (metadata self) in
  let df := data self in
  let has_period :=
    match Pandas.index_name df with
    | Some name => String.eqb name "Period"
    | None => false
    end in
  match Pandas.index df with
  | Pandas.ObjectIndex rows =>
      df_melted <- Pandas.melt (Pandas.index_name df) (Pandas.column_names df)
                     rows (Pandas.columns df) ;;
      values <- Pandas.to_numeric number to_number Pandas.errors_coerce
                  (map Pandas.value df_melted) ;;
      if has_period then Raise AttributeError else Raise KeyError
  | Pandas.DatetimeIndex rows =>
      df_melted <- Pandas.melt (Pandas.index_name df) (Pandas.column_names df)
                     rows (Pandas.columns df) ;;
      values <- Pandas.to_numeric number to_number Pandas.errors_coerce
                  (map Pandas.value df_melted) ;;
      if has_period then
        let records :=
          map (fun mv =>
                 Pandas.mkMelted
                   (Pandas.strftime_Ymd (Pandas.id (fst mv)))
                   (Pandas.variables (fst mv))
                   (snd mv))
              (Pandas.zip df_melted values) in
        Ok (Py.dict_set result_ "data" (Records records))
      else Raise KeyError
  end.

End ToDict.

End models.

(* ================================================================== *)
(** * pyine/api.py *)

Module api.

Import Py.

Definition INE_API_BASE_URL : string := "https://www.ine.pt/ine/json_indicador".

Definition quarter_month_map : dict string :=
  [ ("1st", "03"); ("2nd", "06"); ("3rd", "09"); ("4th", "12") ].

(** [quarter_to_date] *)
Definition quarter_to_date (quarter_string : string) : result Pandas.Timestamp :=
  let parts := split quarter_string in
  quarter <- list_index parts 0 ;;
  year <- list_index parts 2 ;;
  let month :=
    match dict_get quarter_month_map quarter with
    | Some m => m
    | None => "01"
    end in
  Pandas.to_datetime (year +++ "-" +++ month) Pandas.fmt_Ym.

Section Transport.

(** [requests.get(url, timeout=20)] *)
Variable requests_get : string -> result Response.

(** [request].  The caller's [dim_values] object is shared with the
    function, so its state after the call is returned with the outcome. *)
Definition request (indicator_code : string) (data_type : string)
           (dim_values : option (dict json))
  : option (dict json) * result Response :=
  if String.eqb data_type "data" then
    match dim_values with
    | None =>
        (None,
         requests_get (INE_API_BASE_URL +++ "/pindica.jsp?op=2&varcd="
                         +++ indicator_code +++ "&lang=EN&" +++ "Dim1=T"))
    | Some d =>
        let d := if negb (dict_mem d "Dim1")
                 then dict_set d "Dim1" (JStr "T") else d in
        let dim_values_str :=
          join "&" (map (fun kv => fst kv +++ "=" +++ str (snd kv)) d) in
        (Some d,
         requests_get (INE_API_BASE_URL +++ "/pindica.jsp?op=2&varcd="
                         +++ indicator_code +++ "&lang=EN&" +++ dim_values_str))
    end
  else if String.eqb data_type "metadata" then
    (dim_values,
     requests_get (INE_API_BASE_URL +++ "/pindicaMeta.jsp?varcd="
                     +++ indicator_code +++ "&lang=EN"))
  else (dim_values, Raise ValueError).

End Transport.

(** ** The column axis (the loop over the dimension descriptors) *)

(** [value[0]["categ_dsg"]] *)
Definition categ_dsg (value : json) : result json :=
  first <- getindex value 0 ;;
  getitem first "categ_dsg".

(** The inner loop: the categories retained for the dimension [dim_num]. *)
Definition dim_columns (categoria : dict json) (dim_values : dict json)
           (dim_num : json) : result (list json) :=
  foldM (fun dim_columns kv =>
           let key := fst kv in
           let value := snd kv in
           if startswith key ("Dim_Num" +++ str dim_num) then
             match dict_get dim_values ("Dim" +++ str dim_num) with
             | Some dim_value =>
                 if endswith key ("_" +++ str dim_value) then
                   c <- categ_dsg value ;; Ok (dim_columns ++ [c])
                 else Ok dim_columns
             | None =>
                 c <- categ_dsg value ;; Ok (dim_columns ++ [c])
             end
           else Ok dim_columns)
        categoria [].

(** [metadata["Dimensoes"]["Categoria_Dim"][0].items()] *)
Definition categoria_dim (metadata : json) : result (dict json) :=
  dimensoes <- getitem metadata "Dimensoes" ;;
  categoria <- getitem dimensoes "Categoria_Dim" ;;
  first <- getindex categoria 0 ;;
  items first.

(** [metadata["Dimensoes"]["Descricao_Dim"]] *)
Definition descricao_dim (metadata : json) : result json :=
  dimensoes <- getitem metadata "Dimensoes" ;;
  getitem dimensoes "Descricao_Dim".

(** One turn of the outer loop, on [(col_index_iterables, col_index_names)]. *)
Definition add_dimension (metadata : json) (dim_values : dict json)
           (acc : list (list json) * list json) (dim_description : json)
  : result (list (list json) * list json) :=
  dim_num <- getitem dim_description "dim_num" ;;
  if eq_str dim_num "1" then Ok acc
  else
    categoria <- categoria_dim metadata ;;
    cols <- dim_columns categoria dim_values dim_num ;;
    abrv <- getitem dim_description "abrv" ;;
    Ok (fst acc ++ [cols], snd acc ++ [abrv]).

(** The descriptors the outer loop visits. *)
Definition dim_descriptions (metadata : json) : result (list json) :=
  descriptions <- descricao_dim metadata ;;
  iter descriptions.

Definition col_index_parts (metadata : json) (dim_values : dict json)
  : result (list (list json) * list json) :=
  descriptions <- dim_descriptions metadata ;;
  foldM (add_dimension metadata dim_values) descriptions ([], []).

(** [col_index] with its names set. *)
Definition col_index (metadata : json) (dim_values : dict json)
  : result Pandas.MultiIndex :=
  parts <- col_index_parts metadata dim_values ;;
  mi <- Pandas.from_product (fst parts) ;;
  Pandas.set_names mi (JStr "Location" :: tl (snd parts)).

(** ** The table *)

(** The tuple [dim_values] of one stat record: the geography code, then the
    fields [dim_3_t], [dim_4_t], ... up to the number of descriptors. *)
Definition column_key (metadata : json) (stat : json) : result (list json) :=
  geocod <- getitem stat "geocod" ;;
  descriptions <- descricao_dim metadata ;;
  n <- len descriptions ;;
  dims <- mapM (fun i => getitem stat ("dim_" +++ str_of_Z (Z.of_nat i) +++ "_t"))
               (range 3 (n + 1)) ;;
  Ok (geocod :: dims).

(** The body of the loop over the stat records of one period. *)
Definition insert_stat (metadata : json) (date : string)
           (df : Pandas.DataFrame) (stat : json) : result Pandas.DataFrame :=
  dim_values <- column_key metadata stat ;;
  has_valor <- py_in "valor" stat ;;
  if has_valor then
    valor <- getitem stat "valor" ;;
    key <- mapM Pandas.as_label dim_values ;;
    Pandas.loc_set df date key valor
  else Ok df.

Definition insert_period (metadata : json) (df : Pandas.DataFrame)
           (period : string * json) : result Pandas.DataFrame :=
  period_stats <- iter (snd period) ;;
  foldM (insert_stat metadata (fst period)) period_stats df.

(** The frame after the loop over [data["Dados"].items()]. *)
Definition fill_table (metadata : json) (dados : dict json)
           (df : Pandas.DataFrame) : result Pandas.DataFrame :=
  foldM (insert_period metadata) dados df.

(** The conversion of the row labels, by periodicity. *)
Definition convert_index (periodic : json) (rows : list string)
  : result Pandas.Index :=
  if eq_str periodic "Annual" || eq_str periodic "Decennial" then
    stamps <- mapM (fun s => Pandas.to_datetime s Pandas.fmt_Y) rows ;;
    Ok (Pandas.DatetimeIndex stamps)
  else if eq_str periodic "Quarterly" then
    stamps <- mapM quarter_to_date rows ;;
    match stamps with
    | [] => Ok (Pandas.ObjectIndex [])
    | _ => Ok (Pandas.DatetimeIndex stamps)
    end
  else if eq_str periodic "Monthly" then
    stamps <- mapM (fun s => Pandas.to_datetime s Pandas.fmt_BY) rows ;;
    Ok (Pandas.DatetimeIndex stamps)
  else Ok (Pandas.ObjectIndex rows).

Definition build_table (data metadata : json) (dim_values : dict json)
  : result Pandas.DataFrame :=
  mi <- col_index metadata dim_values ;;
  dados <- getitem data "Dados" ;;
  dados <- items dados ;;
  let df := Pandas.sort_columns (Pandas.new_frame (keys dados) mi) in
  df <- fill_table metadata dados df ;;
  periodic <- getitem metadata "Periodic" ;;
  ix <- convert_index periodic (keys dados) ;;
  Ok (Pandas.mkDataFrame ix (Some "Period")
        (Pandas.column_names df) (Pandas.columns df)).

(** ** The merged metadata *)

Definition metadata_key_map : dict string :=
  [ ("IndicadorCod", "code");
    ("IndicadorDsg", "description");
    ("MetaInfUrl", "meta_info_url");
    ("DataUltimoAtualizacao", "last_update_date");
    ("Periodic", "periodicity");
    ("PrimeiroPeriodo", "first_period");
    ("UltimoPref", "last_period");
    ("UltimoPeriodo", "last_period");
    ("UnidadeMedida", "unit");
    ("Potencia10", "power_of_10");
    ("PrecisaoDecimal", "decimal_precision");
    ("Lingua", "language") ].

(** [metadata_key_map.get(key, key)] *)
Definition canonical (key : string) : string :=
  match dict_get metadata_key_map key with
  | Some name => name
  | None => key
  end.

Definition excluded : list string :=
  [ "Dados"; "DataExtracao"; "Dimensoes"; "Sucesso" ].

Definition period_keys : list string := [ "PrimeiroPeriodo"; "UltimoPeriodo" ].

(** The conversion of a first or last period, then [strftime]. *)
Definition period_value (periodic : json) (value : json) : result json :=
  if eq_str periodic "Annual" || eq_str periodic "Decennial" then
    match value with
    | JStr s => t <- Pandas.to_datetime s Pandas.fmt_Y ;;
                Ok (JStr (Pandas.strftime_Ymd t))
    | _ => Raise NotModelled
    end
  else if eq_str periodic "Quarterly" then
    match value with
    | JStr s => t <- quarter_to_date s ;; Ok (JStr (Pandas.strftime_Ymd t))
    | _ => Raise AttributeError
    end
  else if eq_str periodic "Monthly" then
    match value with
    | JStr s => t <- Pandas.to_datetime s Pandas.fmt_BY ;;
                Ok (JStr (Pandas.strftime_Ymd t))
    | _ => Raise NotModelled
    end
  else Raise AttributeError.

(** One turn of the loop over [{**data, **metadata}.items()]. *)
Definition merge_entry (metadata : json) (merged : dict json)
           (kv : string * json) : result (dict json) :=
  let key := fst kv in
  let value := snd kv in
  if str_in key excluded then Ok merged
  else
    value <- (if str_in key period_keys then
                periodic <- getitem metadata "Periodic" ;;
                period_value periodic value
              else Ok value) ;;
    Ok (dict_set merged (canonical key) value).

(** The tag derived from the description. *)
Definition geo_level (description : json) : result string :=
  is_2013 <- py_in "(NUTS - 2013)" description ;;
  if is_2013 then Ok "nuts-2013"
  else
    is_2002 <- py_in "(NUTS - 2002)" description ;;
    if is_2002 then Ok "nuts-2002" else Ok "national".

Definition merge_metadata (data metadata : json) : result (dict json) :=
  data_extraction <- getitem data "DataExtracao" ;;
  metadata_extraction <- getitem metadata "DataExtracao" ;;
  let merged_metadata : dict json :=
    [ ("extraction_date",
       JObj [ ("data", data_extraction); ("metadata", metadata_extraction) ]);
      ("source", JStr "INE") ] in
  d <- mapping data ;;
  m <- mapping metadata ;;
  merged_metadata <- foldM (merge_entry metadata) (dict_merge d m) merged_metadata ;;
  match dict_get merged_metadata "description" with
  | None => Raise KeyError
  | Some description =>
      tag <- geo_level description ;;
      Ok (dict_set merged_metadata "geo_level" (JStr tag))
  end.

Section GetIndicator.

Variable requests_get : string -> result Response.

Definition fetch (indicator_code : option string) (data_type : string)
           (dim_values : option (dict json))
  : option (dict json) * result json :=
  let code := match indicator_code with Some c => c | None => "None" end in
  let out := request requests_get code data_type dim_values in
  (fst out,
   res <- snd out ;;
   _ <- models.raise_for_status res ;;
   Requests.json_ res).

(** [get_indicator] *)
Definition get_indicator (indicator_code : option string)
           (dim_values : option (dict json)) (data metadata : option json)
  : result models.Indicator :=
  match indicator_code, data, metadata with
  | None, None, _ | None, _, None => Raise ValueError
  | _, _, _ =>
      let dim_values := match dim_values with Some d => d | None => [] end in
      '(dim_values, data) <-
        match data with
        | Some d => Ok (dim_values, d)
        | None =>
            let out := fetch indicator_code "data" (Some dim_values) in
            d <- snd out ;;
            Ok (match fst out with Some dv => dv | None => dim_values end, d)
        end ;;
      metadata <-
        match metadata with
        | Some m => Ok m
        | None => snd (fetch indicator_code "metadata" None)
        end ;;
      data <- getindex data 0 ;;
      metadata <- getindex metadata 0 ;;
      df <- build_table data metadata dim_values ;;
      merged_metadata <- merge_metadata data metadata ;;
      Ok (models.mkIndicator df merged_metadata)
  end.

End GetIndicator.

End api.

(* ================================================================== *)
(** * Vocabulary of the statements *)

(** A token of [str.split]: non-empty text without blanks. *)
Fixpoint blank_free (w : string) : bool :=
  match w with
  | EmptyString => true
  | String c w' => negb (Py.is_space c) && blank_free w'
  end.

Definition token (w : string) : Prop := w <> EmptyString /\ blank_free w = true.

(** [p] occurs in [s]. *)
Definition occurs (p s : string) : Prop := exists a b, s = a +++ p +++ b.

(** A status that [requests] does not turn into an [HTTPError]. *)
Definition status_ok (status : Z) : Prop := status < 400 \/ 600 <= status.

(** The query string [request] sends for a mapping of filters. *)
Definition query_of (d : Py.dict json) : string :=
  Py.join "&" (map (fun kv => fst kv +++ "=" +++ Py.str (snd kv)) d).

(** A descriptor that contributes a level to the column axis: its
    ["dim_num"] is not ["1"]. *)
Definition contributes (d : json) : bool :=
  match Py.getitem d "dim_num" with
  | Ok n => negb (Py.eq_str n "1")
  | Raise _ => false
  end.

(** A member of the category mapping that is retained for dimension [n]:
    its key encodes [n] and, when a filter is given for [n], ends with the
    filter value. *)
Definition retained (dim_values : Py.dict json) (n : json)
           (kv : string * json) : bool :=
  Py.startswith (fst kv) ("Dim_Num" +++ Py.str n)
  && match Py.dict_get dim_values ("Dim" +++ Py.str n) with
     | Some v => Py.endswith (fst kv) ("_" +++ Py.str v)
     | None => true
     end.

(** The number of categories retained for the dimension of a descriptor. *)
Definition retained_count (dim_values : Py.dict json) (categoria : Py.dict json)
           (d : json) : nat :=
  match Py.getitem d "dim_num" with
  | Ok n => List.length (filter (retained dim_values n) categoria)
  | Raise _ => O
  end.

(** The categories retained for the dimension of a descriptor, in the
    order of the category mapping. *)
Definition categories_of (metadata : json) (dim_values : Py.dict json)
           (d : json) (cols : list json) : Prop :=
  exists n categoria,
    Py.getitem d "dim_num" = Ok n
    /\ api.categoria_dim metadata = Ok categoria
    /\ mapM (fun kv => api.categ_dsg (snd kv))
            (filter (retained dim_values n) categoria) = Ok cols.

(** The same, as labels of a level of the axis. *)
Definition level_of (metadata : json) (dim_values : Py.dict json)
           (d : json) (labels : list string) : Prop :=
  exists cols,
    categories_of metadata dim_values d cols
    /\ mapM Pandas.as_label cols = Ok labels.

Definition product_of (l : list nat) : nat := fold_right Nat.mul 1%nat l.

(** Every column key of a frame has one label per level of the axis. *)
Definition full_depth (df : Pandas.DataFrame) : Prop :=
  Forall (fun c => List.length (fst c) = List.length (Pandas.column_names df))
         (Pandas.columns df).

(** The "no value" marker of a cell: NaN, or Python's [None]. *)
Definition no_value (c : Pandas.cell) : Prop := c = None \/ c = Some JNull.

(** The column axis of the frame is one [melt] unpivots: no two columns
    have the same key, no level is named ["Value"], and the axis is among
    those the embedding covers. *)
Definition unpivots (df : Pandas.DataFrame) : Prop :=
  Pandas.melt_check (Pandas.index_name df) (Pandas.column_names df)
                    (map fst (Pandas.columns df)) = Ok tt.

(** What the export makes of one melted row: the period as an ISO date,
    the key of the column, and the cell as a number or as the null marker. *)
Definition exports {number : Type} (to_number : json -> option number)
           (m : Pandas.melted Pandas.Timestamp Pandas.cell)
           (r : Pandas.melted string (option number)) : Prop :=
  Pandas.id r = Pandas.strftime_Ymd (Pandas.id m)
  /\ Pandas.variables r = Pandas.variables m
  /\ (no_value (Pandas.value m) -> Pandas.value r = None)
  /\ (forall v, Pandas.value m = Some v -> to_number v = None ->
                Pandas.value r = None)
  /\ (forall v x, Pandas.value m = Some v -> v <> JNull ->
                  to_number v = Some x -> Pandas.value r = Some x).

(** A JSON value that is neither text nor a container: [None], a boolean
    or a number. *)
Definition plain_scalar (v : json) : Prop :=
  match v with
  | JNull | JBool _ | JInt _ | JFloat _ => True
  | _ => False
  end.

(** A non-empty list. *)
Definition non_empty_list (v : json) : Prop := exists x l, v = JArr (x :: l).

(** The tags [geo_level] can take. *)
Definition geo_tags : list string := [ "nuts-2013"; "nuts-2002"; "national" ].

(** The keys the merged record starts with or ends with, whatever the
    payloads hold. *)
Definition fixed_keys : list string := [ "extraction_date"; "source"; "geo_level" ].

(** Every column of a frame has one cell per row. *)
Definition rectangular (df : Pandas.DataFrame) : Prop :=
  match Pandas.index df with
  | Pandas.ObjectIndex rows =>
      Forall (fun c => List.length (snd c) = List.length rows) (Pandas.columns df)
  | Pandas.DatetimeIndex rows =>
      Forall (fun c => List.length (snd c) = List.length rows) (Pandas.columns df)
  end.

(** What the loop over the records keeps of a frame: its rows, its level
    names, the keys it already has, and one cell per row in every column. *)
Definition kept_by (df df' : Pandas.DataFrame) : Prop :=
  Pandas.index df' = Pandas.index df
  /\ Pandas.index_name df' = Pandas.index_name df
  /\ Pandas.column_names df' = Pandas.column_names df
  /\ incl (map fst (Pandas.columns df)) (map fst (Pandas.columns df'))
  /\ (rectangular df -> rectangular df').

Definition row_count (df : Pandas.DataFrame) : nat :=
  match Pandas.index df with
  | Pandas.ObjectIndex rows => List.length rows
  | Pandas.DatetimeIndex rows => List.length rows
  end.

(** [l] is [l'] with some elements removed, the others in their order. *)
Inductive subsequence {A : Type} : list A -> list A -> Prop :=
| subsequence_nil : subsequence [] []
| subsequence_skip x l l' : subsequence l l' -> subsequence l (x :: l')
| subsequence_keep x l l' : subsequence l l' -> subsequence (x :: l) (x :: l').

(** Every dimension number of the descriptors is text, as in the payloads
    of the API (["1"], ["2"], ...). *)
Definition text_dim_numbers (metadata : json) : Prop :=
  forall ds d n,
    api.dim_descriptions metadata = Ok ds -> In d ds ->
    Py.getitem d "dim_num" = Ok n -> exists s, n = JStr s.

(** The periodicities whose row labels are converted to dates. *)
Definition known_periodicity (p : json) : bool :=
  Py.eq_str p "Annual" || Py.eq_str p "Decennial"
  || Py.eq_str p "Quarterly" || Py.eq_str p "Monthly".

(** The month text [quarter_to_date] takes for an ordinal. *)
Definition quarter_month (ordinal : string) : string :=
  match Py.dict_get api.quarter_month_map ordinal with
  | Some m => m
  | None => "01"
  end.

(* ================================================================== *)
(** * Sample payloads *)

Module Samples.

(** A 200 response whose failure list is present and empty. *)
Definition empty_failure_list : Response :=
  mkResponse 200
    (Some (JArr [ JObj [ ("Sucesso", JObj [ ("Falso", JArr []) ]) ] ])).

(** A 200 response that reports one error with a message. *)
Definition rejected : Response :=
  mkResponse 200
    (Some (JArr [ JObj [ ("Sucesso",
             JObj [ ("Falso", JArr [ JObj [ ("Msg", JStr "Invalid code") ] ]) ]) ] ])).

(** A metadata payload with three dimensions: the reference period (1),
    the place (2, two categories) and the sex (3, two categories). *)
Definition metadata : json :=
  JObj [
    ("IndicadorCod", JStr "0006341");
    ("IndicadorDsg", JStr "Resident population by Place of residence (NUTS - 2013)");
    ("Periodic", JStr "Annual");
    ("PrimeiroPeriodo", JStr "2011");
    ("UltimoPeriodo", JStr "2012");
    ("DataExtracao", JStr "2024-01-02");
    ("Dimensoes", JObj [
       ("Descricao_Dim", JArr [
          JObj [ ("dim_num", JStr "1"); ("abrv", JStr "Data reference period") ];
          JObj [ ("dim_num", JStr "2"); ("abrv", JStr "Place of residence") ];
          JObj [ ("dim_num", JStr "3"); ("abrv", JStr "Sex") ] ]);
       ("Categoria_Dim", JArr [ JObj [
          ("Dim_Num1_S7A2011", JArr [ JObj [ ("categ_dsg", JStr "2011") ] ]);
          ("Dim_Num2_PT", JArr [ JObj [ ("categ_dsg", JStr "Portugal") ] ]);
          ("Dim_Num2_11", JArr [ JObj [ ("categ_dsg", JStr "Norte") ] ]);
          ("Dim_Num3_T", JArr [ JObj [ ("categ_dsg", JStr "MF") ] ]);
          ("Dim_Num3_1", JArr [ JObj [ ("categ_dsg", JStr "M") ] ]) ] ]) ]) ].

(** A data payload with one period and one stat record, keyed by the
    geography code ["PT"]; the column axis of [metadata] has the place names,
    not the codes. *)
Definition data_off_axis : json :=
  JObj [
    ("IndicadorCod", JStr "0006341");
    ("DataExtracao", JStr "2024-01-01");
    ("Dados", JObj [
       ("2011", JArr [
          JObj [ ("geocod", JStr "PT"); ("geodsg", JStr "Portugal");
                 ("dim_3", JStr "T"); ("dim_3_t", JStr "MF");
                 ("valor", JStr "10") ] ]) ]) ].

(** The same payload without the record. *)
Definition data_without : json :=
  JObj [
    ("IndicadorCod", JStr "0006341");
    ("DataExtracao", JStr "2024-01-01");
    ("Dados", JObj [ ("2011", JArr []) ]) ].

(** A frame with one dated row and three cells: NaN, a text that is no
    number, and a number. *)
Definition mixed_frame : Pandas.DataFrame :=
  Pandas.mkDataFrame
    (Pandas.DatetimeIndex [ Pandas.mkTimestamp 2011 1 1 ]) (Some "Period")
    [ JStr "Location" ]
    [ ([ "Portugal" ], [ None ]);
      ([ "Norte" ], [ Some (JStr "x") ]);
      ([ "Centro" ], [ Some (JInt 7) ]) ].

(** A conversion of objects to numbers that reads integers only. *)
Definition integers_only (v : json) : option Z :=
  match v with
  | JInt n => Some n
  | _ => None
  end.

(** Two payloads that both carry ["UltimoPref"] and ["UltimoPeriodo"]. *)
Definition data_clash : Py.dict json :=
  [ ("IndicadorDsg", JStr "Resident population");
    ("UltimoPref", JStr "2011");
    ("UltimoPeriodo", JStr "2012");
    ("DataExtracao", JStr "2024-01-01") ].

Definition metadata_clash : Py.dict json :=
  [ ("Periodic", JStr "Annual");
    ("UltimoPref", JStr "2021");
    ("UltimoPeriodo", JStr "2022");
    ("DataExtracao", JStr "2024-01-02") ].

End Samples.

(* ================================================================== *)
(** * Facts about the runtime *)

Section StrFacts.

Lemma append_nil_r (s : string) : s +++ EmptyString = s.
Proof. induction s as [|c s IH]; simpl; [reflexivity | now rewrite IH]. Qed.

Lemma append_assoc (a b c : string) : (a +++ b) +++ c = a +++ b +++ c.
Proof. induction a as [|x a IH]; simpl; [reflexivity | now rewrite IH]. Qed.

Lemma prefix_spec (p s : string) :
  String.prefix p s = true <-> exists r, s = p +++ r.
Proof.
  revert s; induction p as [|a p IH]; intros [|b s]; simpl.
  - split; [exists EmptyString; reflexivity | reflexivity].
  - split; [exists (String b s); reflexivity | reflexivity].
  - split; [discriminate | intros [r H]; discriminate].
  - destruct (ascii_dec a b) as [->|Hab].
    + rewrite IH. split; intros [r H]; exists r.
      * now rewrite H.
      * now injection H.
    + split; [discriminate | intros [r H]; injection H; intros _ E].
      now elim Hab.
Qed.

Lemma contains_spec (s p : string) : Py.contains s p = true <-> occurs p s.
Proof.
  unfold occurs. split.
  - induction s as [|c s IH]; cbn [Py.contains]; rewrite orb_true_iff;
      intros [H|H].
    + apply prefix_spec in H as [r ->]. now exists EmptyString, r.
    + discriminate.
    + apply prefix_spec in H as [r H]. now exists EmptyString, r.
    + destruct (IH H) as (a & b & ->). now exists (String c a), b.
  - intros (a & b & ->). induction a as [|c a IH].
    + assert (H : String.prefix p (p +++ b) = true)
        by (apply prefix_spec; now exists b).
      cbn [String.append]. destruct (p +++ b); cbn [Py.contains]; now rewrite H.
    + cbn [String.append Py.contains]. rewrite IH. apply orb_true_r.
Qed.

Lemma endswith_spec (s p : string) :
  Py.endswith s p = true <-> exists a, s = a +++ p.
Proof.
  split.
  - induction s as [|c s IH]; cbn [Py.endswith]; rewrite orb_true_iff;
      intros [H|H].
    + apply String.eqb_eq in H as <-. now exists EmptyString.
    + discriminate.
    + apply String.eqb_eq in H as <-. now exists EmptyString.
    + destruct (IH H) as (a & ->). now exists (String c a).
  - intros (a & ->). induction a as [|c a IH].
    + cbn [String.append].
      destruct p; cbn [Py.endswith]; now rewrite String.eqb_refl.
    + cbn [String.append Py.endswith]. rewrite IH. apply orb_true_r.
Qed.

Lemma split_from_word (w cur s : string) :
  blank_free w = true ->
  Py.split_from cur (w +++ s) = Py.split_from (cur +++ w) s.
Proof.
  revert cur; induction w as [|c w IH]; intros cur H; simpl in *.
  - now rewrite append_nil_r.
  - apply andb_true_iff in H as [Hc Hw].
    apply negb_true_iff in Hc. rewrite Hc, (IH _ Hw), append_assoc.
    reflexivity.
Qed.

Lemma split_from_blank (cur s : string) (c : ascii) :
  cur <> EmptyString -> Py.is_space c = true ->
  Py.split_from cur (String c s) = cur :: Py.split_from EmptyString s.
Proof.
  intros Hcur Hc. simpl. rewrite Hc. destruct cur; [now elim Hcur | reflexivity].
Qed.

Lemma split_three (a b c : string) :
  token a -> token b -> token c ->
  Py.split (a +++ " " +++ b +++ " " +++ c) = [a; b; c].
Proof.
  intros [Ha Wa] [Hb Wb] [Hc Wc]. unfold Py.split.
  rewrite (split_from_word a _ _ Wa). simpl (EmptyString +++ a).
  simpl (" " +++ _). rewrite split_from_blank by (assumption || reflexivity).
  rewrite (split_from_word b _ _ Wb). simpl (EmptyString +++ b).
  simpl (" " +++ _). rewrite split_from_blank by (assumption || reflexivity).
  rewrite <- (append_nil_r c) at 1.
  rewrite (split_from_word c _ _ Wc). simpl.
  destruct c; [now elim Hc | reflexivity].
Qed.

End StrFacts.

Section DictFacts.

Context {V : Type}.
Implicit Types (d : Py.dict V) (k : string) (v : V).

Lemma dict_get_set_same d k v : Py.dict_get (Py.dict_set d k v) k = Some v.
Proof.
  induction d as [|[k' v'] d IH]; simpl.
  - now rewrite String.eqb_refl.
  - destruct (String.eqb k' k) eqn:E; simpl; rewrite E; [reflexivity | exact IH].
Qed.

Lemma dict_get_set_other d k k' v :
  k' <> k -> Py.dict_get (Py.dict_set d k v) k' = Py.dict_get d k'.
Proof.
  intros Hk. induction d as [|[k0 v0] d IH]; simpl.
  - destruct (String.eqb k k') eqn:E; [|reflexivity].
    apply String.eqb_eq in E. now elim Hk.
  - destruct (String.eqb k0 k) eqn:E; simpl.
    + apply String.eqb_eq in E as ->.
      destruct (String.eqb k k') eqn:E'; [|reflexivity].
      apply String.eqb_eq in E'. now elim Hk.
    + now rewrite IH.
Qed.

Lemma dict_set_absent d k v :
  Py.dict_get d k = None -> Py.dict_set d k v = d ++ [(k, v)].
Proof.
  induction d as [|[k' v'] d IH]; simpl; [reflexivity|].
  destruct (String.eqb k' k); [discriminate|].
  intros H. now rewrite (IH H).
Qed.

Lemma dict_get_app_absent d k k' v :
  k' <> k -> Py.dict_get (d ++ [(k, v)]) k' = Py.dict_get d k'.
Proof.
  intros Hk. induction d as [|[k0 v0] d IH]; simpl.
  - destruct (String.eqb k k') eqn:E; [|reflexivity].
    apply String.eqb_eq in E. now elim Hk.
  - now rewrite IH.
Qed.

End DictFacts.

(* ================================================================== *)
(** * Response classification ([models.py], [exceptions.py]) *)

Section Classification.

Lemma status_ok_passes (status : Z) (b : option json) :
  status_ok status -> Requests.raise_for_status (mkResponse status b) = Ok tt.
Proof.
  intros H. unfold Requests.raise_for_status; simpl.
  replace ((400 <=? status) && (status <? 600)) with false; [reflexivity|].
  symmetry. apply andb_false_iff. destruct H; [left | right]; lia.
Qed.

(** [is_ine_error] looks at the presence of the two keys and at nothing
    below them. *)
Lemma is_ine_error_keys_only (status : Z) (o s : Py.dict json)
      (rest : list json) (falso : json) :
  Py.dict_get o "Sucesso" = Some (JObj s) ->
  Py.dict_get s "Falso" = Some falso ->
  models.is_ine_error (mkResponse status (Some (JArr (JObj o :: rest)))) = Ok true.
Proof.
  intros Ho Hs. unfold models.is_ine_error, Requests.json_; simpl.
  unfold Py.dict_mem. rewrite Ho; simpl.
  unfold Py.dict_mem. now rewrite Hs.
Qed.

End Classification.

(** C1. On a 200 response whose failure list is present but empty,
    [raise_for_status] does raise the semantic failure: it is raised with no
    error record, and the string form of that exception then fails on
    [ine_errors[0]].  [get_ine_errors], which asks for a non-empty list,
    reports no error for the same body. *)
Theorem empty_failure_list_raises :
  models.raise_for_status Samples.empty_failure_list
  = Raise (INEInvalidRequest
             (mkINEError Samples.empty_failure_list exceptions.default_message []))
  /\ exceptions.get_ine_errors Samples.empty_failure_list = Ok []
  /\ exceptions.str_
       (mkINEError Samples.empty_failure_list exceptions.default_message [])
     = Raise IndexError.
Proof. repeat split. Qed.

(** C7. When the semantic failure is raised from a body whose first element
    holds a non-empty failure list, the string form of the exception is the
    base message followed by [" Error: "] and the first record's ["Msg"] when
    the record has one, and the base message alone when it has none. *)
Theorem str_carries_first_message
        (status : Z) (o s e : Py.dict json) (rest errs : list json) :
  status_ok status ->
  Py.dict_get o "Sucesso" = Some (JObj s) ->
  Py.dict_get s "Falso" = Some (JArr (JObj e :: errs)) ->
  exists exc,
    models.raise_for_status (mkResponse status (Some (JArr (JObj o :: rest))))
    = Raise (INEInvalidRequest exc)
    /\ ine_errors exc = JObj e :: errs
    /\ (forall m, Py.dict_get e "Msg" = Some m ->
          exceptions.str_ exc
          = Ok (exceptions.default_message +++ " Error: " +++ Py.str m)
          /\ occurs (Py.str m)
                    (exceptions.default_message +++ " Error: " +++ Py.str m))
    /\ (Py.dict_get e "Msg" = None ->
          exceptions.str_ exc = Ok exceptions.default_message).
Proof.
  intros Hst Ho Hs.
  set (r := mkResponse status (Some (JArr (JObj o :: rest)))).
  exists (mkINEError r exceptions.default_message (JObj e :: errs)).
  split; [|split; [reflexivity | split]].
  - unfold models.raise_for_status.
    unfold r at 1. rewrite (status_ok_passes _ _ Hst). cbn [bind].
    unfold r at 1. rewrite (is_ine_error_keys_only _ _ _ _ _ Ho Hs). cbn [bind].
    unfold exceptions.init, exceptions.get_ine_errors, Requests.json_, r; simpl.
    unfold Py.dict_mem. rewrite Ho; simpl.
    unfold Py.dict_mem. rewrite Hs; simpl. reflexivity.
  - intros m Hm. split.
    + unfold exceptions.str_; simpl. unfold Py.dict_mem. now rewrite Hm.
    + exists (exceptions.default_message +++ " Error: "), EmptyString.
      now rewrite append_nil_r, append_assoc.
  - intros Hm. unfold exceptions.str_; simpl. unfold Py.dict_mem.
    now rewrite Hm.
Qed.

Lemma str_carries_first_message_witness :
  status_ok 200
  /\ exists exc,
       models.raise_for_status Samples.rejected = Raise (INEInvalidRequest exc)
       /\ exceptions.str_ exc = Ok "INE returned an error. Error: Invalid code".
Proof.
  assert (Hok : status_ok 200) by (left; lia).
  split; [exact Hok|].
  destruct (str_carries_first_message 200
              [ ("Sucesso", JObj [ ("Falso", JArr [ JObj [ ("Msg", JStr "Invalid code") ] ]) ]) ]
              [ ("Falso", JArr [ JObj [ ("Msg", JStr "Invalid code") ] ]) ]
              [ ("Msg", JStr "Invalid code") ] [] [] Hok eq_refl eq_refl)
    as (exc & Hraise & _ & Hmsg & _).
  exists exc. split; [exact Hraise|].
  exact (proj1 (Hmsg (JStr "Invalid code") eq_refl)).
Defined.

(* ================================================================== *)
(** * [request] *)

(** C10. When the caller's mapping has no ["Dim1"], [request] with data type
    ["data"] leaves the mapping with ["Dim1"] bound to ["T"], added after the
    existing entries, every other key bound as before, and the query string
    of the request is built from the mapping so extended. *)
Theorem request_inserts_Dim1
        (requests_get : string -> result Response) (indicator_code : string)
        (d : Py.dict json) :
  Py.dict_get d "Dim1" = None ->
  let out := api.request requests_get indicator_code "data" (Some d) in
  let d' := d ++ [("Dim1", JStr "T")] in
  fst out = Some d'
  /\ Py.dict_get d' "Dim1" = Some (JStr "T")
  /\ (forall k, k <> "Dim1" -> Py.dict_get d' k = Py.dict_get d k)
  /\ snd out
     = requests_get (api.INE_API_BASE_URL +++ "/pindica.jsp?op=2&varcd="
                       +++ indicator_code +++ "&lang=EN&" +++ query_of d').
Proof.
  intros Hd out d'. subst out d'. unfold api.request.
  cbn [String.eqb Ascii.eqb Bool.eqb fst snd].
  unfold Py.dict_mem. rewrite Hd. cbn [negb].
  rewrite (dict_set_absent _ _ _ Hd).
  repeat split.
  - rewrite <- (dict_set_absent _ _ _ Hd). apply dict_get_set_same.
  - intros k Hk. now apply dict_get_app_absent.
Qed.

Lemma request_inserts_Dim1_witness :
  Py.dict_get [ ("Dim3", JStr "T") ] "Dim1" = None
  /\ fst (api.request (fun _ => Raise RequestException) "0006341" "data"
                      (Some [ ("Dim3", JStr "T") ]))
     = Some [ ("Dim3", JStr "T"); ("Dim1", JStr "T") ]
  /\ snd (api.request (fun url => Ok (mkResponse 200 (Some (JStr url))))
                      "0006341" "data" (Some [ ("Dim3", JStr "T") ]))
     = Ok (mkResponse 200 (Some (JStr
         "https://www.ine.pt/ine/json_indicador/pindica.jsp?op=2&varcd=0006341&lang=EN&Dim3=T&Dim1=T"))).
Proof.
  split; [reflexivity|]. split.
  - exact (proj1 (request_inserts_Dim1 (fun _ => Raise RequestException)
                    "0006341" [ ("Dim3", JStr "T") ] eq_refl)).
  - exact (proj2 (proj2 (proj2
             (request_inserts_Dim1
                (fun url => Ok (mkResponse 200 (Some (JStr url))))
                "0006341" [ ("Dim3", JStr "T") ] eq_refl)))).
Defined.

(* ================================================================== *)
(** * The geography tag *)

(** A description that carries both markers. *)
Lemma geo_level_both_markers :
  occurs "(NUTS - 2002)" "Population (NUTS - 2002), recoded (NUTS - 2013)"
  /\ occurs "(NUTS - 2013)" "Population (NUTS - 2002), recoded (NUTS - 2013)"
  /\ api.geo_level (JStr "Population (NUTS - 2002), recoded (NUTS - 2013)")
     = Ok "nuts-2013"
  /\ api.geo_level (JStr "Population (NUTS - 2002), recoded (NUTS - 2013)")
     <> Ok "nuts-2002".
Proof.
  repeat split.
  - apply contains_spec. reflexivity.
  - apply contains_spec. reflexivity.
  - discriminate.
Qed.

(** C4 (amended). The marker of the newer classification is looked for
    first: a description in which ["(NUTS - 2013)"] occurs is tagged
    ["nuts-2013"]; otherwise one in which ["(NUTS - 2002)"] occurs is tagged
    ["nuts-2002"]; otherwise the tag is ["national"]. *)
Theorem geo_level_newer_marker_first (description : string) :
  (occurs "(NUTS - 2013)" description ->
     api.geo_level (JStr description) = Ok "nuts-2013")
  /\ (~ occurs "(NUTS - 2013)" description ->
      occurs "(NUTS - 2002)" description ->
        api.geo_level (JStr description) = Ok "nuts-2002")
  /\ (~ occurs "(NUTS - 2013)" description ->
      ~ occurs "(NUTS - 2002)" description ->
        api.geo_level (JStr description) = Ok "national").
Proof.
  unfold api.geo_level, Py.py_in. cbn [bind].
  destruct (Py.contains description "(NUTS - 2013)") eqn:E13;
    destruct (Py.contains description "(NUTS - 2002)") eqn:E02;
    repeat split; intros; try reflexivity;
    repeat match goal with
           | H : ~ occurs _ _ |- _ => rewrite <- contains_spec in H
           | H : occurs _ _ |- _ => rewrite <- contains_spec in H
           end; congruence.
Qed.

Lemma geo_level_newer_marker_first_witness :
  (~ occurs "(NUTS - 2013)" "Population by region (NUTS - 2002)")
  /\ occurs "(NUTS - 2002)" "Population by region (NUTS - 2002)"
  /\ api.geo_level (JStr "Population by region (NUTS - 2002)") = Ok "nuts-2002".
Proof.
  assert (H13 : ~ occurs "(NUTS - 2013)" "Population by region (NUTS - 2002)")
    by (rewrite <- contains_spec; vm_compute; discriminate).
  assert (H02 : occurs "(NUTS - 2002)" "Population by region (NUTS - 2002)")
    by (rewrite <- contains_spec; reflexivity).
  split; [exact H13 | split; [exact H02 |]].
  exact (proj1 (proj2 (geo_level_newer_marker_first _)) H13 H02).
Defined.

(* ================================================================== *)
(** * [quarter_to_date] *)

Section Quarter.

Lemma digit_not_blank (c : ascii) (x : Z) :
  Pandas.digit c = Some x -> Py.is_space c = false.
Proof.
  unfold Pandas.digit, Py.is_space.
  destruct ((48 <=? Z.of_N (N_of_ascii c)) && (Z.of_N (N_of_ascii c) <=? 57))
    eqn:E; [intros _ | discriminate].
  apply andb_true_iff in E as [E1 E2].
  apply Z.leb_le in E1. apply Z.leb_le in E2.
  apply orb_false_iff; split; apply andb_false_iff; right;
    apply Z.leb_gt; lia.
Qed.

(** A text that [%Y] reads to its end is a token of four digits. *)
Lemma read_Y_token (year : string) (y : Z) :
  Pandas.read_Y year = Some (y, EmptyString) -> token year.
Proof.
  destruct year as [|a [|b [|c [|d rest]]]]; try discriminate.
  cbn [Pandas.read_Y].
  destruct (Pandas.digit a) eqn:Ea; [|discriminate].
  destruct (Pandas.digit b) eqn:Eb; [|discriminate].
  destruct (Pandas.digit c) eqn:Ec; [|discriminate].
  destruct (Pandas.digit d) eqn:Ed; [|discriminate].
  intros H. injection H as _ ->. split; [discriminate|].
  cbn [blank_free].
  now rewrite (digit_not_blank _ _ Ea), (digit_not_blank _ _ Eb),
              (digit_not_blank _ _ Ec), (digit_not_blank _ _ Ed).
Qed.

Lemma read_Y_append (year rest : string) (y : Z) :
  Pandas.read_Y year = Some (y, EmptyString) ->
  Pandas.read_Y (year +++ rest) = Some (y, rest).
Proof.
  destruct year as [|a [|b [|c [|d tail]]]]; try discriminate.
  cbn [Pandas.read_Y String.append].
  destruct (Pandas.digit a), (Pandas.digit b), (Pandas.digit c),
           (Pandas.digit d); try discriminate.
  intros H. injection H as <- ->. reflexivity.
Qed.

(** [to_datetime] on a year, a dash and one of the months of the map. *)
Lemma to_datetime_year_month (year month : string) (y m : Z) :
  Pandas.read_Y year = Some (y, EmptyString) ->
  Pandas.in_bounds y = true ->
  Pandas.read_m month = Some (m, EmptyString) ->
  Pandas.to_datetime (year +++ "-" +++ month) Pandas.fmt_Ym
  = Ok (Pandas.mkTimestamp y m 1).
Proof.
  intros Hy Hb Hm. unfold Pandas.to_datetime, Pandas.parse.
  rewrite (read_Y_append _ _ _ Hy). cbn [String.append].
  rewrite Hm. cbn [Pandas.at_end]. now rewrite Hb.
Qed.

(** The date is a function of the label alone. *)
Lemma quarter_to_date_deterministic (label label' : string) :
  label = label' -> api.quarter_to_date label = api.quarter_to_date label'.
Proof. now intros ->. Qed.

End Quarter.




(* ================================================================== *)
(** * The column axis *)

Section MonadFacts.

Context {A B : Type}.

Lemma bind_Ok (m : result A) (k : A -> result B) (b : B) :
  bind m k = Ok b -> exists a, m = Ok a /\ k a = Ok b.
Proof. destruct m as [a|e]; simpl; [eauto | discriminate]. Qed.

Lemma mapM_Forall2 (f : A -> result B) (l : list A) (r : list B) :
  mapM f l = Ok r -> Forall2 (fun x y => f x = Ok y) l r.
Proof.
  revert r; induction l as [|x l IH]; intros r; simpl.
  - intros H; injection H as <-. constructor.
  - destruct (f x) as [y|] eqn:Ex; [|discriminate]. cbn [bind].
    destruct (mapM f l) as [ys|]; [|discriminate]. cbn [bind].
    intros H; injection H as <-. constructor; auto.
Qed.

Lemma mapM_length (f : A -> result B) (l : list A) (r : list B) :
  mapM f l = Ok r -> List.length r = List.length l.
Proof.
  intros H. apply mapM_Forall2 in H.
  induction H; simpl; congruence.
Qed.

End MonadFacts.

Ltac inv_bind H :=
  let a := fresh "a" in
  let E := fresh "E" in
  apply bind_Ok in H; destruct H as (a & E & H).

Tactic Notation "invert_bind" hyp(H) "as" ident(a) ident(E) :=
  apply bind_Ok in H; destruct H as (a & E & H).

Section ColumnAxis.

Variable metadata : json.
Variable dim_values : Py.dict json.

(** The inner loop keeps, in order, the categories of the retained
    members. *)
Lemma dim_columns_fold (n : json) (categoria : Py.dict json) (acc : list json) :
  foldM (fun dim_columns kv =>
           let key := fst kv in
           let value := snd kv in
           if Py.startswith key ("Dim_Num" +++ Py.str n) then
             match Py.dict_get dim_values ("Dim" +++ Py.str n) with
             | Some dim_value =>
                 if Py.endswith key ("_" +++ Py.str dim_value) then
                   c <- api.categ_dsg value ;; Ok (dim_columns ++ [c])
                 else Ok dim_columns
             | None =>
                 c <- api.categ_dsg value ;; Ok (dim_columns ++ [c])
             end
           else Ok dim_columns)
        categoria acc
  = (cols <- mapM (fun kv => api.categ_dsg (snd kv))
                  (filter (retained dim_values n) categoria) ;;
     Ok (acc ++ cols)).
Proof.
  revert acc; induction categoria as [|kv cats IH]; intros acc.
  - simpl. now rewrite app_nil_r.
  - cbn [foldM filter]. unfold retained at 1.
    destruct (Py.startswith (fst kv) ("Dim_Num" +++ Py.str n)); cbn [andb].
    + destruct (Py.dict_get dim_values ("Dim" +++ Py.str n)) as [v|].
      * destruct (Py.endswith (fst kv) ("_" +++ Py.str v)).
        -- cbn [mapM]. destruct (api.categ_dsg (snd kv)) as [c|e];
             cbn [bind]; [|reflexivity].
           rewrite IH. destruct (mapM _ _); cbn [bind]; [|reflexivity].
           now rewrite <- app_assoc.
        -- cbn [bind]. apply IH.
      * cbn [mapM]. destruct (api.categ_dsg (snd kv)) as [c|e];
          cbn [bind]; [|reflexivity].
        rewrite IH. destruct (mapM _ _); cbn [bind]; [|reflexivity].
        now rewrite <- app_assoc.
    + cbn [bind]. apply IH.
Qed.

Lemma dim_columns_spec (n : json) (categoria : Py.dict json) :
  api.dim_columns categoria dim_values n
  = mapM (fun kv => api.categ_dsg (snd kv))
         (filter (retained dim_values n) categoria).
Proof.
  unfold api.dim_columns. rewrite dim_columns_fold.
  destruct (mapM _ _); reflexivity.
Qed.

(** What one contributing descriptor adds: its retained categories and
    its abbreviation. *)
Lemma add_dimension_fold (ds : list json)
      (acc res : list (list json) * list json) :
  foldM (api.add_dimension metadata dim_values) ds acc = Ok res ->
  exists its nms,
    res = (fst acc ++ its, snd acc ++ nms)
    /\ Forall2 (categories_of metadata dim_values) (filter contributes ds) its
    /\ Forall2 (fun d a => Py.getitem d "abrv" = Ok a)
               (filter contributes ds) nms.
Proof.
  revert acc; induction ds as [|d ds IH]; intros acc H.
  - simpl in H. injection H as <-. exists [], [].
    rewrite !app_nil_r. destruct acc. repeat split; constructor.
  - cbn [foldM] in H. inv_bind H. unfold api.add_dimension in E.
    inv_bind E.
    assert (Hc : contributes d = negb (Py.eq_str a0 "1"))
      by (unfold contributes; now rewrite E0).
    cbn [filter]. rewrite Hc.
    destruct (Py.eq_str a0 "1"); cbn [negb].
    + injection E as <-. exact (IH _ H).
    + inv_bind E. inv_bind E. inv_bind E. injection E as <-.
      destruct (IH _ H) as (its & nms & -> & Hits & Hnms).
      exists (a2 :: its), (a3 :: nms). cbn [fst snd].
      rewrite <- !app_assoc. split; [reflexivity|].
      split; constructor; auto.
      exists a0, a1. rewrite <- dim_columns_spec. auto.
Qed.

Lemma product_length {X : Type} (ls : list (list X)) :
  List.length (Pandas.product ls) = product_of (map (@List.length X) ls).
Proof.
  induction ls as [|l ls IH]; [reflexivity|].
  cbn [Pandas.product map product_of fold_right].
  fold (product_of (map (@List.length X) ls)). rewrite <- IH.
  induction l as [|x l IHl]; [reflexivity|].
  cbn [flat_map]. rewrite List.length_app, List.length_map, IHl.
  reflexivity.
Qed.

Lemma product_of_zero (l : list nat) : In O l -> product_of l = O.
Proof.
  induction l as [|x l IH]; [intros []|].
  intros [->|H]; cbn [product_of fold_right]; [reflexivity|].
  fold (product_of l). rewrite (IH H). apply Nat.mul_0_r.
Qed.

(** The parts of a column axis that was built. *)
Lemma col_index_inv (mi : Pandas.MultiIndex) :
  api.col_index metadata dim_values = Ok mi ->
  exists ds its nms levels,
    api.dim_descriptions metadata = Ok ds
    /\ Forall2 (categories_of metadata dim_values) (filter contributes ds) its
    /\ Forall2 (fun d a => Py.getitem d "abrv" = Ok a)
               (filter contributes ds) nms
    /\ mapM (mapM Pandas.as_label) its = Ok levels
    /\ its <> []
    /\ Pandas.names mi = JStr "Location" :: tl nms
    /\ Pandas.tuples mi = Pandas.product levels.
Proof.
  intros H. unfold api.col_index in H. inv_bind H.
  unfold api.col_index_parts in E. inv_bind E.
  apply add_dimension_fold in E as (its & nms & -> & Hits & Hnms).
  cbn [fst snd app] in H. inv_bind H.
  unfold Pandas.from_product in E. inv_bind E.
  exists a0, its, nms, a1. repeat split; auto.
  - intros ->. simpl in E1. injection E1 as <-. discriminate.
  - unfold Pandas.set_names in H.
    destruct (negb _); [discriminate|]. destruct (negb _); [discriminate|].
    now injection H as <-.
  - unfold Pandas.set_names in H.
    destruct (negb _); [discriminate|]. destruct (negb _); [discriminate|].
    injection H as <-. cbn [Pandas.tuples].
    destruct a1; [discriminate|]. now injection E as <-.
Qed.

End ColumnAxis.

Section Cardinality.

Variable metadata : json.
Variable dim_values : Py.dict json.

Lemma levels_lengths (its : list (list json)) (levels : list (list string)) :
  mapM (mapM Pandas.as_label) its = Ok levels ->
  map (@List.length string) levels = map (@List.length json) its.
Proof.
  intros H. apply mapM_Forall2 in H.
  induction H as [|cols labels its levels Hl _ IH]; [reflexivity|].
  cbn [map]. now rewrite IH, (mapM_length _ _ _ Hl).
Qed.

Lemma levels_of_categories (kept : list json) (its : list (list json))
      (levels : list (list string)) :
  Forall2 (categories_of metadata dim_values) kept its ->
  mapM (mapM Pandas.as_label) its = Ok levels ->
  Forall2 (level_of metadata dim_values) kept levels.
Proof.
  intros Hk H. apply mapM_Forall2 in H. revert kept Hk.
  induction H as [|cols labels its levels Hl _ IH]; intros kept Hk;
    inversion Hk; subst; constructor; auto.
  exists cols. auto.
Qed.

Lemma retained_counts (categoria : Py.dict json) (kept : list json)
      (its : list (list json)) :
  api.categoria_dim metadata = Ok categoria ->
  Forall2 (categories_of metadata dim_values) kept its ->
  map (@List.length json) its
  = map (retained_count dim_values categoria) kept.
Proof.
  intros Hc H.
  induction H as [|d cols kept its (n & c & Hn & Hc' & Hm) _ IH];
    [reflexivity|].
  cbn [map]. rewrite IH. unfold retained_count at 2. rewrite Hn.
  rewrite Hc in Hc'. injection Hc' as <-.
  now rewrite (mapM_length _ _ _ Hm).
Qed.

Lemma filter_none {X : Type} (f : X -> bool) (l : list X) :
  (forall x, In x l -> f x = false) -> filter f l = [].
Proof.
  induction l as [|x l IH]; [reflexivity|]. intros H. cbn [filter].
  rewrite (H x (or_introl eq_refl)). apply IH.
  intros y Hy. apply H. now right.
Qed.

Lemma filter_single {X : Type} (f : X -> bool) (before after : list X) (x : X) :
  f x = true ->
  (forall y, In y (before ++ after) -> f y = false) ->
  filter f (before ++ x :: after) = [x].
Proof.
  intros Hx Hothers. rewrite filter_app. cbn [filter]. rewrite Hx.
  rewrite !filter_none; [reflexivity| |];
    intros y Hy; apply Hothers; apply in_or_app; auto.
Qed.

End Cardinality.

(** C6. When the column axis is built, its number of columns is the product,
    over the descriptors whose ["dim_num"] is not ["1"], of the number of
    categories retained for the dimension; the levels hold the retained
    categories in the order of the category mapping.  A dimension with a
    filter that exactly one of its category keys ends with has one retained
    category, and a dimension with no retained category leaves the axis
    without columns. *)
Theorem column_axis_cardinality
        (metadata : json) (dim_values : Py.dict json) (mi : Pandas.MultiIndex) :
  api.col_index metadata dim_values = Ok mi ->
  exists descriptions categoria levels,
    api.dim_descriptions metadata = Ok descriptions
    /\ api.categoria_dim metadata = Ok categoria
    /\ Forall2 (level_of metadata dim_values)
               (filter contributes descriptions) levels
    /\ Pandas.tuples mi = Pandas.product levels
    /\ List.length (Pandas.tuples mi)
       = product_of (map (retained_count dim_values categoria)
                         (filter contributes descriptions))
    /\ (forall d n v before kv after,
          In d (filter contributes descriptions) ->
          Py.getitem d "dim_num" = Ok n ->
          Py.dict_get dim_values ("Dim" +++ Py.str n) = Some v ->
          categoria = before ++ kv :: after ->
          retained dim_values n kv = true ->
          (forall x, In x (before ++ after) -> retained dim_values n x = false) ->
          filter (retained dim_values n) categoria = [kv]
          /\ retained_count dim_values categoria d = 1%nat)
    /\ (forall d,
          In d (filter contributes descriptions) ->
          retained_count dim_values categoria d = O ->
          Pandas.tuples mi = []).
Proof.
  intros H.
  destruct (col_index_inv _ _ _ H)
    as (ds & its & nms & levels & Hds & Hits & Hnms & Hlv & Hne & Hnames & Htup).
  assert (Hcat : exists categoria, api.categoria_dim metadata = Ok categoria).
  { destruct Hits as [|d cols kept its' (n & c & _ & Hc & _) _];
      [now elim Hne | eauto]. }
  destruct Hcat as (categoria & Hcat).
  assert (Hlen : List.length (Pandas.tuples mi)
                 = product_of (map (retained_count dim_values categoria)
                                   (filter contributes ds))).
  { rewrite Htup. unfold Pandas.tuple.
    rewrite product_length, (levels_lengths _ _ Hlv).
    now rewrite (retained_counts _ _ _ _ _ Hcat Hits). }
  exists ds, categoria, levels.
  split; [exact Hds|]. split; [exact Hcat|].
  split; [exact (levels_of_categories _ _ _ _ _ Hits Hlv)|].
  split; [exact Htup|]. split; [exact Hlen|]. split.
  - intros d n v before kv after _ Hn _ -> Hkv Hothers.
    assert (Hf := filter_single _ _ _ _ Hkv Hothers).
    split; [exact Hf|]. unfold retained_count. now rewrite Hn, Hf.
  - intros d Hd Hzero. apply length_zero_iff_nil. rewrite Hlen.
    apply product_of_zero. rewrite <- Hzero. now apply in_map.
Qed.

Lemma column_axis_cardinality_witness :
  api.col_index Samples.metadata [ ("Dim3", JStr "1") ]
  = Ok (Pandas.mkMultiIndex [ JStr "Location"; JStr "Sex" ]
          [ [ "Portugal"; "M" ]; [ "Norte"; "M" ] ])
  /\ exists descriptions categoria,
       api.dim_descriptions Samples.metadata = Ok descriptions
       /\ api.categoria_dim Samples.metadata = Ok categoria
       /\ product_of (map (retained_count [ ("Dim3", JStr "1") ] categoria)
                          (filter contributes descriptions)) = 2%nat.
Proof.
  split; [reflexivity|].
  destruct (column_axis_cardinality Samples.metadata [ ("Dim3", JStr "1") ] _ eq_refl)
    as (ds & categoria & levels & Hds & Hcat & _ & _ & Hlen & _).
  exists ds, categoria. split; [exact Hds | split; [exact Hcat|]].
  rewrite <- Hlen. reflexivity.
Defined.

(** On the sample payload the first level holds the places, which are the
    categories of dimension 2; the only category of dimension 1, ["2011"],
    is on no level. *)
Lemma location_level_not_dimension_1 :
  exists mi,
    api.col_index Samples.metadata [] = Ok mi
    /\ level_of Samples.metadata []
                (JObj [ ("dim_num", JStr "1"); ("abrv", JStr "Data reference period") ])
                [ "2011" ]
    /\ map (hd_error (A := string)) (Pandas.tuples mi)
       = [ Some "Portugal"; Some "Portugal"; Some "Norte"; Some "Norte" ]
    /\ ~ In "2011" (List.concat (Pandas.tuples mi)).
Proof.
  eexists. split; [reflexivity|]. split; [|split].
  - exists [ JStr "2011" ]. split; [|reflexivity].
    eexists _, _. repeat split; reflexivity.
  - reflexivity.
  - vm_compute. intuition discriminate.
Qed.

(** C3 (amended). The descriptors whose ["dim_num"] is ["1"] give no level.
    The first level of the built axis is named ["Location"] and holds the
    retained categories of the first descriptor whose ["dim_num"] is not
    ["1"]; each later level holds the retained categories of the next such
    descriptor and is named by its ["abrv"]. *)
Theorem location_level_is_first_contributing
        (metadata : json) (dim_values : Py.dict json) (mi : Pandas.MultiIndex) :
  api.col_index metadata dim_values = Ok mi ->
  exists descriptions first others levels names,
    api.dim_descriptions metadata = Ok descriptions
    /\ filter contributes descriptions = first :: others
    /\ Forall2 (level_of metadata dim_values) (first :: others) levels
    /\ Pandas.tuples mi = Pandas.product levels
    /\ Pandas.names mi = JStr "Location" :: names
    /\ Forall2 (fun d name => Py.getitem d "abrv" = Ok name) others names.
Proof.
  intros H.
  destruct (col_index_inv _ _ _ H)
    as (ds & its & nms & levels & Hds & Hits & Hnms & Hlv & Hne & Hnames & Htup).
  pose proof (levels_of_categories _ _ _ _ _ Hits Hlv) as Hlevels.
  destruct (filter contributes ds) as [|first others] eqn:Ek.
  - inversion Hits; subst. now elim Hne.
  - inversion Hnms as [|d a ds' nms' Ha Hrest]; subst.
    exists ds, first, others, levels, nms'. cbn [tl] in Hnames.
    repeat split; auto.
Qed.

Lemma location_level_is_first_contributing_witness :
  api.col_index Samples.metadata []
  = Ok (Pandas.mkMultiIndex [ JStr "Location"; JStr "Sex" ]
          [ [ "Portugal"; "MF" ]; [ "Portugal"; "M" ];
            [ "Norte"; "MF" ]; [ "Norte"; "M" ] ])
  /\ exists descriptions first others,
       api.dim_descriptions Samples.metadata = Ok descriptions
       /\ filter contributes descriptions = first :: others
       /\ level_of Samples.metadata [] first [ "Portugal"; "Norte" ].
Proof.
  split; [reflexivity|].
  destruct (location_level_is_first_contributing Samples.metadata [] _ eq_refl)
    as (ds & first & others & levels & names & Hds & Hk & Hlv & _).
  exists ds, first, others. split; [exact Hds | split; [exact Hk|]].
  vm_compute in Hds. injection Hds as <-.
  vm_compute in Hk. injection Hk as <- <-.
  exists [ JStr "Portugal"; JStr "Norte" ]. split; [|reflexivity].
  eexists _, _. repeat split; reflexivity.
Defined.

(* ================================================================== *)
(** * The table *)

Section Table.

Lemma selects_same_depth (key t : Pandas.tuple) :
  List.length key = List.length t -> Pandas.selects key t = true -> key = t.
Proof.
  revert t; induction key as [|x key IH]; intros [|y t]; simpl;
    try discriminate; [reflexivity|].
  intros Hlen H. apply andb_true_iff in H as [Hxy Hrest].
  apply String.eqb_eq in Hxy as ->. f_equal. apply IH; [lia | exact Hrest].
Qed.

Lemma selects_none {X : Type} (key : Pandas.tuple) (depth : nat)
      (cols : list (Pandas.tuple * X)) :
  Forall (fun c => List.length (fst c) = depth) cols ->
  List.length key = depth ->
  ~ In key (map fst cols) ->
  existsb (fun c => Pandas.selects key (fst c)) cols = false.
Proof.
  intros Hdepth Hkey Hnot. induction Hdepth as [|c cols Hc _ IH]; [reflexivity|].
  cbn [existsb]. apply orb_false_iff. split.
  - cbn beta.
    match goal with |- ?b = false => destruct b eqn:E end; [|reflexivity].
    elim Hnot. left. symmetry.
    apply selects_same_depth; [|exact E].
    transitivity depth; [exact Hkey | symmetry; exact Hc].
  - apply IH. intros H. apply Hnot. now right.
Qed.

(** [loc_set] with a key of full depth that is not a column appends the
    column. *)
Lemma loc_set_enlarges (df : Pandas.DataFrame) (rows : list string)
      (date : string) (i : nat) (key : Pandas.tuple) (text : string) :
  Pandas.index df = Pandas.ObjectIndex rows ->
  Pandas.position date rows = Some i ->
  List.length key = List.length (Pandas.column_names df) ->
  full_depth df ->
  ~ In key (map fst (Pandas.columns df)) ->
  Pandas.loc_set df date key (JStr text)
  = Ok (Pandas.mkDataFrame (Pandas.index df) (Pandas.index_name df)
          (Pandas.column_names df)
          (Pandas.columns df ++
           [(key, Pandas.set_nth i (Some (JStr text))
                    (repeat None (List.length rows)))])).
Proof.
  intros Hix Hpos Hkey Hdepth Hnot. unfold Pandas.loc_set.
  rewrite Hix, Hpos, (selects_none _ _ _ Hdepth Hkey Hnot).
  apply Nat.eqb_eq in Hkey. rewrite Hkey. reflexivity.
Qed.

(** ** The frame of the builder keeps its columns at full depth *)

Lemma product_depth {X : Type} (ls : list (list X)) :
  Forall (fun t => List.length t = List.length ls) (Pandas.product ls).
Proof.
  induction ls as [|l ls IH]; [repeat constructor|].
  cbn [Pandas.product]. apply Forall_forall. intros t Ht.
  apply in_flat_map in Ht as (x & _ & Ht).
  apply in_map_iff in Ht as (t' & <- & Ht').
  rewrite Forall_forall in IH. cbn [List.length]. now rewrite (IH _ Ht').
Qed.

Lemma col_index_depth (metadata : json) (dim_values : Py.dict json)
      (mi : Pandas.MultiIndex) :
  api.col_index metadata dim_values = Ok mi ->
  Forall (fun t => List.length t = List.length (Pandas.names mi))
         (Pandas.tuples mi).
Proof.
  intros H. unfold api.col_index in H.
  invert_bind H as parts Hparts. invert_bind H as mi0 Hprod.
  unfold Pandas.from_product in Hprod. invert_bind Hprod as levels Hlevels.
  destruct levels as [|l levels]; [discriminate|]. injection Hprod as <-.
  unfold Pandas.set_names, Pandas.nlevels in H. cbn [Pandas.names] in H.
  destruct (Nat.eqb _ _) eqn:En; [|discriminate]. cbn [negb] in H.
  destruct (negb _); [discriminate|]. injection H as <-.
  cbn [Pandas.names Pandas.tuples]. apply Nat.eqb_eq in En. rewrite En.
  replace (List.length (JNull :: map (fun _ : list string => JNull) levels))
    with (List.length (l :: levels))
    by (cbn [List.length]; now rewrite List.length_map).
  apply (product_depth (l :: levels)).
Qed.

Lemma insert_sorted_Forall {X : Type} (P : Pandas.tuple * X -> Prop)
      (c : Pandas.tuple * X) (l : list (Pandas.tuple * X)) :
  P c -> Forall P l -> Forall P (Pandas.insert_sorted c l).
Proof.
  intros Hc Hl. induction Hl as [|d l Hd Hl IH]; cbn [Pandas.insert_sorted].
  - repeat constructor. exact Hc.
  - destruct (Pandas.tuple_leb (fst c) (fst d)); repeat constructor; auto.
Qed.

(** The frame the builder starts from. *)
Lemma built_frame_full_depth (metadata : json) (dim_values : Py.dict json)
      (mi : Pandas.MultiIndex) (rows : list string) :
  api.col_index metadata dim_values = Ok mi ->
  full_depth (Pandas.sort_columns (Pandas.new_frame rows mi)).
Proof.
  intros H. apply col_index_depth in H. unfold full_depth.
  cbn [Pandas.sort_columns Pandas.new_frame Pandas.columns Pandas.column_names].
  induction H as [|t ts Ht _ IH]; cbn [map fold_right]; [constructor|].
  apply insert_sorted_Forall; [exact Ht | exact IH].
Qed.

(** An assignment keeps the rows, the level names and the depth. *)
Lemma loc_set_full_depth (df df' : Pandas.DataFrame) (row : string)
      (key : Pandas.tuple) (v : json) :
  Pandas.loc_set df row key v = Ok df' ->
  full_depth df ->
  full_depth df'
  /\ Pandas.index df' = Pandas.index df
  /\ Pandas.column_names df' = Pandas.column_names df.
Proof.
  unfold Pandas.loc_set, full_depth. intros H Hdf.
  destruct (Pandas.index df) as [rows|] eqn:Hix;
    [|destruct v; discriminate].
  assert (Hstep :
    match Pandas.position row rows with
    | None => Raise NotModelled
    | Some i =>
        if existsb (fun c => Pandas.selects key (fst c)) (Pandas.columns df)
        then Ok (Pandas.mkDataFrame (Pandas.index df) (Pandas.index_name df)
                   (Pandas.column_names df)
                   (map (fun c => if Pandas.selects key (fst c)
                                  then (fst c, Pandas.set_nth i (Some v) (snd c))
                                  else c)
                        (Pandas.columns df)))
        else if Nat.eqb (List.length key) (List.length (Pandas.column_names df))
        then match v with
             | JStr _ =>
                 Ok (Pandas.mkDataFrame (Pandas.index df) (Pandas.index_name df)
                       (Pandas.column_names df)
                       (Pandas.columns df ++
                        [(key, Pandas.set_nth i (Some v)
                                 (repeat None (List.length rows)))]))
             | _ => Raise NotModelled
             end
        else Raise KeyError
    end = Ok df') by (rewrite Hix; destruct v; (discriminate || exact H)).
  clear H. destruct (Pandas.position row rows) as [i|]; [|discriminate].
  destruct (existsb _ _).
  - injection Hstep as <-. cbn [Pandas.columns Pandas.column_names Pandas.index].
    repeat split; try reflexivity; try exact Hix.
    induction Hdf as [|c cols Hc _ IH]; cbn [map]; constructor; [|exact IH].
    cbn beta. now destruct (Pandas.selects key _).
  - destruct (Nat.eqb _ _) eqn:En; [|discriminate].
    destruct v; try discriminate. injection Hstep as <-.
    cbn [Pandas.columns Pandas.column_names Pandas.index].
    repeat split; try reflexivity; try exact Hix.
    apply Forall_app. split; [exact Hdf|]. repeat constructor.
    now apply Nat.eqb_eq in En.
Qed.

Lemma insert_stat_full_depth (metadata stat : json) (date : string)
      (df df' : Pandas.DataFrame) :
  api.insert_stat metadata date df stat = Ok df' ->
  full_depth df ->
  full_depth df'
  /\ Pandas.index df' = Pandas.index df
  /\ Pandas.column_names df' = Pandas.column_names df.
Proof.
  unfold api.insert_stat. intros H Hdf.
  invert_bind H as dv Hdv. invert_bind H as has Hhas. destruct has.
  - invert_bind H as valor Hvalor. invert_bind H as key Hkey.
    exact (loc_set_full_depth _ _ _ _ _ H Hdf).
  - injection H as <-. auto.
Qed.

(** The whole loop keeps the frame at full depth: the statement about one
    record applies at every turn. *)
Lemma fill_table_full_depth (metadata : json) (dados : Py.dict json)
      (df df' : Pandas.DataFrame) :
  api.fill_table metadata dados df = Ok df' ->
  full_depth df ->
  full_depth df'
  /\ Pandas.index df' = Pandas.index df
  /\ Pandas.column_names df' = Pandas.column_names df.
Proof.
  unfold api.fill_table. revert df.
  induction dados as [|period dados IH]; intros df H Hdf.
  - injection H as <-. auto.
  - cbn [foldM] in H. invert_bind H as df1 Hperiod.
    assert (H1 : full_depth df1
                 /\ Pandas.index df1 = Pandas.index df
                 /\ Pandas.column_names df1 = Pandas.column_names df).
    { unfold api.insert_period in Hperiod.
      invert_bind Hperiod as stats Hstats. clear Hstats.
      revert df Hdf Hperiod. induction stats as [|stat stats IHs];
        intros df Hdf Hperiod.
      - injection Hperiod as <-. auto.
      - cbn [foldM] in Hperiod. invert_bind Hperiod as df2 Hstat.
        destruct (insert_stat_full_depth _ _ _ _ _ Hstat Hdf) as (H2 & Hi & Hn).
        destruct (IHs _ H2 Hperiod) as (H3 & Hi3 & Hn3).
        repeat split; [exact H3 | congruence | congruence]. }
    destruct H1 as (H1 & Hi1 & Hn1).
    destruct (IH _ H H1) as (H2 & Hi2 & Hn2).
    repeat split; [exact H2 | congruence | congruence].
Qed.

End Table.

(** On the sample payloads the record keyed ["PT"], which is on no built
    column, is not dropped: the table built with it has one more column,
    holding its value, than the table built without it. *)
Lemma off_axis_record_not_dropped :
  exists df0 df1,
    api.build_table Samples.data_without Samples.metadata [] = Ok df0
    /\ api.build_table Samples.data_off_axis Samples.metadata [] = Ok df1
    /\ ~ In [ "PT"; "MF" ] (map fst (Pandas.columns df0))
    /\ In ([ "PT"; "MF" ], [ Some (JStr "10") ]) (Pandas.columns df1)
    /\ df1 <> df0.
Proof.
  eexists _, _. split; [reflexivity|]. split; [reflexivity|].
  split; [|split].
  - vm_compute. intuition discriminate.
  - vm_compute. intuition.
  - discriminate.
Qed.

(** C2 (amended). A stat record whose column key has the depth of the axis
    and is on none of the columns is not dropped.  When it carries a
    ["valor"] that is text, the assignment appends a column for its key,
    which holds the text at the record's period and no value at the other
    periods, and leaves the existing columns as they are; no exception is
    raised.  When it carries no ["valor"], the table is left as it is. *)
Theorem off_axis_record_is_appended
        (metadata stat : json) (date : string) (df : Pandas.DataFrame)
        (rows : list string) (i : nat) (dim_values : list json)
        (key : Pandas.tuple) :
  Pandas.index df = Pandas.ObjectIndex rows ->
  Pandas.position date rows = Some i ->
  full_depth df ->
  api.column_key metadata stat = Ok dim_values ->
  mapM Pandas.as_label dim_values = Ok key ->
  List.length key = List.length (Pandas.column_names df) ->
  ~ In key (map fst (Pandas.columns df)) ->
  (Py.py_in "valor" stat = Ok false ->
     api.insert_stat metadata date df stat = Ok df)
  /\ (forall text,
        Py.py_in "valor" stat = Ok true ->
        Py.getitem stat "valor" = Ok (JStr text) ->
        api.insert_stat metadata date df stat
        = Ok (Pandas.mkDataFrame
                (Pandas.index df) (Pandas.index_name df) (Pandas.column_names df)
                (Pandas.columns df ++
                 [(key, Pandas.set_nth i (Some (JStr text))
                          (repeat None (List.length rows)))]))).
Proof.
  intros Hix Hpos Hdepth Hkeyv Hkey Hlen Hnot. split.
  - intros Hno. unfold api.insert_stat. rewrite Hkeyv. cbn [bind].
    now rewrite Hno.
  - intros text Hin Hval. unfold api.insert_stat.
    rewrite Hkeyv. cbn [bind]. rewrite Hin. cbn [bind].
    rewrite Hval. cbn [bind]. rewrite Hkey. cbn [bind].
    now apply loc_set_enlarges.
Qed.

Lemma off_axis_record_is_appended_witness :
  let stat := JObj [ ("geocod", JStr "PT"); ("dim_3_t", JStr "MF");
                     ("valor", JStr "10") ] in
  let df := Pandas.mkDataFrame (Pandas.ObjectIndex [ "2011"; "2012" ]) None
              [ JStr "Location"; JStr "Sex" ]
              [ ([ "Portugal"; "MF" ], [ None; None ]) ] in
  full_depth df
  /\ ~ In [ "PT"; "MF" ] (map fst (Pandas.columns df))
  /\ api.insert_stat Samples.metadata "2012" df stat
     = Ok (Pandas.mkDataFrame (Pandas.ObjectIndex [ "2011"; "2012" ]) None
             [ JStr "Location"; JStr "Sex" ]
             [ ([ "Portugal"; "MF" ], [ None; None ]);
               ([ "PT"; "MF" ], [ None; Some (JStr "10") ]) ]).
Proof.
  intros stat df.
  assert (Hdepth : full_depth df) by (repeat constructor).
  assert (Hnot : ~ In [ "PT"; "MF" ] (map fst (Pandas.columns df)))
    by (vm_compute; intuition discriminate).
  split; [exact Hdepth|]. split; [exact Hnot|].
  exact (proj2 (off_axis_record_is_appended Samples.metadata stat "2012" df
                  [ "2011"; "2012" ] 1%nat [ JStr "PT"; JStr "MF" ]
                  [ "PT"; "MF" ] eq_refl eq_refl Hdepth eq_refl eq_refl eq_refl
                  Hnot)
               "10" eq_refl eq_refl).
Defined.

(* ================================================================== *)
(** * The merged metadata *)

Section Merge.

Context {V : Type}.
Implicit Types (d m : Py.dict V) (k : string) (v : V).

Lemma dict_get_In d k v : Py.dict_get d k = Some v -> In k (Py.keys d).
Proof.
  induction d as [|[k' v'] d IH]; simpl; [discriminate|].
  destruct (String.eqb k' k) eqn:E; [|auto].
  apply String.eqb_eq in E. auto.
Qed.

Lemma dict_get_absent d k : ~ In k (Py.keys d) -> Py.dict_get d k = None.
Proof.
  induction d as [|[k' v'] d IH]; simpl; [reflexivity|]. intros H.
  destruct (String.eqb k' k) eqn:E.
  - apply String.eqb_eq in E. elim H. auto.
  - apply IH. intros Hin. apply H. auto.
Qed.

Lemma keys_dict_set d k v :
  Py.keys (Py.dict_set d k v)
  = if Py.dict_mem d k then Py.keys d else Py.keys d ++ [k].
Proof.
  unfold Py.dict_mem. induction d as [|[k' v'] d IH]; simpl; [reflexivity|].
  destruct (String.eqb k' k) eqn:E; simpl.
  - apply String.eqb_eq in E. now subst.
  - rewrite IH. now destruct (Py.dict_get d k).
Qed.

Lemma dict_get_present d k : In k (Py.keys d) -> Py.dict_get d k <> None.
Proof.
  induction d as [|[k' v'] d IH]; simpl; [intros []|].
  destruct (String.eqb k' k) eqn:E; [discriminate|].
  intros [H|H]; [|auto]. apply String.eqb_neq in E. now elim E.
Qed.

Lemma NoDup_dict_set d k v :
  NoDup (Py.keys d) -> NoDup (Py.keys (Py.dict_set d k v)).
Proof.
  intros H. rewrite keys_dict_set. unfold Py.dict_mem.
  destruct (Py.dict_get d k) eqn:E; [exact H|].
  apply NoDup_app; [exact H | repeat constructor; intros [] | ].
  intros x Hx [<-|[]]. now apply dict_get_present in Hx.
Qed.

Lemma dict_merge_get_absent d m k :
  ~ In k (Py.keys m) -> Py.dict_get (Py.dict_merge d m) k = Py.dict_get d k.
Proof.
  unfold Py.dict_merge. revert d; induction m as [|[k' v'] m IH]; intros d H;
    [reflexivity|].
  cbn [fold_left fst snd]. rewrite IH by (intros Hin; apply H; now right).
  apply dict_get_set_other. intros ->. apply H. now left.
Qed.

Lemma dict_merge_get d m k v :
  NoDup (Py.keys m) -> Py.dict_get m k = Some v ->
  Py.dict_get (Py.dict_merge d m) k = Some v.
Proof.
  revert d; induction m as [|[k' v'] m IH]; intros d Hnd H; [discriminate|].
  inversion Hnd as [|? ? Hnot Hnd']; subst. cbn [Py.dict_get] in H.
  change (Py.dict_merge d ((k', v') :: m))
    with (Py.dict_merge (Py.dict_set d k' v') m).
  destruct (String.eqb k' k) eqn:E.
  - apply String.eqb_eq in E as ->. injection H as ->.
    rewrite (dict_merge_get_absent _ _ _ Hnot). apply dict_get_set_same.
  - now apply IH.
Qed.

Lemma NoDup_dict_merge d m :
  NoDup (Py.keys d) -> NoDup (Py.keys (Py.dict_merge d m)).
Proof.
  unfold Py.dict_merge. revert d; induction m as [|[k' v'] m IH]; intros d H;
    [exact H|].
  cbn [fold_left fst snd]. apply IH. now apply NoDup_dict_set.
Qed.

Lemma dict_get_split d k v :
  Py.dict_get d k = Some v ->
  exists d1 d2, d = d1 ++ (k, v) :: d2 /\ ~ In k (Py.keys d1).
Proof.
  induction d as [|[k' v'] d IH]; simpl; [discriminate|].
  destruct (String.eqb k' k) eqn:E.
  - apply String.eqb_eq in E as ->. intros H; injection H as ->.
    exists [], d. split; [reflexivity | intros []].
  - intros H. destruct (IH H) as (d1 & d2 & -> & Hnot).
    exists ((k', v') :: d1), d2. split; [reflexivity|].
    intros [Hk|Hk]; [|auto]. apply String.eqb_neq in E. now elim E.
Qed.

End Merge.

Section MergeLoop.

Variable metadata : json.

Lemma str_in_In (k : string) (l : list string) : Py.str_in k l = true <-> In k l.
Proof.
  unfold Py.str_in. rewrite existsb_exists. split.
  - intros (x & Hx & E). apply String.eqb_eq in E. now subst.
  - intros H. exists k. split; [exact H | apply String.eqb_refl].
Qed.

Lemma str_in_not_In (k : string) (l : list string) :
  Py.str_in k l = false <-> ~ In k l.
Proof.
  split.
  - intros H Hin. apply str_in_In in Hin. congruence.
  - intros H. destruct (Py.str_in k l) eqn:E; [|reflexivity].
    apply str_in_In in E. now elim H.
Qed.

(** No key is renamed to an excluded name. *)
Lemma canonical_not_excluded (k : string) :
  Py.str_in k api.excluded = false ->
  Py.str_in (api.canonical k) api.excluded = false.
Proof.
  intros H. unfold api.canonical, api.metadata_key_map. cbn [Py.dict_get].
  repeat match goal with
         | |- context [String.eqb ?a k] => destruct (String.eqb a k)
         end; try reflexivity. exact H.
Qed.

Lemma foldM_app {X S : Type} (f : S -> X -> result S) (l1 l2 : list X) (acc : S) :
  foldM f (l1 ++ l2) acc = (a <- foldM f l1 acc ;; foldM f l2 a).
Proof.
  revert acc; induction l1 as [|x l1 IH]; intros acc; [reflexivity|].
  cbn [app foldM]. destruct (f acc x); cbn [bind]; [apply IH | reflexivity].
Qed.

(** An entry writes the canonical name of its key, when the key is not
    excluded, and nothing else. *)
Lemma merge_entry_other (acc acc' : Py.dict json) (kv : string * json) (c : string) :
  api.merge_entry metadata acc kv = Ok acc' ->
  Py.str_in (fst kv) api.excluded = true \/ api.canonical (fst kv) <> c ->
  Py.dict_get acc' c = Py.dict_get acc c.
Proof.
  unfold api.merge_entry. intros H Hc.
  destruct (Py.str_in (fst kv) api.excluded).
  - now injection H as <-.
  - destruct Hc as [Hc|Hc]; [discriminate|].
    inv_bind H. injection H as <-. apply dict_get_set_other. congruence.
Qed.

Lemma merge_loop_other (l : Py.dict json) (acc res : Py.dict json) (c : string) :
  foldM (api.merge_entry metadata) l acc = Ok res ->
  Forall (fun kv => Py.str_in (fst kv) api.excluded = true
                    \/ api.canonical (fst kv) <> c) l ->
  Py.dict_get res c = Py.dict_get acc c.
Proof.
  revert acc; induction l as [|kv l IH]; intros acc H Hall.
  - now injection H as <-.
  - cbn [foldM] in H. inv_bind H. inversion Hall; subst.
    rewrite (IH _ H) by assumption. eapply merge_entry_other; eauto.
Qed.

Lemma excluded_untouched (e : string) (l : Py.dict json) :
  In e api.excluded ->
  Forall (fun kv => Py.str_in (fst kv) api.excluded = true
                    \/ api.canonical (fst kv) <> e) l.
Proof.
  intros He. apply Forall_forall. intros kv _.
  destruct (Py.str_in (fst kv) api.excluded) eqn:E; [now left | right].
  intros Heq. apply canonical_not_excluded in E. rewrite Heq in E.
  apply str_in_In in He. congruence.
Qed.

End MergeLoop.

(** On the sample payloads ["UltimoPref"] is in both, with the metadata
    value ["2021"]; the merged record holds that value nowhere, because
    ["UltimoPeriodo"], processed after it, is written under the same name. *)
Lemma merge_loses_metadata_value :
  exists merged,
    api.merge_metadata (JObj Samples.data_clash) (JObj Samples.metadata_clash)
    = Ok merged
    /\ Py.dict_get Samples.data_clash "UltimoPref" = Some (JStr "2011")
    /\ Py.dict_get Samples.metadata_clash "UltimoPref" = Some (JStr "2021")
    /\ Py.dict_get merged (api.canonical "UltimoPref") = Some (JStr "2022-01-01")
    /\ ~ In (JStr "2021") (map snd merged).
Proof.
  eexists. split; [reflexivity|]. repeat split.
  vm_compute. intuition discriminate.
Qed.

(** C8 (amended). The loop runs over the data entries overlaid with the
    metadata entries, so for a key of both payloads the value it processes is
    the metadata value.  That value is what the merged record holds under
    the canonical name of the key - converted to an ISO date for the first
    and last period - provided no other processed key has the same canonical
    name and the name is not ["geo_level"].  The four excluded fields are
    never keys of the merged record. *)
Theorem merge_prefers_metadata (d m merged : Py.dict json) :
  NoDup (Py.keys d) -> NoDup (Py.keys m) ->
  api.merge_metadata (JObj d) (JObj m) = Ok merged ->
  (forall key, In key api.excluded -> Py.dict_get merged key = None)
  /\ (forall key vd vm,
        Py.dict_get d key = Some vd ->
        Py.dict_get m key = Some vm ->
        Py.dict_get (Py.dict_merge d m) key = Some vm
        /\ (~ In key api.excluded ->
            api.canonical key <> "geo_level" ->
            (forall other,
               In other (Py.keys (Py.dict_merge d m)) ->
               ~ In other api.excluded ->
               api.canonical other = api.canonical key -> other = key) ->
            exists v,
              Py.dict_get merged (api.canonical key) = Some v
              /\ (~ In key api.period_keys -> v = vm)
              /\ (In key api.period_keys ->
                  exists periodic,
                    Py.dict_get m "Periodic" = Some periodic
                    /\ api.period_value periodic vm = Ok v))).
Proof.
  intros Hd Hm H. unfold api.merge_metadata in H.
  cbn [Py.getitem Py.mapping] in H.
  destruct (Py.dict_get d "DataExtracao") as [de|]; [|discriminate].
  destruct (Py.dict_get m "DataExtracao") as [me|]; [|discriminate].
  cbn [bind] in H. invert_bind H as mm Hloop.
  destruct (Py.dict_get mm "description") as [desc|]; [|discriminate].
  invert_bind H as tag Htag. injection H as <-. split.
  - intros key Hkey.
    rewrite dict_get_set_other
      by (intros ->; destruct Hkey as [?|[?|[?|[?|[]]]]]; discriminate).
    rewrite (merge_loop_other _ _ _ _ _ Hloop (excluded_untouched _ _ Hkey)).
    destruct Hkey as [<-|[<-|[<-|[<-|[]]]]]; reflexivity.
  - intros key vd vm _ Hvm.
    pose proof (dict_merge_get d m key vm Hm Hvm) as Hget.
    split; [exact Hget|]. intros Hnex Hgeo Huniq.
    pose proof (NoDup_dict_merge d m Hd) as Hnd.
    destruct (dict_get_split _ _ _ Hget) as (l1 & l2 & Hl & Hl1).
    rewrite Hl in Hloop, Hnd, Huniq.
    rewrite foldM_app in Hloop. invert_bind Hloop as acc1 Hbefore.
    cbn [foldM] in Hloop. invert_bind Hloop as acc2 Hentry.
    unfold Py.keys in Hnd, Huniq. rewrite map_app in Hnd, Huniq.
    cbn [map fst] in Hnd, Huniq. apply NoDup_remove_2 in Hnd.
    assert (Hrest : Forall (fun kv => Py.str_in (fst kv) api.excluded = true
                                      \/ api.canonical (fst kv) <> api.canonical key) l2).
    { apply Forall_forall. intros kv Hkv.
      destruct (Py.str_in (fst kv) api.excluded) eqn:Ex; [now left | right].
      intros Heq. apply str_in_not_In in Ex.
      assert (Hin2 : In (fst kv) (map fst l2)) by now apply in_map.
      rewrite (Huniq (fst kv)) in Hin2; auto.
      - apply Hnd. apply in_or_app. now right.
      - apply in_or_app. right. now right. }
    rewrite dict_get_set_other by congruence.
    rewrite (merge_loop_other _ _ _ _ _ Hloop Hrest).
    unfold api.merge_entry in Hentry. cbn [fst snd] in Hentry.
    apply str_in_not_In in Hnex. rewrite Hnex in Hentry.
    invert_bind Hentry as v Hv. injection Hentry as <-. exists v.
    split; [apply dict_get_set_same|].
    destruct (Py.str_in key api.period_keys) eqn:Ep.
    + split; [intros Hn; apply str_in_In in Ep; now elim Hn|]. intros _.
      invert_bind Hv as p Hp. cbn [Py.getitem] in Hp.
      destruct (Py.dict_get m "Periodic") as [p'|]; [|discriminate].
      injection Hp as ->. eauto.
    + injection Hv as ->. split; [reflexivity|].
      intros Hp. apply str_in_In in Hp. congruence.
Qed.

Lemma merge_prefers_metadata_witness :
  NoDup (Py.keys [ ("IndicadorCod", JStr "1"); ("DataExtracao", JStr "a") ])
  /\ api.merge_metadata
       (JObj [ ("IndicadorCod", JStr "1"); ("DataExtracao", JStr "a") ])
       (JObj [ ("IndicadorCod", JStr "0006341"); ("IndicadorDsg", JStr "x");
               ("DataExtracao", JStr "b") ])
     = Ok [ ("extraction_date", JObj [ ("data", JStr "a"); ("metadata", JStr "b") ]);
            ("source", JStr "INE"); ("code", JStr "0006341");
            ("description", JStr "x"); ("geo_level", JStr "national") ]
  /\ Py.dict_get
       (Py.dict_merge [ ("IndicadorCod", JStr "1"); ("DataExtracao", JStr "a") ]
                      [ ("IndicadorCod", JStr "0006341"); ("IndicadorDsg", JStr "x");
                        ("DataExtracao", JStr "b") ])
       "IndicadorCod"
     = Some (JStr "0006341").
Proof.
  assert (Hd : NoDup (Py.keys [ ("IndicadorCod", JStr "1"); ("DataExtracao", JStr "a") ])).
  { repeat constructor; simpl; intuition discriminate. }
  assert (Hm : NoDup (Py.keys [ ("IndicadorCod", JStr "0006341");
                                ("IndicadorDsg", JStr "x");
                                ("DataExtracao", JStr "b") ])).
  { repeat constructor; simpl; intuition discriminate. }
  split; [exact Hd|]. split; [reflexivity|].
  exact (proj1 (proj2 (merge_prefers_metadata _ _ _ Hd Hm eq_refl)
                      "IndicadorCod" (JStr "1") (JStr "0006341") eq_refl eq_refl)).
Defined.

(* ================================================================== *)
(** * The export *)

Section ExportFacts.

Variable number : Type.
Variable to_number : json -> option number.

(** With [errors="coerce"] the conversion of a column never raises. *)
Lemma to_numeric_coerce (column : list Pandas.cell) :
  exists values,
    Pandas.to_numeric number to_number Pandas.errors_coerce column = Ok values
    /\ Forall2 (fun c x =>
                  (no_value c -> x = None)
                  /\ (forall v, c = Some v -> to_number v = None -> x = None)
                  /\ (forall v y, c = Some v -> v <> JNull ->
                                  to_number v = Some y -> x = Some y))
               column values.
Proof.
  unfold Pandas.to_numeric. induction column as [|c column (values & Hv & Hall)].
  - exists []. split; [reflexivity | constructor].
  - cbn [mapM]. rewrite Hv.
    assert (Hc : exists x,
               Pandas.to_numeric_cell number to_number Pandas.errors_coerce c = Ok x
               /\ (no_value c -> x = None)
               /\ (forall v, c = Some v -> to_number v = None -> x = None)
               /\ (forall v y, c = Some v -> v <> JNull ->
                               to_number v = Some y -> x = Some y)).
    { destruct c as [v|].
      - destruct (to_number v) as [y|] eqn:Ey.
        + destruct v; cbn [Pandas.to_numeric_cell]; rewrite ?Ey;
            eexists; (split; [reflexivity|]); unfold no_value;
            repeat split; intros; try congruence;
            match goal with H : _ \/ _ |- _ => destruct H; congruence end.
        + destruct v; cbn [Pandas.to_numeric_cell]; rewrite ?Ey;
            eexists; (split; [reflexivity|]); unfold no_value;
            repeat split; intros; congruence.
      - exists None. unfold no_value. repeat split; intros; congruence. }
    destruct Hc as (x & Hx & Hprops). rewrite Hx. cbn [bind].
    exists (x :: values). split; [reflexivity | constructor; assumption].
Qed.

Lemma zip_records (l : list (Pandas.melted Pandas.Timestamp Pandas.cell))
      (values : list (option number)) :
  Forall2 (fun c x =>
             (no_value c -> x = None)
             /\ (forall v, c = Some v -> to_number v = None -> x = None)
             /\ (forall v y, c = Some v -> v <> JNull ->
                             to_number v = Some y -> x = Some y))
          (map Pandas.value l) values ->
  Forall2 (exports to_number) l
          (map (fun mv => Pandas.mkMelted
                            (Pandas.strftime_Ymd (Pandas.id (fst mv)))
                            (Pandas.variables (fst mv)) (snd mv))
               (Pandas.zip l values)).
Proof.
  revert values; induction l as [|m l IH]; intros values H;
    inversion H; subst; cbn [Pandas.zip map]; constructor; auto.
  unfold exports. cbn [Pandas.id Pandas.variables Pandas.value fst snd].
  tauto.
Qed.

(** On an axis that [melt] unpivots, the melted frame is the stacked
    columns. *)
Lemma melt_unpivots {L : Type} (df : Pandas.DataFrame) (rows : list L) :
  unpivots df ->
  Pandas.melt (Pandas.index_name df) (Pandas.column_names df) rows
              (Pandas.columns df)
  = Ok (Pandas.stack rows (Pandas.columns df)).
Proof.
  unfold unpivots, Pandas.melt. now intros ->.
Qed.

End ExportFacts.



(* ================================================================== *)
(** * Further properties of [request] and [get_indicator] *)

(** X1. After [request] with data type ["data"] the caller's mapping always
    binds ["Dim1"]; a mapping that already bound it is left exactly as it
    was, so a second call with the same mapping changes nothing more. *)
Theorem request_keeps_Dim1
        (g : string -> result Response) (code : string) (d : Py.dict json) :
  exists d1,
    fst (api.request g code "data" (Some d)) = Some d1
    /\ Py.dict_get d1 "Dim1" <> None
    /\ (Py.dict_get d "Dim1" <> None -> d1 = d)
    /\ (forall g' code', fst (api.request g' code' "data" (Some d1)) = Some d1).
Proof.
  unfold api.request. cbn [String.eqb Ascii.eqb Bool.eqb fst].
  unfold Py.dict_mem. destruct (Py.dict_get d "Dim1") as [v|] eqn:E; cbn [negb].
  - exists d. rewrite E.
    split; [reflexivity | split; [discriminate | split; [reflexivity|]]].
    intros g' code'. reflexivity.
  - exists (Py.dict_set d "Dim1" (JStr "T")).
    rewrite dict_get_set_same.
    split; [reflexivity | split; [discriminate | split]].
    + intros H; now elim H.
    + intros g' code'. reflexivity.
Qed.

(** X2. A request for ["metadata"] ignores the filters: the URL does not
    depend on them and the caller's mapping is returned as it was; any
    data type other than ["data"] and ["metadata"] raises [ValueError]
    without a request being sent. *)
Theorem request_other_types
        (g : string -> result Response) (code data_type : string)
        (dv : option (Py.dict json)) :
  api.request g code "metadata" dv
  = (dv, g (api.INE_API_BASE_URL +++ "/pindicaMeta.jsp?varcd=" +++ code +++ "&lang=EN"))
  /\ (data_type <> "data" -> data_type <> "metadata" ->
      api.request g code data_type dv = (dv, Raise ValueError)).
Proof.
  split; [reflexivity|]. intros Hd Hm. unfold api.request.
  apply String.eqb_neq in Hd. apply String.eqb_neq in Hm.
  now rewrite Hd, Hm.
Qed.

(** X3. Without an indicator code, [get_indicator] raises [ValueError] as
    soon as one of the two payloads is missing, whatever the transport
    would answer. *)
Theorem get_indicator_needs_code_or_payloads
        (g : string -> result Response) (dv : option (Py.dict json))
        (data metadata : option json) :
  data = None \/ metadata = None ->
  api.get_indicator g None dv data metadata = Raise ValueError.
Proof.
  intros [-> | ->]; unfold api.get_indicator; [reflexivity|].
  now destruct data.
Qed.

Lemma get_indicator_needs_code_or_payloads_witness :
  (Some (JArr []) = None \/ @None json = None)
  /\ api.get_indicator (fun _ => Ok Samples.rejected) None None
                       (Some (JArr [])) None
     = Raise ValueError.
Proof.
  assert (H : Some (JArr []) = None \/ @None json = None) by (right; reflexivity).
  split; [exact H|].
  exact (get_indicator_needs_code_or_payloads _ None _ _ H).
Defined.

(** X4. When both payloads are supplied, [get_indicator] sends no request:
    its outcome is the same for every transport and every indicator code,
    and it is the table and the merged metadata of the first elements of
    the two payloads. *)
Theorem get_indicator_prefetched
        (g g' : string -> result Response) (code code' : option string)
        (dv : option (Py.dict json)) (data metadata : json) :
  api.get_indicator g code dv (Some data) (Some metadata)
  = api.get_indicator g' code' dv (Some data) (Some metadata)
  /\ api.get_indicator g code dv (Some data) (Some metadata)
     = (d <- Py.getindex data 0 ;;
        m <- Py.getindex metadata 0 ;;
        df <- api.build_table d m (match dv with Some x => x | None => [] end) ;;
        merged <- api.merge_metadata d m ;;
        Ok (models.mkIndicator df merged)).
Proof.
  split; unfold api.get_indicator; destruct code; try destruct code';
    reflexivity.
Qed.

(* ================================================================== *)
(** * Further properties of the response classification *)

(** X5. A 4xx or 5xx status raises [HTTPError] with that status whatever
    the body is, also when the body is not JSON or reports errors. *)
Theorem http_error_precedes_body (status : Z) (b : option json) :
  400 <= status < 600 ->
  models.raise_for_status (mkResponse status b) = Raise (HTTPError status).
Proof.
  intros H. unfold models.raise_for_status, Requests.raise_for_status.
  cbn [status_code].
  replace ((400 <=? status) && (status <? 600)) with true; [reflexivity|].
  symmetry. apply andb_true_iff. split; [apply Z.leb_le | apply Z.ltb_lt]; lia.
Qed.

Lemma http_error_precedes_body_witness :
  400 <= 404 < 600
  /\ models.raise_for_status (mkResponse 404 (body Samples.rejected))
     = Raise (HTTPError 404).
Proof.
  assert (H : 400 <= 404 < 600) by lia.
  split; [exact H | exact (http_error_precedes_body 404 _ H)].
Defined.

(** X6. Whenever [get_ine_errors] finds error records in a response with a
    non-error status, [raise_for_status] raises [INEInvalidRequestError],
    and the exception carries exactly those records and the default
    message. *)
Theorem reported_errors_are_raised (r : Response) (e : json) (es : list json) :
  status_ok (status_code r) ->
  exceptions.get_ine_errors r = Ok (e :: es) ->
  models.raise_for_status r
  = Raise (INEInvalidRequest (mkINEError r exceptions.default_message (e :: es))).
Proof.
  intros Hst H. destruct r as [status b]. cbn [status_code] in Hst.
  unfold models.raise_for_status. rewrite (status_ok_passes _ _ Hst). cbn [bind].
  unfold exceptions.init. rewrite H. cbn [bind].
  unfold exceptions.get_ine_errors in H. unfold models.is_ine_error.
  destruct (Requests.json_ (mkResponse status b)) as [v|]; [|discriminate].
  cbn [bind] in *. destruct v as [| | | | |l|]; try discriminate.
  destruct l as [|first l]; [discriminate|].
  destruct (Py.py_in "Sucesso" first) as [[|]|]; try discriminate.
  cbn [bind] in *.
  destruct (Py.getitem first "Sucesso") as [sucesso|]; [|discriminate].
  cbn [bind] in *.
  destruct (Py.py_in "Falso" sucesso) as [[|]|]; try discriminate.
  reflexivity.
Qed.

Lemma reported_errors_are_raised_witness :
  status_ok (status_code Samples.rejected)
  /\ exceptions.get_ine_errors Samples.rejected
     = Ok [ JObj [ ("Msg", JStr "Invalid code") ] ]
  /\ models.raise_for_status Samples.rejected
     = Raise (INEInvalidRequest
                (mkINEError Samples.rejected exceptions.default_message
                            [ JObj [ ("Msg", JStr "Invalid code") ] ])).
Proof.
  assert (H : status_ok (status_code Samples.rejected)) by (left; cbn; lia).
  split; [exact H|]. split; [reflexivity|].
  exact (reported_errors_are_raised Samples.rejected _ _ H eq_refl).
Defined.

(** X7. With a non-error status, a JSON body that is not a non-empty list,
    or whose first element is an object without ["Sucesso"], passes
    [raise_for_status], and [get_ine_errors] finds no record in it. *)
Theorem plain_bodies_pass (status : Z) (v : json) :
  status_ok status ->
  ~ non_empty_list v
  \/ (exists o rest, v = JArr (JObj o :: rest) /\ Py.dict_get o "Sucesso" = None) ->
  models.raise_for_status (mkResponse status (Some v)) = Ok tt
  /\ exceptions.get_ine_errors (mkResponse status (Some v)) = Ok [].
Proof.
  intros Hst Hv. unfold models.raise_for_status.
  rewrite (status_ok_passes _ _ Hst). cbn [bind].
  unfold models.is_ine_error, exceptions.get_ine_errors, Requests.json_.
  cbn [body bind]. destruct Hv as [Hv | (o & rest & -> & Ho)].
  - destruct v as [| | | | |l|]; try (split; reflexivity).
    destruct l as [|x l]; [split; reflexivity|].
    elim Hv. now exists x, l.
  - cbn [Py.py_in bind]. unfold Py.dict_mem. rewrite Ho. split; reflexivity.
Qed.

Lemma plain_bodies_pass_witness :
  status_ok 200
  /\ (~ non_empty_list (JObj [ ("IndicadorCod", JStr "0006341") ])
      \/ (exists o rest,
            JObj [ ("IndicadorCod", JStr "0006341") ] = JArr (JObj o :: rest)
            /\ Py.dict_get o "Sucesso" = None))
  /\ models.raise_for_status
       (mkResponse 200 (Some (JObj [ ("IndicadorCod", JStr "0006341") ])))
     = Ok tt.
Proof.
  assert (Hst : status_ok 200) by (left; lia).
  assert (Hv : ~ non_empty_list (JObj [ ("IndicadorCod", JStr "0006341") ])
               \/ (exists o rest,
                     JObj [ ("IndicadorCod", JStr "0006341") ] = JArr (JObj o :: rest)
                     /\ Py.dict_get o "Sucesso" = None))
    by (left; intros (x & l & H); discriminate).
  split; [exact Hst | split; [exact Hv|]].
  exact (proj1 (plain_bodies_pass 200 _ Hst Hv)).
Defined.

(** X8. A body that is a list whose first element is [None], a boolean or a
    number is not classified: the test ["Sucesso" in response_data[0]]
    raises [TypeError], in [raise_for_status] and in [get_ine_errors]. *)
Theorem scalar_first_element_is_a_type_error
        (status : Z) (first : json) (rest : list json) :
  status_ok status ->
  plain_scalar first ->
  models.raise_for_status (mkResponse status (Some (JArr (first :: rest))))
  = Raise TypeError
  /\ exceptions.get_ine_errors (mkResponse status (Some (JArr (first :: rest))))
     = Raise TypeError.
Proof.
  intros Hst Hf. unfold models.raise_for_status.
  rewrite (status_ok_passes _ _ Hst). cbn [bind].
  unfold models.is_ine_error, exceptions.get_ine_errors, Requests.json_.
  cbn [body bind]. destruct first; try (now elim Hf); split; reflexivity.
Qed.

Lemma scalar_first_element_is_a_type_error_witness :
  status_ok 200 /\ plain_scalar (JInt 0)
  /\ models.raise_for_status (mkResponse 200 (Some (JArr [ JInt 0 ])))
     = Raise TypeError.
Proof.
  assert (Hst : status_ok 200) by (left; lia).
  split; [exact Hst | split; [exact I|]].
  exact (proj1 (scalar_first_element_is_a_type_error 200 (JInt 0) [] Hst I)).
Defined.

(** X9. When the first element is an object whose ["Sucesso"] object has a
    ["Falso"] that is not a non-empty list (an empty list, an object, a
    text, ...), the exception is raised without any error record and its
    string form cannot be built: [__str__] raises [IndexError]. *)
Theorem failure_without_records_has_no_text
        (status : Z) (o s : Py.dict json) (rest : list json) (falso : json) :
  status_ok status ->
  Py.dict_get o "Sucesso" = Some (JObj s) ->
  Py.dict_get s "Falso" = Some falso ->
  ~ non_empty_list falso ->
  exists exc,
    models.raise_for_status (mkResponse status (Some (JArr (JObj o :: rest))))
    = Raise (INEInvalidRequest exc)
    /\ ine_errors exc = []
    /\ exceptions.str_ exc = Raise IndexError.
Proof.
  intros Hst Ho Hs Hf.
  set (r := mkResponse status (Some (JArr (JObj o :: rest)))).
  exists (mkINEError r exceptions.default_message []).
  split; [|split; reflexivity].
  unfold models.raise_for_status.
  unfold r at 1. rewrite (status_ok_passes _ _ Hst). cbn [bind].
  unfold r at 1. rewrite (is_ine_error_keys_only _ _ _ _ _ Ho Hs). cbn [bind].
  unfold exceptions.init, exceptions.get_ine_errors, Requests.json_, r; simpl.
  unfold Py.dict_mem. rewrite Ho; simpl.
  unfold Py.dict_mem. rewrite Hs; simpl.
  destruct falso as [| | | | |l|]; try reflexivity.
  destruct l as [|x l]; [reflexivity|]. elim Hf. now exists x, l.
Qed.

Lemma failure_without_records_has_no_text_witness :
  status_ok 200
  /\ ~ non_empty_list (JStr "denied")
  /\ exists exc,
       models.raise_for_status
         (mkResponse 200
            (Some (JArr [ JObj [ ("Sucesso", JObj [ ("Falso", JStr "denied") ]) ] ])))
       = Raise (INEInvalidRequest exc)
       /\ exceptions.str_ exc = Raise IndexError.
Proof.
  assert (Hst : status_ok 200) by (left; lia).
  assert (Hf : ~ non_empty_list (JStr "denied"))
    by (intros (x & l & H); discriminate).
  split; [exact Hst | split; [exact Hf|]].
  destruct (failure_without_records_has_no_text 200
              [ ("Sucesso", JObj [ ("Falso", JStr "denied") ]) ]
              [ ("Falso", JStr "denied") ] [] (JStr "denied")
              Hst eq_refl eq_refl Hf) as (exc & Hraise & _ & Hstr).
  exists exc. split; [exact Hraise | exact Hstr].
Defined.

(* ================================================================== *)
(** * Further properties of the merged metadata *)

Section MergedKeys.

Lemma keys_dict_merge {V : Type} (d m : Py.dict V) (k : string) :
  In k (Py.keys (Py.dict_merge d m)) <-> In k (Py.keys d) \/ In k (Py.keys m).
Proof.
  unfold Py.dict_merge. revert d; induction m as [|[k' v'] m IH]; intros d.
  - cbn. tauto.
  - cbn [fold_left fst snd]. rewrite IH, keys_dict_set. cbn [Py.keys map fst].
    unfold Py.dict_mem. destruct (Py.dict_get d k') eqn:E.
    + apply dict_get_In in E. unfold Py.keys in *. cbn [In].
      split; [tauto|]. intros [H|[<-|H]]; auto.
    + unfold Py.keys. rewrite in_app_iff. cbn [In]. tauto.
Qed.

Lemma in_keys_iff {V : Type} (d : Py.dict V) (k : string) :
  In k (Py.keys d) <-> Py.dict_get d k <> None.
Proof.
  split; [apply dict_get_present|].
  destruct (Py.dict_get d k) eqn:E; [intros _ | intros H; now elim H].
  eapply dict_get_In; eauto.
Qed.

Variable metadata : json.

(** The names bound after the loop: those bound before it, and the
    canonical names of the processed keys that are not excluded. *)
Lemma merge_loop_keys (l acc res : Py.dict json) (c : string) :
  foldM (api.merge_entry metadata) l acc = Ok res ->
  (Py.dict_get res c <> None
   <-> Py.dict_get acc c <> None
       \/ exists k, In k (Py.keys l) /\ ~ In k api.excluded /\ api.canonical k = c).
Proof.
  revert acc; induction l as [|[k v] l IH]; intros acc H.
  - injection H as <-. split; [auto | intros [H|(k & [] & _)]; exact H].
  - cbn [foldM] in H. invert_bind H as acc1 Hentry. rewrite (IH _ H).
    unfold api.merge_entry in Hentry. cbn [fst snd] in Hentry.
    cbn [Py.keys map fst In].
    destruct (Py.str_in k api.excluded) eqn:Ex.
    + injection Hentry as <-. apply str_in_In in Ex. split.
      * intros [Ha|(k0 & Hk0 & Hrest)]; [auto | right; exists k0; tauto].
      * intros [Ha|(k0 & [<-|Hk0] & Hn & Hc)]; [auto | now elim Hn |].
        right. exists k0. auto.
    + invert_bind Hentry as v' Hv. injection Hentry as <-.
      apply str_in_not_In in Ex.
      destruct (String.eqb (api.canonical k) c) eqn:Ec.
      * apply String.eqb_eq in Ec. subst c. rewrite dict_get_set_same. split.
        -- intros _. right. exists k. auto.
        -- intros _. left. discriminate.
      * apply String.eqb_neq in Ec.
        rewrite dict_get_set_other by congruence. split.
        -- intros [Ha|(k0 & Hk0 & Hrest)]; [auto | right; exists k0; tauto].
        -- intros [Ha|(k0 & [<-|Hk0] & Hn & Hc)]; [auto | now elim Ec |].
           right. exists k0. auto.
Qed.

Lemma geo_level_tags (description : json) (tag : string) :
  api.geo_level description = Ok tag -> In tag geo_tags.
Proof.
  unfold api.geo_level, geo_tags. intros H.
  invert_bind H as b13 H13. destruct b13.
  - injection H as <-. cbn. auto.
  - invert_bind H as b02 H02. destruct b02; injection H as <-; cbn; auto.
Qed.

Lemma canonical_description (k : string) :
  api.canonical k = "description" -> k = "IndicadorDsg" \/ k = "description".
Proof.
  unfold api.canonical, api.metadata_key_map. cbn [Py.dict_get].
  repeat match goal with
         | |- context [String.eqb ?a k] =>
             let E := fresh "E" in destruct (String.eqb a k) eqn:E
         end; try discriminate; auto.
  apply String.eqb_eq in E0. auto.
Qed.

Lemma canonical_code (k : string) :
  api.canonical k = "code" -> k = "IndicadorCod" \/ k = "code".
Proof.
  unfold api.canonical, api.metadata_key_map. cbn [Py.dict_get].
  repeat match goal with
         | |- context [String.eqb ?a k] =>
             let E := fresh "E" in destruct (String.eqb a k) eqn:E
         end; try discriminate; auto.
  apply String.eqb_eq in E. auto.
Qed.

End MergedKeys.

Section MergedRecord.

Variables d m merged : Py.dict json.
Hypothesis Hmerge : api.merge_metadata (JObj d) (JObj m) = Ok merged.

(** What a successful merge went through. *)
Lemma merge_metadata_inv :
  exists de me mm desc tag,
    Py.dict_get d "DataExtracao" = Some de
    /\ Py.dict_get m "DataExtracao" = Some me
    /\ foldM (api.merge_entry (JObj m)) (Py.dict_merge d m)
             [ ("extraction_date", JObj [ ("data", de); ("metadata", me) ]);
               ("source", JStr "INE") ] = Ok mm
    /\ Py.dict_get mm "description" = Some desc
    /\ api.geo_level desc = Ok tag
    /\ merged = Py.dict_set mm "geo_level" (JStr tag).
Proof.
  pose proof Hmerge as H. unfold api.merge_metadata in H.
  cbn [Py.getitem Py.mapping] in H.
  destruct (Py.dict_get d "DataExtracao") as [de|]; [|discriminate].
  destruct (Py.dict_get m "DataExtracao") as [me|]; [|discriminate].
  cbn [bind] in H. invert_bind H as mm Hloop.
  destruct (Py.dict_get mm "description") as [desc|] eqn:Hdesc; [|discriminate].
  invert_bind H as tag Htag. injection H as <-.
  exists de, me, mm, desc, tag. repeat split; auto.
Qed.

Lemma merged_key_iff (k : string) :
  In k (Py.keys merged)
  <-> In k fixed_keys
      \/ exists k0, (In k0 (Py.keys d) \/ In k0 (Py.keys m))
                    /\ ~ In k0 api.excluded /\ api.canonical k0 = k.
Proof.
  destruct merge_metadata_inv as (de & me & mm & desc & tag & _ & _ & Hloop & _ & _ & ->).
  rewrite in_keys_iff.
  destruct (String.eqb k "geo_level") eqn:Eg.
  - apply String.eqb_eq in Eg. subst k. rewrite dict_get_set_same.
    unfold fixed_keys. cbn [In]. split; [auto | discriminate].
  - apply String.eqb_neq in Eg. rewrite dict_get_set_other by exact Eg.
    rewrite (merge_loop_keys _ _ _ _ k Hloop). cbn [Py.dict_get].
    assert (Hfix : (if String.eqb "extraction_date" k then Some (JObj [("data", de); ("metadata", me)])
                    else if String.eqb "source" k then Some (JStr "INE") else None) <> None
                   <-> In k fixed_keys).
    { unfold fixed_keys. cbn [In].
      destruct (String.eqb "extraction_date" k) eqn:E1;
        [apply String.eqb_eq in E1; split; [auto | discriminate]|].
      destruct (String.eqb "source" k) eqn:E2;
        [apply String.eqb_eq in E2; split; [auto | discriminate]|].
      apply String.eqb_neq in E1. apply String.eqb_neq in E2.
      split; [intros H; now elim H | intros [H|[H|[H|[]]]]; congruence]. }
    rewrite Hfix. split; intros [H|(k0 & Hk0 & Hrest)]; auto; right; exists k0;
      (split; [|exact Hrest]); now apply keys_dict_merge.
Qed.

End MergedRecord.

(** X10. The keys of a merged record are exactly ["extraction_date"],
    ["source"], ["geo_level"] and the canonical names of the keys of the two
    payloads that are not excluded: nothing else is added and no such key
    is lost. *)
Theorem merged_keys (d m merged : Py.dict json) (k : string) :
  api.merge_metadata (JObj d) (JObj m) = Ok merged ->
  (In k (Py.keys merged)
   <-> In k fixed_keys
       \/ exists k0, (In k0 (Py.keys d) \/ In k0 (Py.keys m))
                     /\ ~ In k0 api.excluded /\ api.canonical k0 = k).
Proof. intros H. exact (merged_key_iff d m merged H k). Qed.

Lemma merged_keys_witness :
  api.merge_metadata (JObj Samples.data_clash) (JObj Samples.metadata_clash)
  = Ok [ ("extraction_date",
          JObj [ ("data", JStr "2024-01-01"); ("metadata", JStr "2024-01-02") ]);
         ("source", JStr "INE");
         ("description", JStr "Resident population");
         ("last_period", JStr "2022-01-01");
         ("periodicity", JStr "Annual");
         ("geo_level", JStr "national") ]
  /\ ~ In "UltimoPref"
         (Py.keys [ ("extraction_date",
                     JObj [ ("data", JStr "2024-01-01"); ("metadata", JStr "2024-01-02") ]);
                    ("source", JStr "INE");
                    ("description", JStr "Resident population");
                    ("last_period", JStr "2022-01-01");
                    ("periodicity", JStr "Annual");
                    ("geo_level", JStr "national") ]).
Proof.
  split; [reflexivity|]. intros Hin.
  apply (proj1 (merged_keys Samples.data_clash Samples.metadata_clash _
                  "UltimoPref" eq_refl)) in Hin.
  destruct Hin as [Hfix|(k0 & Hk0 & _ & Hc)].
  - cbn in Hfix. intuition discriminate.
  - cbn in Hk0.
    repeat match goal with
           | H : _ \/ _ |- _ => destruct H
           | H : False |- _ => destruct H
           end; subst; discriminate.
Defined.

(** X11. A merge succeeds only when both payloads carry ["DataExtracao"] and
    one of them carries ["IndicadorDsg"] or ["description"]; the merged
    record then holds a description and a ["geo_level"] that is one of
    ["nuts-2013"], ["nuts-2002"] and ["national"], derived from that
    description. *)
Theorem merged_record_is_tagged (d m merged : Py.dict json) :
  api.merge_metadata (JObj d) (JObj m) = Ok merged ->
  Py.dict_get d "DataExtracao" <> None
  /\ Py.dict_get m "DataExtracao" <> None
  /\ (exists k, (k = "IndicadorDsg" \/ k = "description")
                /\ (In k (Py.keys d) \/ In k (Py.keys m)))
  /\ exists description tag,
       Py.dict_get merged "description" = Some description
       /\ api.geo_level description = Ok tag
       /\ Py.dict_get merged "geo_level" = Some (JStr tag)
       /\ In tag geo_tags.
Proof.
  intros H.
  destruct (merge_metadata_inv d m merged H)
    as (de & me & mm & desc & tag & Hde & Hme & Hloop & Hdesc & Htag & ->).
  split; [congruence|]. split; [congruence|]. split.
  - assert (Hin : Py.dict_get mm "description" <> None) by congruence.
    apply (merge_loop_keys _ _ _ _ _ Hloop) in Hin.
    destruct Hin as [Hin|(k & Hk & _ & Hc)]; [now elim Hin|].
    exists k. split; [now apply canonical_description|].
    now apply keys_dict_merge.
  - exists desc, tag. rewrite dict_get_set_other by discriminate.
    rewrite dict_get_set_same. repeat split; auto.
    eapply geo_level_tags; eauto.
Qed.

Lemma merged_record_is_tagged_witness :
  api.merge_metadata (JObj Samples.data_clash) (JObj Samples.metadata_clash)
  = Ok [ ("extraction_date",
          JObj [ ("data", JStr "2024-01-01"); ("metadata", JStr "2024-01-02") ]);
         ("source", JStr "INE");
         ("description", JStr "Resident population");
         ("last_period", JStr "2022-01-01");
         ("periodicity", JStr "Annual");
         ("geo_level", JStr "national") ]
  /\ Py.dict_get Samples.data_clash "DataExtracao" <> None.
Proof.
  split; [reflexivity|].
  exact (proj1 (merged_record_is_tagged Samples.data_clash Samples.metadata_clash
                  _ eq_refl)).
Defined.

(** X12. The [repr] of an indicator whose metadata was merged exists exactly
    when one of the payloads carries ["IndicadorCod"] or ["code"]; without
    one, building the text raises [AttributeError]. *)
Theorem repr_needs_a_code (d m merged : Py.dict json) (df : Pandas.DataFrame) :
  api.merge_metadata (JObj d) (JObj m) = Ok merged ->
  ((exists text, models.repr_ (models.mkIndicator df merged) = Ok text)
   <-> exists k, (k = "IndicadorCod" \/ k = "code")
                 /\ (In k (Py.keys d) \/ In k (Py.keys m)))
  /\ ((forall k, k = "IndicadorCod" \/ k = "code" ->
                 ~ In k (Py.keys d) /\ ~ In k (Py.keys m)) ->
      models.repr_ (models.mkIndicator df merged) = Raise AttributeError).
Proof.
  intros H.
  destruct (merge_metadata_inv d m merged H)
    as (de & me & mm & desc & tag & _ & _ & _ & Hdesc & _ & Hm).
  assert (Hd : Py.dict_get merged "description" = Some desc)
    by (rewrite Hm, dict_get_set_other by discriminate; exact Hdesc).
  assert (Hcode : Py.dict_get merged "code" <> None
                  <-> exists k, (k = "IndicadorCod" \/ k = "code")
                                /\ (In k (Py.keys d) \/ In k (Py.keys m))).
  { rewrite <- in_keys_iff, (merged_key_iff d m merged H "code"). split.
    - intros [Hfix|(k0 & Hk0 & _ & Hc)].
      + cbn in Hfix. intuition discriminate.
      + exists k0. split; [now apply canonical_code | exact Hk0].
    - intros (k & Hk & Hin). right. exists k.
      split; [exact Hin|]. destruct Hk as [-> | ->]; split;
        try reflexivity; cbn; intuition discriminate. }
  unfold models.repr_, models.getattr. cbn [models.metadata]. rewrite Hd.
  cbn [bind]. split.
  - rewrite <- Hcode. destruct (Py.dict_get merged "code"); cbn [bind]; split.
    + discriminate.
    + eauto.
    + intros (text & Htext). discriminate.
    + intros Hn. now elim Hn.
  - intros Hnone. destruct (Py.dict_get merged "code") eqn:Ec; [|reflexivity].
    destruct (proj1 Hcode) as (k & Hk & Hin); [discriminate|].
    destruct (Hnone k Hk). tauto.
Qed.

Lemma repr_needs_a_code_witness :
  api.merge_metadata (JObj Samples.data_clash) (JObj Samples.metadata_clash)
  = Ok [ ("extraction_date",
          JObj [ ("data", JStr "2024-01-01"); ("metadata", JStr "2024-01-02") ]);
         ("source", JStr "INE");
         ("description", JStr "Resident population");
         ("last_period", JStr "2022-01-01");
         ("periodicity", JStr "Annual");
         ("geo_level", JStr "national") ]
  /\ models.repr_ (models.mkIndicator Samples.mixed_frame
       [ ("extraction_date",
          JObj [ ("data", JStr "2024-01-01"); ("metadata", JStr "2024-01-02") ]);
         ("source", JStr "INE");
         ("description", JStr "Resident population");
         ("last_period", JStr "2022-01-01");
         ("periodicity", JStr "Annual");
         ("geo_level", JStr "national") ])
     = Raise AttributeError.
Proof.
  split; [reflexivity|].
  apply (proj2 (repr_needs_a_code Samples.data_clash Samples.metadata_clash _
                  Samples.mixed_frame eq_refl)).
  intros k [-> | ->]; split; cbn; intuition discriminate.
Defined.

(* ================================================================== *)
(** * Further properties of the period conversions *)

Section Periods.

Lemma digit_range (c : ascii) (x : Z) :
  Pandas.digit c = Some x -> 0 <= x <= 9 /\ Z.of_N (N_of_ascii c) = x + 48.
Proof.
  unfold Pandas.digit.
  destruct ((48 <=? Z.of_N (N_of_ascii c)) && (Z.of_N (N_of_ascii c) <=? 57))
    eqn:E; [|discriminate].
  apply andb_true_iff in E as [E1 E2].
  apply Z.leb_le in E1. apply Z.leb_le in E2.
  intros H; injection H as <-. lia.
Qed.

Lemma digit_inj (c c' : ascii) (x : Z) :
  Pandas.digit c = Some x -> Pandas.digit c' = Some x -> c = c'.
Proof.
  intros H H'. apply digit_range in H as [_ H]. apply digit_range in H' as [_ H'].
  rewrite <- (ascii_N_embedding c), <- (ascii_N_embedding c').
  f_equal. apply N2Z.inj. congruence.
Qed.

(** A year has one four-digit text. *)
Lemma read_Y_inj (s s' : string) (y : Z) :
  Pandas.read_Y s = Some (y, EmptyString) ->
  Pandas.read_Y s' = Some (y, EmptyString) -> s = s'.
Proof.
  destruct s as [|a [|b [|c [|d rest]]]]; try discriminate.
  destruct s' as [|a' [|b' [|c' [|d' rest']]]]; try discriminate.
  cbn [Pandas.read_Y].
  destruct (Pandas.digit a) as [x|] eqn:Ea; [|discriminate].
  destruct (Pandas.digit b) as [y1|] eqn:Eb; [|discriminate].
  destruct (Pandas.digit c) as [z|] eqn:Ec; [|discriminate].
  destruct (Pandas.digit d) as [w|] eqn:Ed; [|discriminate].
  destruct (Pandas.digit a') as [x'|] eqn:Ea'; [|discriminate].
  destruct (Pandas.digit b') as [y1'|] eqn:Eb'; [|discriminate].
  destruct (Pandas.digit c') as [z'|] eqn:Ec'; [|discriminate].
  destruct (Pandas.digit d') as [w'|] eqn:Ed'; [|discriminate].
  intros H H'.
  assert (Hy : 1000 * x + 100 * y1 + 10 * z + w = y /\ rest = EmptyString)
    by (split; congruence).
  assert (Hy' : 1000 * x' + 100 * y1' + 10 * z' + w' = y /\ rest' = EmptyString)
    by (split; congruence).
  clear H H'. destruct Hy as [Hy ->]. destruct Hy' as [Hy' ->].
  pose proof (digit_range _ _ Ea) as [? _].
  pose proof (digit_range _ _ Eb) as [? _].
  pose proof (digit_range _ _ Ec) as [? _].
  pose proof (digit_range _ _ Ed) as [? _].
  pose proof (digit_range _ _ Ea') as [? _].
  pose proof (digit_range _ _ Eb') as [? _].
  pose proof (digit_range _ _ Ec') as [? _].
  pose proof (digit_range _ _ Ed') as [? _].
  assert (x = x') by lia. assert (y1 = y1') by lia.
  assert (z = z') by lia. assert (w = w') by lia. subst.
  now rewrite (digit_inj _ _ _ Ea Ea'), (digit_inj _ _ _ Eb Eb'),
              (digit_inj _ _ _ Ec Ec'), (digit_inj _ _ _ Ed Ed').
Qed.

(** The decimal text of a year a [Timestamp] can hold reads back as that
    year. *)
Lemma year_text_reads_back (y : Z) :
  Pandas.in_bounds y = true ->
  Pandas.read_Y (Py.str_of_Z y) = Some (y, EmptyString).
Proof.
  intros Hb. unfold Pandas.in_bounds in Hb.
  apply andb_true_iff in Hb as [H1 H2].
  apply Z.leb_le in H1. apply Z.leb_le in H2.
  assert (Hall : forallb
                   (fun n => match Pandas.read_Y (Py.str_of_Z (Z.of_nat n)) with
                             | Some (y', EmptyString) => Z.eqb y' (Z.of_nat n)
                             | _ => false
                             end)
                   (seq 1678 584) = true) by (vm_compute; reflexivity).
  rewrite forallb_forall in Hall.
  specialize (Hall (Z.to_nat y)).
  rewrite Z2Nat.id in Hall by lia.
  assert (Hin : In (Z.to_nat y) (seq 1678 584)) by (apply in_seq; lia).
  specialize (Hall Hin).
  destruct (Pandas.read_Y (Py.str_of_Z y)) as [[y' [|]]|]; try discriminate.
  apply Z.eqb_eq in Hall. now subst.
Qed.

(** The ISO text of the first day of a month of a year, from the text of
    the year. *)
Lemma strftime_of_year_text (year : string) (y m : Z) :
  Pandas.read_Y year = Some (y, EmptyString) ->
  Pandas.in_bounds y = true ->
  Pandas.strftime_Ymd (Pandas.mkTimestamp y m 1)
  = year +++ "-" +++ Pandas.pad2 m +++ "-01".
Proof.
  intros Hy Hb. unfold Pandas.strftime_Ymd. cbn [Pandas.year Pandas.month Pandas.day].
  now rewrite (read_Y_inj _ _ _ (year_text_reads_back y Hb) Hy).
Qed.

Lemma to_datetime_year (year : string) (y : Z) :
  Pandas.read_Y year = Some (y, EmptyString) ->
  Pandas.in_bounds y = true ->
  Pandas.to_datetime year Pandas.fmt_Y = Ok (Pandas.mkTimestamp y 1 1).
Proof.
  intros Hy Hb. unfold Pandas.to_datetime, Pandas.parse. rewrite Hy.
  cbn [Pandas.at_end]. now rewrite Hb.
Qed.

(** The month of the map reads as a month number and pads back to itself. *)
Lemma quarter_month_reads (ordinal : string) :
  exists m, Pandas.read_m (quarter_month ordinal) = Some (m, EmptyString)
            /\ Pandas.pad2 m = quarter_month ordinal.
Proof.
  unfold quarter_month, api.quarter_month_map. cbn [Py.dict_get].
  repeat match goal with
         | |- context [String.eqb ?a ordinal] => destruct (String.eqb a ordinal)
         end; eexists; split; reflexivity.
Qed.

Lemma quarter_to_date_tokens (ordinal word year : string) (y : Z) :
  token ordinal -> token word ->
  Pandas.read_Y year = Some (y, EmptyString) ->
  api.quarter_to_date (ordinal +++ " " +++ word +++ " " +++ year)
  = Pandas.to_datetime (year +++ "-" +++ quarter_month ordinal) Pandas.fmt_Ym.
Proof.
  intros Ho Hw Hy. unfold api.quarter_to_date.
  rewrite (split_three _ _ _ Ho Hw (read_Y_token _ _ Hy)). reflexivity.
Qed.

Lemma known_periodicity_false (p : json) :
  known_periodicity p = false ->
  Py.eq_str p "Annual" = false /\ Py.eq_str p "Decennial" = false
  /\ Py.eq_str p "Quarterly" = false /\ Py.eq_str p "Monthly" = false.
Proof.
  unfold known_periodicity. intros H.
  apply orb_false_iff in H as [H H4]. apply orb_false_iff in H as [H H3].
  apply orb_false_iff in H as [H1 H2]. auto.
Qed.

(** A loop that ended went through every entry. *)
Lemma merge_loop_entries (metadata : json) (l acc res : Py.dict json)
      (kv : string * json) :
  foldM (api.merge_entry metadata) l acc = Ok res ->
  In kv l ->
  exists acc0 acc1, api.merge_entry metadata acc0 kv = Ok acc1.
Proof.
  revert acc; induction l as [|x l IH]; intros acc H Hin; [destruct Hin|].
  cbn [foldM] in H. invert_bind H as acc1 Hentry.
  destruct Hin as [->|Hin]; [eauto | eapply IH; eauto].
Qed.

Lemma in_keys_in {V : Type} (d : Py.dict V) (k : string) :
  In k (Py.keys d) -> exists v, In (k, v) d.
Proof.
  unfold Py.keys. intros H. apply in_map_iff in H as ([k' v] & <- & H). eauto.
Qed.

End Periods.

(** X13. For the periodicities ["Annual"] and ["Decennial"], a first or last
    period given as a four-digit year (one a [Timestamp] can hold) is
    rendered as that year followed by ["-01-01"], and row labels that are
    such years become the first of January of those years, in the same
    order. *)
Theorem annual_periods_are_january_first
        (p : json) (rows : list string) (years : list Z) :
  Py.eq_str p "Annual" = true \/ Py.eq_str p "Decennial" = true ->
  Forall2 (fun s y => Pandas.read_Y s = Some (y, EmptyString)
                      /\ Pandas.in_bounds y = true) rows years ->
  api.convert_index p rows
  = Ok (Pandas.DatetimeIndex (map (fun y => Pandas.mkTimestamp y 1 1) years))
  /\ Forall (fun s => api.period_value p (JStr s) = Ok (JStr (s +++ "-01-01"))) rows.
Proof.
  intros Hp Hrows.
  assert (Hp' : Py.eq_str p "Annual" || Py.eq_str p "Decennial" = true)
    by (apply orb_true_iff; exact Hp).
  unfold api.convert_index, api.period_value. rewrite Hp'. split.
  - assert (Hm : mapM (fun s => Pandas.to_datetime s Pandas.fmt_Y) rows
                 = Ok (map (fun y => Pandas.mkTimestamp y 1 1) years)).
    { induction Hrows as [|s y rows years [Hy Hb] _ IH]; [reflexivity|].
      cbn [mapM map]. rewrite (to_datetime_year _ _ Hy Hb). cbn [bind].
      now rewrite IH. }
    now rewrite Hm.
  - induction Hrows as [|s y rows years [Hy Hb] _ IH]; constructor; [|exact IH].
    rewrite (to_datetime_year _ _ Hy Hb). cbn [bind].
    now rewrite (strftime_of_year_text _ _ 1 Hy Hb).
Qed.

Lemma annual_periods_are_january_first_witness :
  (Py.eq_str (JStr "Annual") "Annual" = true
   \/ Py.eq_str (JStr "Annual") "Decennial" = true)
  /\ api.convert_index (JStr "Annual") [ "2011"; "2012" ]
     = Ok (Pandas.DatetimeIndex [ Pandas.mkTimestamp 2011 1 1;
                                  Pandas.mkTimestamp 2012 1 1 ])
  /\ api.period_value (JStr "Annual") (JStr "2011") = Ok (JStr "2011-01-01").
Proof.
  assert (Hp : Py.eq_str (JStr "Annual") "Annual" = true
               \/ Py.eq_str (JStr "Annual") "Decennial" = true)
    by (left; reflexivity).
  assert (Hrows : Forall2 (fun s y => Pandas.read_Y s = Some (y, EmptyString)
                                      /\ Pandas.in_bounds y = true)
                          [ "2011"; "2012" ] [ 2011; 2012 ])
    by (repeat constructor).
  destruct (annual_periods_are_january_first (JStr "Annual") _ _ Hp Hrows)
    as [Hix Hall].
  split; [exact Hp | split; [exact Hix|]].
  inversion Hall; subst. assumption.
Defined.

(** X14. For the periodicity ["Quarterly"], a first or last period made of
    an ordinal, one more word and a four-digit year is rendered as the
    year, the month [quarter_to_date] takes for the ordinal (["03"], ["06"],
    ["09"], ["12"], or ["01"] for any other ordinal) and the day ["01"]. *)
Theorem quarterly_period_is_iso (ordinal word year : string) (y : Z) :
  token ordinal -> token word ->
  Pandas.read_Y year = Some (y, EmptyString) ->
  Pandas.in_bounds y = true ->
  api.period_value (JStr "Quarterly")
                   (JStr (ordinal +++ " " +++ word +++ " " +++ year))
  = Ok (JStr (year +++ "-" +++ quarter_month ordinal +++ "-01")).
Proof.
  intros Ho Hw Hy Hb. unfold api.period_value.
  cbn [Py.eq_str String.eqb Ascii.eqb Bool.eqb orb].
  rewrite (quarter_to_date_tokens _ _ _ _ Ho Hw Hy).
  destruct (quarter_month_reads ordinal) as (m & Hm & Hpad).
  rewrite (to_datetime_year_month _ _ _ _ Hy Hb Hm). cbn [bind].
  now rewrite (strftime_of_year_text _ _ m Hy Hb), Hpad.
Qed.

Lemma quarterly_period_is_iso_witness :
  token "3rd" /\ token "Quarter"
  /\ Pandas.read_Y "2023" = Some (2023, EmptyString)
  /\ Pandas.in_bounds 2023 = true
  /\ api.period_value (JStr "Quarterly") (JStr "3rd Quarter 2023")
     = Ok (JStr "2023-09-01").
Proof.
  assert (H1 : token "3rd") by (split; [discriminate | reflexivity]).
  assert (H2 : token "Quarter") by (split; [discriminate | reflexivity]).
  split; [exact H1 | split; [exact H2 | split; [reflexivity |
    split; [reflexivity|]]]].
  exact (quarterly_period_is_iso "3rd" "Quarter" "2023" 2023 H1 H2 eq_refl eq_refl).
Defined.

(** X15. For a periodicity other than the four known ones the row labels
    are kept as they are, but a first or last period cannot be rendered
    ([AttributeError]); so the metadata of such an indicator is merged only
    when neither payload carries ["PrimeiroPeriodo"] or ["UltimoPeriodo"]. *)
Theorem unknown_periodicity (p : json) :
  known_periodicity p = false ->
  (forall rows, api.convert_index p rows = Ok (Pandas.ObjectIndex rows))
  /\ (forall v, api.period_value p v = Raise AttributeError)
  /\ (forall d m merged,
        api.merge_metadata (JObj d) (JObj m) = Ok merged ->
        Py.dict_get m "Periodic" = Some p ->
        forall k, In k api.period_keys ->
                  ~ In k (Py.keys d) /\ ~ In k (Py.keys m)).
Proof.
  intros Hp. destruct (known_periodicity_false p Hp) as (Ha & Hd & Hq & Hm).
  assert (Hvalue : forall v, api.period_value p v = Raise AttributeError)
    by (intros v; unfold api.period_value; now rewrite Ha, Hd, Hq, Hm).
  split; [|split; [exact Hvalue|]].
  - intros rows. unfold api.convert_index. now rewrite Ha, Hd, Hq, Hm.
  - intros d m merged Hmerge Hper k Hk.
    destruct (merge_metadata_inv d m merged Hmerge)
      as (de & me & mm & desc & tag & _ & _ & Hloop & _).
    assert (Hnot : ~ In k (Py.keys (Py.dict_merge d m))).
    { intros Hin. apply in_keys_in in Hin as (v & Hin).
      destruct (merge_loop_entries _ _ _ _ _ Hloop Hin) as (acc0 & acc1 & He).
      unfold api.merge_entry in He. cbn [fst snd] in He.
      assert (Hex : Py.str_in k api.excluded = false)
        by (destruct Hk as [<-|[<-|[]]]; reflexivity).
      apply str_in_In in Hk. rewrite Hex, Hk in He.
      cbn [Py.getitem] in He. rewrite Hper in He. cbn [bind] in He.
      rewrite Hvalue in He. discriminate. }
    split; intros Hin; apply Hnot; apply keys_dict_merge; auto.
Qed.

Lemma unknown_periodicity_witness :
  known_periodicity (JStr "Weekly") = false
  /\ api.convert_index (JStr "Weekly") [ "Week 1 of 2020" ]
     = Ok (Pandas.ObjectIndex [ "Week 1 of 2020" ])
  /\ api.period_value (JStr "Weekly") (JStr "Week 1 of 2020")
     = Raise AttributeError.
Proof.
  split; [reflexivity|].
  destruct (unknown_periodicity (JStr "Weekly") eq_refl) as (Hix & Hv & _).
  split; [apply Hix | apply Hv].
Defined.

(* ================================================================== *)
(** * Further properties of the table *)

Section Frames.

Lemma set_nth_length {X : Type} (i : nat) (x : X) (l : list X) :
  List.length (Pandas.set_nth i x l) = List.length l.
Proof.
  revert i; induction l as [|y l IH]; intros [|i]; cbn; auto.
Qed.

Lemma set_nth_twice {X : Type} (i : nat) (x x' : X) (l : list X) :
  Pandas.set_nth i x' (Pandas.set_nth i x l) = Pandas.set_nth i x' l.
Proof.
  revert i; induction l as [|y l IH]; intros [|i]; cbn; try reflexivity.
  now rewrite IH.
Qed.

Lemma selects_refl (key : Pandas.tuple) : Pandas.selects key key = true.
Proof.
  induction key as [|x key IH]; [reflexivity|].
  cbn. now rewrite String.eqb_refl.
Qed.

(** The two ways an assignment succeeds. *)
Lemma loc_set_inv (df df' : Pandas.DataFrame) (row : string)
      (key : Pandas.tuple) (v : json) :
  Pandas.loc_set df row key v = Ok df' ->
  exists rows i,
    Pandas.index df = Pandas.ObjectIndex rows
    /\ Pandas.position row rows = Some i
    /\ ((existsb (fun c => Pandas.selects key (fst c)) (Pandas.columns df) = true
         /\ df' = Pandas.mkDataFrame (Pandas.index df) (Pandas.index_name df)
                    (Pandas.column_names df)
                    (map (fun c => if Pandas.selects key (fst c)
                                   then (fst c, Pandas.set_nth i (Some v) (snd c))
                                   else c)
                         (Pandas.columns df)))
        \/ (existsb (fun c => Pandas.selects key (fst c)) (Pandas.columns df) = false
            /\ List.length key = List.length (Pandas.column_names df)
            /\ (exists text, v = JStr text)
            /\ df' = Pandas.mkDataFrame (Pandas.index df) (Pandas.index_name df)
                       (Pandas.column_names df)
                       (Pandas.columns df ++
                        [(key, Pandas.set_nth i (Some v)
                                 (repeat None (List.length rows)))]))).
Proof.
  unfold Pandas.loc_set. intros H.
  destruct (Pandas.index df) as [rows|] eqn:Hix; [|destruct v; discriminate].
  exists rows.
  assert (Hstep :
    match Pandas.position row rows with
    | None => Raise NotModelled
    | Some i =>
        if existsb (fun c => Pandas.selects key (fst c)) (Pandas.columns df)
        then Ok (Pandas.mkDataFrame (Pandas.ObjectIndex rows) (Pandas.index_name df)
                   (Pandas.column_names df)
                   (map (fun c => if Pandas.selects key (fst c)
                                  then (fst c, Pandas.set_nth i (Some v) (snd c))
                                  else c)
                        (Pandas.columns df)))
        else if Nat.eqb (List.length key) (List.length (Pandas.column_names df))
        then match v with
             | JStr _ =>
                 Ok (Pandas.mkDataFrame (Pandas.ObjectIndex rows)
                       (Pandas.index_name df) (Pandas.column_names df)
                       (Pandas.columns df ++
                        [(key, Pandas.set_nth i (Some v)
                                 (repeat None (List.length rows)))]))
             | _ => Raise NotModelled
             end
        else Raise KeyError
    end = Ok df') by (destruct v; (discriminate || exact H)).
  clear H. destruct (Pandas.position row rows) as [i|]; [|discriminate].
  exists i. split; [reflexivity | split; [reflexivity|]].
  destruct (existsb _ _).
  - left. split; [reflexivity|]. now injection Hstep as <-.
  - right. split; [reflexivity|].
    destruct (Nat.eqb _ _) eqn:En; [|discriminate].
    apply Nat.eqb_eq in En. split; [exact En|].
    destruct v; try discriminate. split; [eauto|]. now injection Hstep as <-.
Qed.

Lemma kept_by_refl (df : Pandas.DataFrame) : kept_by df df.
Proof. unfold kept_by. repeat split; auto. apply incl_refl. Qed.

Lemma kept_by_trans (a b c : Pandas.DataFrame) :
  kept_by a b -> kept_by b c -> kept_by a c.
Proof.
  unfold kept_by. intros (H1 & H2 & H3 & H4 & H5) (G1 & G2 & G3 & G4 & G5).
  repeat split; try congruence; auto. eapply incl_tran; eauto.
Qed.

Lemma loc_set_kept (df df' : Pandas.DataFrame) (row : string)
      (key : Pandas.tuple) (v : json) :
  Pandas.loc_set df row key v = Ok df' -> kept_by df df'.
Proof.
  intros H. destruct (loc_set_inv _ _ _ _ _ H)
    as (rows & i & Hix & _ & [[_ ->] | (_ & _ & _ & ->)]);
    clear H; unfold kept_by, rectangular;
    cbn [Pandas.index Pandas.index_name Pandas.column_names Pandas.columns];
    rewrite Hix; repeat split.
  - rewrite map_map. intros k Hk. apply in_map_iff in Hk as (c & <- & Hc).
    apply in_map_iff. exists c. split; [|exact Hc].
    match goal with
    | |- context [Pandas.selects key ?t] => destruct (Pandas.selects key t)
    end; reflexivity.
  - intros Hr. induction Hr as [|c cols Hc _ IH]; cbn [map]; constructor; auto.
    match goal with
    | |- context [Pandas.selects key ?t] => destruct (Pandas.selects key t)
    end; [|exact Hc].
    cbn [snd]. now rewrite set_nth_length.
  - rewrite map_app. apply incl_appl, incl_refl.
  - intros Hr. apply Forall_app. split; [exact Hr|]. repeat constructor.
    cbn [snd]. now rewrite set_nth_length, repeat_length.
Qed.

Lemma insert_stat_kept (metadata stat : json) (date : string)
      (df df' : Pandas.DataFrame) :
  api.insert_stat metadata date df stat = Ok df' -> kept_by df df'.
Proof.
  unfold api.insert_stat. intros H.
  invert_bind H as dv Hdv. invert_bind H as has Hhas. destruct has.
  - invert_bind H as valor Hvalor. invert_bind H as key Hkey.
    exact (loc_set_kept _ _ _ _ _ H).
  - injection H as <-. apply kept_by_refl.
Qed.

Lemma foldM_kept {X : Type} (f : Pandas.DataFrame -> X -> result Pandas.DataFrame)
      (l : list X) :
  (forall df x df', f df x = Ok df' -> kept_by df df') ->
  forall df df', foldM f l df = Ok df' -> kept_by df df'.
Proof.
  intros Hf. induction l as [|x l IH]; intros df df' H.
  - injection H as <-. apply kept_by_refl.
  - cbn [foldM] in H. invert_bind H as df1 Hx.
    eapply kept_by_trans; [eapply Hf; eauto | eapply IH; eauto].
Qed.

Lemma fill_table_kept (metadata : json) (dados : Py.dict json)
      (df df' : Pandas.DataFrame) :
  api.fill_table metadata dados df = Ok df' -> kept_by df df'.
Proof.
  apply foldM_kept. intros df0 period df1 H.
  unfold api.insert_period in H. invert_bind H as stats Hstats.
  revert H. apply foldM_kept. intros a stat b. apply insert_stat_kept.
Qed.

Lemma insert_sorted_keys {X : Type} (c : Pandas.tuple * X)
      (l : list (Pandas.tuple * X)) (k : Pandas.tuple) :
  In k (map fst (Pandas.insert_sorted c l)) <-> k = fst c \/ In k (map fst l).
Proof.
  induction l as [|d l IH]; cbn [Pandas.insert_sorted map In].
  - split; intros [H|H]; auto.
  - destruct (Pandas.tuple_leb (fst c) (fst d)); cbn [map In].
    + split; intros [H|H]; auto.
    + rewrite IH. split; intros H; intuition auto.
Qed.

Lemma sorted_keys {X : Type} (l : list (Pandas.tuple * X)) (k : Pandas.tuple) :
  In k (map fst (fold_right Pandas.insert_sorted [] l)) <-> In k (map fst l).
Proof.
  induction l as [|c l IH]; cbn [fold_right map In]; [tauto|].
  rewrite insert_sorted_keys, IH. split; intros [H|H]; auto.
Qed.

Lemma convert_index_length (p : json) (rows : list string) (ix : Pandas.Index) :
  api.convert_index p rows = Ok ix ->
  match ix with
  | Pandas.ObjectIndex l => List.length l = List.length rows
  | Pandas.DatetimeIndex l => List.length l = List.length rows
  end.
Proof.
  unfold api.convert_index. intros H.
  destruct (Py.eq_str p "Annual" || Py.eq_str p "Decennial").
  - invert_bind H as stamps Hs. injection H as <-.
    eapply mapM_length; eauto.
  - destruct (Py.eq_str p "Quarterly").
    + invert_bind H as stamps Hs. apply mapM_length in Hs.
      destruct stamps; injection H as <-; exact Hs.
    + destruct (Py.eq_str p "Monthly").
      * invert_bind H as stamps Hs. injection H as <-.
        eapply mapM_length; eauto.
      * now injection H as <-.
Qed.

(** A loop that ended went through every element. *)
Lemma foldM_entries {X S : Type} (f : S -> X -> result S) (l : list X)
      (acc res : S) (x : X) :
  foldM f l acc = Ok res -> In x l -> exists a a', f a x = Ok a'.
Proof.
  revert acc; induction l as [|y l IH]; intros acc H Hin; [destruct Hin|].
  cbn [foldM] in H. invert_bind H as acc1 Hy.
  destruct Hin as [->|Hin]; [eauto | eapply IH; eauto].
Qed.

End Frames.

(** X16. A table that is built has the index name ["Period"], one row per
    period of the data payload and one cell per row in every column; its
    level names are those of the column axis, every column key has one label
    per level, and every tuple of the column axis is the key of a column. *)
Theorem built_table_shape
        (data metadata : json) (dim_values : Py.dict json) (df : Pandas.DataFrame) :
  api.build_table data metadata dim_values = Ok df ->
  exists mi dados periods,
    api.col_index metadata dim_values = Ok mi
    /\ Py.getitem data "Dados" = Ok dados
    /\ Py.items dados = Ok periods
    /\ Pandas.index_name df = Some "Period"
    /\ row_count df = List.length periods
    /\ rectangular df
    /\ full_depth df
    /\ Pandas.column_names df = Pandas.names mi
    /\ incl (Pandas.tuples mi) (map fst (Pandas.columns df)).
Proof.
  intros H. unfold api.build_table in H.
  invert_bind H as mi Hmi. invert_bind H as dados Hdados.
  invert_bind H as periods Hperiods. invert_bind H as df1 Hfill.
  invert_bind H as periodic Hper. invert_bind H as ix Hix.
  injection H as <-.
  pose proof (fill_table_kept _ _ _ _ Hfill) as (Hi & _ & Hn & Hincl & Hrect).
  pose proof (fill_table_full_depth _ _ _ _ Hfill
                (built_frame_full_depth _ _ _ (Py.keys periods) Hmi))
    as (Hdepth & _ & _).
  apply convert_index_length in Hix.
  assert (Hr1 : rectangular df1).
  { apply Hrect. unfold rectangular, Pandas.sort_columns, Pandas.new_frame.
    cbn [Pandas.index Pandas.columns].
    induction (Pandas.tuples mi) as [|t ts IH]; cbn [map fold_right];
      [constructor|].
    apply insert_sorted_Forall; [|exact IH]. cbn [snd]. apply repeat_length. }
  exists mi, dados, periods.
  split; [exact Hmi | split; [exact Hdados | split; [exact Hperiods|]]].
  split; [reflexivity|].
  unfold row_count, rectangular, full_depth in *.
  unfold Pandas.sort_columns, Pandas.new_frame in Hi, Hn, Hincl.
  cbn [Pandas.index Pandas.columns Pandas.column_names Pandas.index_name] in *.
  unfold Py.keys in Hix. rewrite List.length_map in Hix.
  rewrite Hi in Hr1.
  unfold Py.keys in Hr1. rewrite List.length_map in Hr1.
  split; [destruct ix; exact Hix|].
  split; [destruct ix; rewrite Hix; exact Hr1|].
  split; [exact Hdepth|]. split; [exact Hn|].
  intros t Ht. apply Hincl. cbn [Pandas.columns].
  apply sorted_keys. rewrite map_map. cbn [fst]. now rewrite map_id.
Qed.

Lemma built_table_shape_witness :
  exists df,
    api.build_table Samples.data_off_axis Samples.metadata [] = Ok df
    /\ row_count df = 1%nat /\ rectangular df
    /\ In [ "Norte"; "M" ] (map fst (Pandas.columns df)).
Proof.
  eexists. split; [reflexivity|].
  destruct (built_table_shape Samples.data_off_axis Samples.metadata [] _ eq_refl)
    as (mi & dados & periods & Hmi & Hd & Hp & _ & Hrows & Hrect & _ & _ & Hincl).
  vm_compute in Hd. injection Hd as <-. vm_compute in Hp. injection Hp as <-.
  split; [exact Hrows | split; [exact Hrect|]].
  apply Hincl. vm_compute in Hmi. injection Hmi as <-. cbn. auto.
Defined.

Section Records.

Lemma selects_key_iff (key t : Pandas.tuple) :
  List.length key = List.length t ->
  (Pandas.selects key t = true <-> t = key).
Proof.
  intros Hlen. split.
  - intros H. symmetry. now apply selects_same_depth.
  - intros ->. apply selects_refl.
Qed.

Lemma existsb_selects_in (key : Pandas.tuple)
      (cols : list (Pandas.tuple * list Pandas.cell)) :
  In key (map fst cols) ->
  existsb (fun c => Pandas.selects key (fst c)) cols = true.
Proof.
  intros H. apply in_map_iff in H as (c & Hc & Hin).
  apply existsb_exists. exists c. split; [exact Hin|].
  rewrite Hc. apply selects_refl.
Qed.

(** The record part of [insert_stat]: what is assigned, when something is. *)
Lemma insert_stat_assigns (metadata stat : json) (date : string)
      (df : Pandas.DataFrame) (dim_values : list json) (key : Pandas.tuple)
      (valor : json) :
  api.column_key metadata stat = Ok dim_values ->
  mapM Pandas.as_label dim_values = Ok key ->
  Py.py_in "valor" stat = Ok true ->
  Py.getitem stat "valor" = Ok valor ->
  api.insert_stat metadata date df stat = Pandas.loc_set df date key valor.
Proof.
  intros Hdv Hkey Hin Hval. unfold api.insert_stat.
  rewrite Hdv. cbn [bind]. rewrite Hin. cbn [bind].
  rewrite Hval. cbn [bind]. now rewrite Hkey.
Qed.

Lemma loc_set_on_axis (df : Pandas.DataFrame) (rows : list string)
      (date : string) (i : nat) (key : Pandas.tuple) (v : json) :
  Pandas.index df = Pandas.ObjectIndex rows ->
  Pandas.position date rows = Some i ->
  Pandas.hashable v = true ->
  In key (map fst (Pandas.columns df)) ->
  Pandas.loc_set df date key v
  = Ok (Pandas.mkDataFrame (Pandas.index df) (Pandas.index_name df)
          (Pandas.column_names df)
          (map (fun c => if Pandas.selects key (fst c)
                         then (fst c, Pandas.set_nth i (Some v) (snd c))
                         else c)
               (Pandas.columns df))).
Proof.
  intros Hix Hpos Hv Hin. unfold Pandas.loc_set.
  rewrite Hix, Hpos, (existsb_selects_in _ _ Hin).
  destruct v; try discriminate; reflexivity.
Qed.

(** What overwriting the columns a full-depth key selects does to them. *)
Lemma overwrite_on_axis (cols : list (Pandas.tuple * list Pandas.cell))
      (key : Pandas.tuple) (i : nat) (v : json) (depth : nat) :
  Forall (fun c => List.length (fst c) = depth) cols ->
  List.length key = depth ->
  map fst (map (fun c => if Pandas.selects key (fst c)
                         then (fst c, Pandas.set_nth i (Some v) (snd c))
                         else c) cols)
  = map fst cols
  /\ Forall2 (fun c c' =>
                (fst c = key -> snd c' = Pandas.set_nth i (Some v) (snd c))
                /\ (fst c <> key -> c' = c))
             cols
             (map (fun c => if Pandas.selects key (fst c)
                            then (fst c, Pandas.set_nth i (Some v) (snd c))
                            else c) cols).
Proof.
  intros Hdepth Hlen.
  induction Hdepth as [|c cols Hc _ [IH1 IH2]]; cbn [map];
    [split; [reflexivity | constructor]|].
  assert (Hsel : Pandas.selects key (fst c) = true <-> fst c = key)
    by (apply selects_key_iff; congruence).
  split.
  - f_equal; [|exact IH1].
    match goal with
    | |- context [if ?b then _ else _] => destruct b
    end; reflexivity.
  - constructor; [|exact IH2].
    match goal with
    | |- context [if ?b then _ else _] => destruct b eqn:Es
    end; cbn [fst snd]; split; intros H; try reflexivity.
    + elim H. apply Hsel. exact Es.
    + apply Hsel in H. discriminate (eq_trans (eq_sym H) Es).
Qed.

(** Assigning twice at the same place is assigning the second value, when
    the second value alone can be assigned. *)
Lemma loc_set_twice (df df1 : Pandas.DataFrame) (date : string)
      (key : Pandas.tuple) (v1 v2 : json) :
  existsb (fun c => Pandas.selects key (fst c)) (Pandas.columns df) = true
  \/ (exists text, v2 = JStr text) ->
  Pandas.loc_set df date key v1 = Ok df1 ->
  Pandas.loc_set df1 date key v2 = Pandas.loc_set df date key v2.
Proof.
  intros Hsecond H.
  destruct (loc_set_inv _ _ _ _ _ H)
    as (rows & i & Hix & Hpos & [[Hex ->] | (Hex & Hlen & _ & ->)]); clear H.
  - assert (Hex' : existsb (fun c => Pandas.selects key (fst c))
                     (map (fun c => if Pandas.selects key (fst c)
                                    then (fst c, Pandas.set_nth i (Some v1) (snd c))
                                    else c)
                          (Pandas.columns df)) = true).
    { apply existsb_exists in Hex as (c & Hc & Hs). cbn beta in Hs.
      apply existsb_exists.
      exists (fst c, Pandas.set_nth i (Some v1) (snd c)). split; [|exact Hs].
      apply in_map_iff. exists c. split; [|exact Hc].
      match goal with
      | |- (if ?b then _ else _) = _ => destruct b eqn:E
      end; [reflexivity|].
      discriminate (eq_trans (eq_sym Hs) E). }
    assert (Hmap :
      map (fun c => if Pandas.selects key (fst c)
                    then (fst c, Pandas.set_nth i (Some v2) (snd c))
                    else c)
          (map (fun c => if Pandas.selects key (fst c)
                         then (fst c, Pandas.set_nth i (Some v1) (snd c))
                         else c)
               (Pandas.columns df))
      = map (fun c => if Pandas.selects key (fst c)
                      then (fst c, Pandas.set_nth i (Some v2) (snd c))
                      else c)
            (Pandas.columns df)).
    { rewrite map_map. apply map_ext. intros c.
      destruct (Pandas.selects key (fst c)) eqn:Es; cbn [fst snd].
      - rewrite Es. now rewrite set_nth_twice.
      - rewrite Es. reflexivity. }
    unfold Pandas.loc_set.
    cbn [Pandas.index Pandas.index_name Pandas.column_names Pandas.columns].
    unfold Pandas.cell, Pandas.tuple in *.
    rewrite Hix, Hpos, Hex, Hex', Hmap. reflexivity.
  - assert (Hmap :
      map (fun c => if Pandas.selects key (fst c)
                    then (fst c, Pandas.set_nth i (Some v2) (snd c))
                    else c)
          (Pandas.columns df) = Pandas.columns df).
    { rewrite <- (map_id (Pandas.columns df)) at 2. apply map_ext_in.
      intros c Hc.
      match goal with
      | |- (if ?b then _ else _) = _ => destruct b eqn:Es
      end; [|reflexivity].
      assert (Ht : existsb (fun c => Pandas.selects key (fst c))
                     (Pandas.columns df) = true)
        by (apply existsb_exists; eauto).
      discriminate (eq_trans (eq_sym Ht) Hex). }
    destruct Hsecond as [Hon | (text & ->)];
      [discriminate (eq_trans (eq_sym Hon) Hex)|].
    unfold Pandas.loc_set.
    cbn [Pandas.index Pandas.index_name Pandas.column_names Pandas.columns].
    unfold Pandas.cell, Pandas.tuple in *.
    rewrite Hix, Hpos, Hex. rewrite existsb_app. cbn [existsb fst].
    rewrite selects_refl, orb_true_r.
    apply Nat.eqb_eq in Hlen. rewrite Hlen.
    rewrite map_app. cbn [map fst snd]. rewrite selects_refl, set_nth_twice.
    rewrite Hmap. reflexivity.
Qed.

End Records.

(** X17. A stat record that carries a ["valor"] and whose column key is the
    key of a column is written there: the table keeps its columns, the cell
    of that column at the record's period becomes the value, and the
    columns with another key are left as they are. *)
Theorem on_axis_record_is_written
        (metadata stat : json) (date : string) (df : Pandas.DataFrame)
        (rows : list string) (i : nat) (dim_values : list json)
        (key : Pandas.tuple) (valor : json) :
  Pandas.index df = Pandas.ObjectIndex rows ->
  Pandas.position date rows = Some i ->
  full_depth df ->
  api.column_key metadata stat = Ok dim_values ->
  mapM Pandas.as_label dim_values = Ok key ->
  In key (map fst (Pandas.columns df)) ->
  Py.py_in "valor" stat = Ok true ->
  Py.getitem stat "valor" = Ok valor ->
  Pandas.hashable valor = true ->
  exists df',
    api.insert_stat metadata date df stat = Ok df'
    /\ Pandas.index df' = Pandas.index df
    /\ map fst (Pandas.columns df') = map fst (Pandas.columns df)
    /\ Forall2 (fun c c' =>
                  (fst c = key -> snd c' = Pandas.set_nth i (Some valor) (snd c))
                  /\ (fst c <> key -> c' = c))
               (Pandas.columns df) (Pandas.columns df').
Proof.
  intros Hix Hpos Hdepth Hdv Hkey Hin Hhas Hval Hscalar.
  rewrite (insert_stat_assigns _ _ _ _ _ _ _ Hdv Hkey Hhas Hval).
  rewrite (loc_set_on_axis _ _ _ _ _ _ Hix Hpos Hscalar Hin).
  eexists. split; [reflexivity|]. cbn [Pandas.index Pandas.columns].
  split; [reflexivity|].
  assert (Hlen : List.length key = List.length (Pandas.column_names df)).
  { apply in_map_iff in Hin as (c & <- & Hc).
    unfold full_depth in Hdepth. rewrite Forall_forall in Hdepth. auto. }
  exact (overwrite_on_axis _ _ _ _ _ Hdepth Hlen).
Qed.

Lemma on_axis_record_is_written_witness :
  let stat := JObj [ ("geocod", JStr "Portugal"); ("dim_3_t", JStr "MF");
                     ("valor", JStr "10") ] in
  let df := Pandas.mkDataFrame (Pandas.ObjectIndex [ "2011"; "2012" ]) None
              [ JStr "Location"; JStr "Sex" ]
              [ ([ "Norte"; "MF" ], [ None; None ]);
                ([ "Portugal"; "MF" ], [ None; None ]) ] in
  full_depth df
  /\ In [ "Portugal"; "MF" ] (map fst (Pandas.columns df))
  /\ api.insert_stat Samples.metadata "2012" df stat
     = Ok (Pandas.mkDataFrame (Pandas.ObjectIndex [ "2011"; "2012" ]) None
             [ JStr "Location"; JStr "Sex" ]
             [ ([ "Norte"; "MF" ], [ None; None ]);
               ([ "Portugal"; "MF" ], [ None; Some (JStr "10") ]) ]).
Proof.
  intros stat df.
  assert (Hdepth : full_depth df) by (repeat constructor).
  assert (Hin : In [ "Portugal"; "MF" ] (map fst (Pandas.columns df)))
    by (cbn; auto).
  split; [exact Hdepth | split; [exact Hin|]].
  destruct (on_axis_record_is_written Samples.metadata stat "2012" df
              [ "2011"; "2012" ] 1%nat [ JStr "Portugal"; JStr "MF" ]
              [ "Portugal"; "MF" ] (JStr "10")
              eq_refl eq_refl Hdepth eq_refl eq_refl Hin eq_refl eq_refl eq_refl)
    as (df' & Hdf' & _).
  rewrite Hdf'. vm_compute in Hdf'. now injection Hdf' as <-.
Defined.

(** X18. When two stat records of a period have the same column key and
    both carry a ["valor"], the key being the key of a column of the table
    or the second ["valor"] being text, the second one wins: inserting it
    after the first gives the table that inserting it alone gives. *)
Theorem later_record_wins
        (metadata first second : json) (date : string)
        (df df1 : Pandas.DataFrame) (dv1 dv2 : list json) (key : Pandas.tuple)
        (v1 v2 : json) :
  api.column_key metadata first = Ok dv1 ->
  mapM Pandas.as_label dv1 = Ok key ->
  Py.py_in "valor" first = Ok true ->
  Py.getitem first "valor" = Ok v1 ->
  api.column_key metadata second = Ok dv2 ->
  mapM Pandas.as_label dv2 = Ok key ->
  Py.py_in "valor" second = Ok true ->
  Py.getitem second "valor" = Ok v2 ->
  In key (map fst (Pandas.columns df)) \/ (exists text, v2 = JStr text) ->
  api.insert_stat metadata date df first = Ok df1 ->
  api.insert_stat metadata date df1 second
  = api.insert_stat metadata date df second.
Proof.
  intros Hd1 Hk1 Hi1 Hv1 Hd2 Hk2 Hi2 Hv2 Hsecond H.
  rewrite (insert_stat_assigns _ _ _ _ _ _ _ Hd1 Hk1 Hi1 Hv1) in H.
  rewrite !(insert_stat_assigns _ _ _ _ _ _ _ Hd2 Hk2 Hi2 Hv2).
  apply (loc_set_twice _ _ _ _ v1 _); [|exact H].
  destruct Hsecond as [Hon | Htext]; [left | right; exact Htext].
  now apply existsb_selects_in.
Qed.

Lemma later_record_wins_witness :
  let first := JObj [ ("geocod", JStr "PT"); ("dim_3_t", JStr "MF");
                      ("valor", JStr "10") ] in
  let second := JObj [ ("geocod", JStr "PT"); ("dim_3_t", JStr "MF");
                       ("valor", JStr "11") ] in
  let df := Pandas.mkDataFrame (Pandas.ObjectIndex [ "2011" ]) None
              [ JStr "Location"; JStr "Sex" ]
              [ ([ "Portugal"; "MF" ], [ None ]) ] in
  exists df1,
    api.insert_stat Samples.metadata "2011" df first = Ok df1
    /\ api.insert_stat Samples.metadata "2011" df1 second
       = Ok (Pandas.mkDataFrame (Pandas.ObjectIndex [ "2011" ]) None
               [ JStr "Location"; JStr "Sex" ]
               [ ([ "Portugal"; "MF" ], [ None ]);
                 ([ "PT"; "MF" ], [ Some (JStr "11") ]) ]).
Proof.
  intros first second df. eexists. split; [reflexivity|].
  rewrite (later_record_wins Samples.metadata first second "2011" df _
             [ JStr "PT"; JStr "MF" ] [ JStr "PT"; JStr "MF" ] [ "PT"; "MF" ]
             (JStr "10") (JStr "11")
             eq_refl eq_refl eq_refl eq_refl eq_refl eq_refl eq_refl eq_refl
             (or_intror (ex_intro _ "11" eq_refl)) eq_refl).
  reflexivity.
Defined.

(** X19. Table building is all or nothing about the keys of the records: a
    table is filled only when every stat record of every period, with or
    without a ["valor"], yields a column key, that is carries ["geocod"] and
    the [dim_3_t], [dim_4_t], ... fields; otherwise the loop raises and no
    table is returned. *)
Theorem filled_table_needs_every_key
        (metadata : json) (dados : Py.dict json) (df df' : Pandas.DataFrame)
        (date : string) (period_stats stat : json) (stats : list json) :
  api.fill_table metadata dados df = Ok df' ->
  In (date, period_stats) dados ->
  Py.iter period_stats = Ok stats ->
  In stat stats ->
  exists geocod dims,
    Py.getitem stat "geocod" = Ok geocod
    /\ api.column_key metadata stat = Ok (geocod :: dims).
Proof.
  intros H Hperiod Hiter Hstat. unfold api.fill_table in H.
  destruct (foldM_entries _ _ _ _ _ H Hperiod) as (a & a' & Hp).
  unfold api.insert_period in Hp. cbn [fst snd] in Hp. rewrite Hiter in Hp.
  cbn [bind] in Hp.
  destruct (foldM_entries _ _ _ _ _ Hp Hstat) as (b & b' & Hs).
  unfold api.insert_stat in Hs. invert_bind Hs as dv Hdv.
  pose proof Hdv as Hkey. unfold api.column_key in Hdv.
  invert_bind Hdv as geocod Hg. invert_bind Hdv as descr Hdescr.
  invert_bind Hdv as n Hn. invert_bind Hdv as dims Hdims.
  injection Hdv as <-. eauto.
Qed.

Lemma filled_table_needs_every_key_witness :
  exists df',
    api.fill_table Samples.metadata
      [ ("2011", JArr [ JObj [ ("geocod", JStr "PT"); ("dim_3_t", JStr "MF") ] ]) ]
      (Pandas.mkDataFrame (Pandas.ObjectIndex [ "2011" ]) None
         [ JStr "Location"; JStr "Sex" ] [])
    = Ok df'
    /\ api.column_key Samples.metadata
         (JObj [ ("geocod", JStr "PT"); ("dim_3_t", JStr "MF") ])
       = Ok [ JStr "PT"; JStr "MF" ].
Proof.
  eexists. split; [reflexivity|].
  destruct (filled_table_needs_every_key Samples.metadata
              [ ("2011", JArr [ JObj [ ("geocod", JStr "PT"); ("dim_3_t", JStr "MF") ] ]) ]
              (Pandas.mkDataFrame (Pandas.ObjectIndex [ "2011" ]) None
                 [ JStr "Location"; JStr "Sex" ] [])
              _ "2011" _ (JObj [ ("geocod", JStr "PT"); ("dim_3_t", JStr "MF") ])
              _ eq_refl (or_introl eq_refl) eq_refl (or_introl eq_refl))
    as (g & dims & _ & Hkey).
  rewrite Hkey. vm_compute in Hkey. now injection Hkey as <- <-.
Defined.

(** X20. When exactly one descriptor of the metadata is dimension ["1"],
    the column key of every stat record has as many labels as the column
    axis has levels, so that an assignment either overwrites columns with
    exactly that key or appends one. *)
Theorem record_keys_have_axis_depth
        (metadata stat : json) (dim_values : Py.dict json)
        (mi : Pandas.MultiIndex) (ds : list json) (key : list json) :
  api.col_index metadata dim_values = Ok mi ->
  api.descricao_dim metadata = Ok (JArr ds) ->
  (List.length (filter contributes ds) + 1 = List.length ds)%nat ->
  api.column_key metadata stat = Ok key ->
  List.length key = List.length (Pandas.names mi).
Proof.
  intros Hmi Hds Hone Hkey.
  destruct (col_index_inv _ _ _ Hmi)
    as (ds' & its & nms & levels & Hds' & Hits & Hnms & _ & Hne & Hnames & _).
  unfold api.dim_descriptions in Hds'. rewrite Hds in Hds'.
  cbn [bind Py.iter] in Hds'. injection Hds' as <-.
  assert (Hk : List.length nms = List.length (filter contributes ds)).
  { clear - Hnms. induction Hnms; cbn; congruence. }
  assert (Hpos : List.length (filter contributes ds) <> O).
  { destruct Hits; [now elim Hne | cbn; discriminate]. }
  assert (Hdepth : List.length (Pandas.names mi)
                   = List.length (filter contributes ds)).
  { rewrite Hnames, <- Hk. destruct nms; [now elim Hpos; rewrite <- Hk|].
    reflexivity. }
  unfold api.column_key in Hkey.
  invert_bind Hkey as geocod Hg. invert_bind Hkey as descr Hdescr.
  rewrite Hds in Hdescr. injection Hdescr as <-.
  cbn [Py.len bind] in Hkey. invert_bind Hkey as dims Hdims.
  injection Hkey as <-. apply mapM_length in Hdims.
  cbn [List.length]. rewrite Hdims, Hdepth. unfold Py.range.
  rewrite length_seq. lia.
Qed.

Lemma record_keys_have_axis_depth_witness :
  api.col_index Samples.metadata []
  = Ok (Pandas.mkMultiIndex [ JStr "Location"; JStr "Sex" ]
          [ [ "Portugal"; "MF" ]; [ "Portugal"; "M" ];
            [ "Norte"; "MF" ]; [ "Norte"; "M" ] ])
  /\ List.length
       [ JStr "PT"; JStr "MF" ]
     = List.length [ JStr "Location"; JStr "Sex" ].
Proof.
  split; [reflexivity|].
  exact (record_keys_have_axis_depth Samples.metadata
           (JObj [ ("geocod", JStr "PT"); ("dim_3_t", JStr "MF") ]) [] _ _
           [ JStr "PT"; JStr "MF" ] eq_refl eq_refl eq_refl eq_refl).
Defined.

(* ================================================================== *)
(** * Further properties of the column axis *)

Section Filters.

Lemma filtered_subsequence {X Y : Type} (f : X -> result Y) (p q : X -> bool)
      (l : list X) (a b : list Y) :
  (forall x, p x = true -> q x = true) ->
  mapM f (filter p l) = Ok a ->
  mapM f (filter q l) = Ok b ->
  subsequence a b.
Proof.
  intros Hpq. revert a b; induction l as [|x l IH]; intros a b Ha Hb.
  - cbn in Ha, Hb. injection Ha as <-. injection Hb as <-. constructor.
  - cbn [filter] in Ha, Hb. destruct (p x) eqn:Ep.
    + rewrite (Hpq _ Ep) in Hb. cbn [mapM] in Ha, Hb.
      destruct (f x) as [y|]; [|discriminate]. cbn [bind] in Ha, Hb.
      invert_bind Ha as a' Ha'. invert_bind Hb as b' Hb'.
      injection Ha as <-. injection Hb as <-.
      apply subsequence_keep. now apply IH.
    + destruct (q x).
      * cbn [mapM] in Hb. invert_bind Hb as y Hy. invert_bind Hb as b' Hb'.
        injection Hb as <-. apply subsequence_skip. now apply IH.
      * now apply IH.
Qed.

Lemma append_inj_l (p a b : string) : p +++ a = p +++ b -> a = b.
Proof.
  induction p as [|c p IH]; cbn; [auto|]. intros H. injection H as H. auto.
Qed.

Lemma retained_ignores_Dim1 (dim_values : Py.dict json) (v : json) (s : string)
      (kv : string * json) :
  s <> "1" ->
  retained (Py.dict_set dim_values "Dim1" v) (JStr s) kv
  = retained dim_values (JStr s) kv.
Proof.
  intros Hs. unfold retained. cbn [Py.str].
  rewrite dict_get_set_other; [reflexivity|].
  intros H. apply Hs. apply (append_inj_l "Dim" s "1"). exact H.
Qed.

Lemma foldM_ext_in {X S : Type} (f g : S -> X -> result S) (l : list X) (acc : S) :
  (forall a x, In x l -> f a x = g a x) -> foldM f l acc = foldM g l acc.
Proof.
  revert acc; induction l as [|x l IH]; intros acc H; [reflexivity|].
  cbn [foldM]. rewrite (H acc x (or_introl eq_refl)).
  destruct (g acc x); cbn [bind]; [|reflexivity].
  apply IH. intros a' y Hy. apply H. now right.
Qed.

End Filters.

(** X21. A filter only removes categories: the categories retained for a
    dimension under a filter mapping are those retained without any filter,
    some of them left out and the others in the same order. *)
Theorem filter_only_removes
        (categoria : Py.dict json) (dim_values : Py.dict json) (dim_num : json)
        (cols all : list json) :
  api.dim_columns categoria dim_values dim_num = Ok cols ->
  api.dim_columns categoria [] dim_num = Ok all ->
  subsequence cols all.
Proof.
  rewrite !dim_columns_spec. apply filtered_subsequence.
  intros kv. unfold retained. cbn [Py.dict_get].
  intros H. apply andb_true_iff in H as [H _]. now rewrite H.
Qed.

Lemma filter_only_removes_witness :
  api.dim_columns
    [ ("Dim_Num3_T", JArr [ JObj [ ("categ_dsg", JStr "MF") ] ]);
      ("Dim_Num3_1", JArr [ JObj [ ("categ_dsg", JStr "M") ] ]);
      ("Dim_Num3_2", JArr [ JObj [ ("categ_dsg", JStr "F") ] ]) ]
    [ ("Dim3", JStr "1") ] (JStr "3")
  = Ok [ JStr "M" ]
  /\ subsequence [ JStr "M" ] [ JStr "MF"; JStr "M"; JStr "F" ].
Proof.
  split; [reflexivity|].
  exact (filter_only_removes
           [ ("Dim_Num3_T", JArr [ JObj [ ("categ_dsg", JStr "MF") ] ]);
             ("Dim_Num3_1", JArr [ JObj [ ("categ_dsg", JStr "M") ] ]);
             ("Dim_Num3_2", JArr [ JObj [ ("categ_dsg", JStr "F") ] ]) ]
           [ ("Dim3", JStr "1") ] (JStr "3") _ _ eq_refl eq_refl).
Defined.

(** X22. When the dimension numbers of the descriptors are text, binding
    ["Dim1"] in the filter mapping - which [request] does to the mapping
    [get_indicator] goes on to use - does not change the column axis. *)
Theorem Dim1_filter_leaves_axis
        (metadata : json) (dim_values : Py.dict json) (v : json) :
  text_dim_numbers metadata ->
  api.col_index metadata (Py.dict_set dim_values "Dim1" v)
  = api.col_index metadata dim_values.
Proof.
  intros Htext. unfold api.col_index, api.col_index_parts.
  destruct (api.dim_descriptions metadata) as [ds|] eqn:Hds; [|reflexivity].
  cbn [bind].
  rewrite (foldM_ext_in
             (api.add_dimension metadata (Py.dict_set dim_values "Dim1" v))
             (api.add_dimension metadata dim_values)); [reflexivity|].
  intros acc d Hd. unfold api.add_dimension.
  destruct (Py.getitem d "dim_num") as [n|] eqn:Hn; [|reflexivity].
  cbn [bind]. destruct (Htext ds d n Hds Hd Hn) as (s & ->).
  destruct (Py.eq_str (JStr s) "1") eqn:E1; [reflexivity|].
  destruct (api.categoria_dim metadata) as [cats|]; [|reflexivity].
  cbn [bind]. rewrite !dim_columns_spec.
  assert (Hs : s <> "1") by (intros ->; discriminate).
  now rewrite (filter_ext _ _
                 (fun kv => retained_ignores_Dim1 dim_values v s kv Hs)).
Qed.

Lemma Dim1_filter_leaves_axis_witness :
  text_dim_numbers Samples.metadata
  /\ api.col_index Samples.metadata [ ("Dim3", JStr "1"); ("Dim1", JStr "T") ]
     = api.col_index Samples.metadata [ ("Dim3", JStr "1") ].
Proof.
  assert (H : text_dim_numbers Samples.metadata).
  { intros ds d n Hds Hd Hn. vm_compute in Hds. injection Hds as <-.
    destruct Hd as [<-|[<-|[<-|[]]]]; vm_compute in Hn; injection Hn as <-;
      eauto. }
  split; [exact H|].
  exact (Dim1_filter_leaves_axis Samples.metadata [ ("Dim3", JStr "1") ]
           (JStr "T") H).
Defined.

(* ================================================================== *)
(** * Further properties of the export *)

Section ExportShape.

Variable number : Type.
Variable to_number : json -> option number.

Lemma dict_get_map {V W : Type} (f : V -> W) (d : Py.dict V) (k : string) :
  Py.dict_get (map (fun kv => (fst kv, f (snd kv))) d) k
  = option_map f (Py.dict_get d k).
Proof.
  induction d as [|[k' v'] d IH]; [reflexivity|]. cbn [map Py.dict_get fst snd].
  destruct (String.eqb k' k); [reflexivity | exact IH].
Qed.

Lemma zip_length {X Y : Type} (l : list X) (l' : list Y) :
  List.length l = List.length l' ->
  List.length (Pandas.zip l l') = List.length l.
Proof.
  revert l'; induction l as [|x l IH]; intros [|y l'] H; cbn in *;
    try discriminate; auto.
Qed.

Lemma melt_length {L : Type} (rows : list L)
      (cols : list (Pandas.tuple * list Pandas.cell)) :
  Forall (fun c => List.length (snd c) = List.length rows) cols ->
  List.length (Pandas.stack rows cols) = (List.length cols * List.length rows)%nat.
Proof.
  intros H. unfold Pandas.stack.
  induction H as [|c cols Hc _ IH]; [reflexivity|].
  cbn [flat_map List.length]. rewrite List.length_app, List.length_map, IH.
  rewrite zip_length by (symmetry; exact Hc). cbn. lia.
Qed.

Lemma to_numeric_coerce_length (column : list Pandas.cell) :
  exists values,
    Pandas.to_numeric number to_number Pandas.errors_coerce column = Ok values
    /\ List.length values = List.length column.
Proof.
  destruct (to_numeric_coerce number to_number column) as (values & Hv & Hall).
  exists values. split; [exact Hv|].
  clear Hv. induction Hall; cbn; congruence.
Qed.

End ExportShape.




